(** * Flex Living reviews: normalisation, approval store, filter/sort engine
      and statistics (backend/server.js, frontend/src/App.js)

    The development is a shallow embedding of the review pipeline:
    - [Num]: JavaScript numbers (binary64) with the operations the code uses;
    - [Js]: the primitive values found in rating positions, truthiness, [||];
    - [Server]: calculateOverallRating, the three request handlers and the
      approval store, as state-passing functions over the store;
    - [Dashboard]: the filter/sort effect and getStats of the React front end. *)

From Stdlib Require Import ZArith Lia List Bool Ascii String Sorted Permutation.
From stdpp Require Import gmap strings list pretty.

(* ===================================================================== *)
(** ** JavaScript numbers *)
(* ===================================================================== *)

Module Num.
Local Open Scope Z_scope.

(** Every finite binary64 value is an integer multiple of the least
    subnormal 2^-1074.  A finite number is stored as that integer [k];
    the value one is [U] units, and every operation rounds its exact result
    to a 53-bit significand.  The two zeros are not distinguished: no
    operation embedded below divides by a value that can be a negative zero. *)
Definition U : Z := 2 ^ 1074.

Inductive number : Set :=
| NaN
| PInf
| NInf
| Fin (k : Z).

(** Nearest integer to [a / b], ties to even ([0 <= a], [0 < b]). *)
Definition rne (a b : Z) : Z :=
  let d := a / b in
  match 2 * (a mod b) ?= b with
  | Lt => d
  | Gt => d + 1
  | Eq => if Z.even d then d else d + 1
  end.

(** Nearest magnitude with a 53-bit significand to [p / q] units.  Below
    2^53 units (subnormals and the first binade) the grid step is one unit;
    above, the step is 2^s with s = floor(log2 (p/q)) - 52. *)
Definition round_mag (p q : Z) : Z :=
  let f := p / q in
  if f <? 2 ^ 53 then rne p q
  else let s := Z.log2 f - 52 in rne p (q * 2 ^ s) * 2 ^ s.

(** First magnitude past the largest finite double, in units. *)
Definition OVF : Z := 2 ^ 2098.

(** Round-to-nearest-even of the rational [p / q] units ([0 < q]). *)
Definition rnd (p q : Z) : number :=
  if 0 <=? p then
    let k := round_mag p q in if k <? OVF then Fin k else PInf
  else
    let k := round_mag (- p) q in if k <? OVF then Fin (- k) else NInf.

Definition of_Z (n : Z) : number := rnd (n * U) 1.
Definition of_nat (n : nat) : number := of_Z (Z.of_nat n).

(** The double written as the decimal literal [n / 10^d]. *)
Definition of_decimal (n : Z) (d : Z) : number := rnd (n * U) (10 ^ d).

Definition zero : number := Fin 0.

Definition neg (x : number) : number :=
  match x with
  | NaN => NaN
  | PInf => NInf
  | NInf => PInf
  | Fin k => Fin (- k)
  end.

Definition add (x y : number) : number :=
  match x, y with
  | NaN, _ | _, NaN => NaN
  | PInf, NInf | NInf, PInf => NaN
  | PInf, _ | _, PInf => PInf
  | NInf, _ | _, NInf => NInf
  | Fin a, Fin b => rnd (a + b) 1
  end.

Definition sub (x y : number) : number := add x (neg y).

Definition mul (x y : number) : number :=
  match x, y with
  | NaN, _ | _, NaN => NaN
  | Fin a, Fin b => rnd (a * b) U
  | Fin a, PInf | PInf, Fin a =>
      if a =? 0 then NaN else if 0 <? a then PInf else NInf
  | Fin a, NInf | NInf, Fin a =>
      if a =? 0 then NaN else if 0 <? a then NInf else PInf
  | PInf, PInf | NInf, NInf => PInf
  | PInf, NInf | NInf, PInf => NInf
  end.

Definition div (x y : number) : number :=
  match x, y with
  | NaN, _ | _, NaN => NaN
  | Fin a, Fin b =>
      if b =? 0 then
        (if a =? 0 then NaN else if 0 <? a then PInf else NInf)
      else if 0 <? b then rnd (a * U) b
      else rnd (- a * U) (- b)
  | Fin _, (PInf | NInf) => zero
  | PInf, Fin b => if 0 <=? b then PInf else NInf
  | NInf, Fin b => if 0 <=? b then NInf else PInf
  | (PInf | NInf), (PInf | NInf) => NaN
  end.

(** [x < y]; false as soon as one side is NaN. *)
Definition ltb (x y : number) : bool :=
  match x, y with
  | NaN, _ | _, NaN => false
  | _, NInf => false
  | NInf, _ => true
  | PInf, _ => false
  | _, PInf => true
  | Fin a, Fin b => a <? b
  end.

Definition gtb (x y : number) : bool := ltb y x.

Definition is_nan (x : number) : bool :=
  match x with NaN => true | _ => false end.

Definition is_finite (x : number) : bool :=
  match x with Fin _ => true | _ => false end.

(** [lo <= x <= hi] for finite bounds given in units. *)
Definition in_range (lo hi : Z) (x : number) : Prop :=
  match x with Fin k => lo <= k <= hi | _ => False end.

End Num.

Import Num.

(* ===================================================================== *)
(** ** Primitive values, truthiness and number formatting *)
(* ===================================================================== *)

Module Js.
Local Open Scope Z_scope.

(** The values a rating position holds.  The channel schema gives a review
    rating and a category rating as a number or null; a missing field reads
    as undefined, and booleans are kept since JSON can carry them.  Strings
    and objects in a rating position are outside the embedding. *)
Inductive value : Set :=
| JUndefined
| JNull
| JBool (b : bool)
| JNum (x : number).

(** ToBoolean: undefined, null, false, 0 and NaN are falsy. *)
Definition to_boolean (v : value) : bool :=
  match v with
  | JUndefined | JNull => false
  | JBool b => b
  | JNum NaN => false
  | JNum (Fin k) => negb (k =? 0)
  | JNum _ => true
  end.

(** ToNumber. *)
Definition to_number (v : value) : number :=
  match v with
  | JUndefined => NaN
  | JNull => zero
  | JBool b => if b then of_Z 1 else zero
  | JNum x => x
  end.

(** [v || d] (the right operand is pure wherever the code uses it). *)
Definition or_else (v d : value) : value :=
  if to_boolean v then v else d.

(** The keys that an object literal [{}] inherits from Object.prototype
    (ECMA-262, 20.1.3 and B.2.2).  Reading such a key from an object that
    has no own entry of that name gives a function, or for __proto__ the
    prototype object itself: a truthy object either way, and one that
    accepts property writes. *)
Definition object_prototype_keys : list string :=
  [ "constructor"; "hasOwnProperty"; "isPrototypeOf"; "propertyIsEnumerable";
    "toLocaleString"; "toString"; "valueOf"; "__proto__";
    "__defineGetter__"; "__defineSetter__"; "__lookupGetter__"; "__lookupSetter__" ].

Definition inherited_key (key : string) : bool :=
  existsb (String.eqb key) object_prototype_keys.

(** A JSON leaf that the code leaves either as a number or as a string. *)
Inductive scalar : Set :=
| SNum (x : number)
| SStr (s : string).

(** The text produced by [x.toFixed(1)], kept as its parse: not-a-number,
    an infinity, a decimal with one fraction digit ([n] tenths), or, from
    10^21 upwards, the number's own ToString form. *)
Inductive fixed : Set :=
| FxNaN
| FxInf (negative : bool)
| FxDec (negative : bool) (n : Z)
| FxBig (negative : bool) (k : Z).

(** Number.prototype.toFixed with one fraction digit: the sign is split off,
    then n is the integer for which n/10 is nearest to the magnitude, the
    larger n on a tie. *)
Definition toFixed1 (x : number) : fixed :=
  match x with
  | NaN => FxNaN
  | PInf => FxInf false
  | NInf => FxInf true
  | Fin k =>
      let negative := k <? 0 in
      let m := Z.abs k in
      if 10 ^ 21 * U <=? m then FxBig negative m
      else FxDec negative ((20 * m + U) / (2 * U))
  end.

(** Number(s) and parseFloat(s) on a text produced by toFixed(1): the
    decimal is read back as the nearest double; ToString round-trips. *)
Definition fixed_to_number (f : fixed) : number :=
  match f with
  | FxNaN => NaN
  | FxInf negative => if negative then NInf else PInf
  | FxDec negative n => if negative then neg (of_decimal n 1) else of_decimal n 1
  | FxBig negative k => if negative then Fin (- k) else Fin k
  end.

(** Number::toString of an integer-valued double [N >= 10^21]: the fewest
    significant digits [s] (a [k]-digit integer) and the exponent [n] with
    s * 10^(n-k) rounding to the number, the closest such s. *)
Definition digits_of (N : Z) : nat := String.length (pretty N).

Definition shortest_at (N : Z) (k : nat) : option (Z * Z) :=
  let nd := Z.of_nat (digits_of N) in
  let e := nd - Z.of_nat k in
  let lo := N / 10 ^ e in
  let hi := lo + 1 in
  let ok s := match of_Z (s * 10 ^ e), of_Z N with
              | Fin a, Fin b => a =? b
              | _, _ => false
              end in
  let pick := if ok lo && ok hi then
                (match N - lo * 10 ^ e ?= hi * 10 ^ e - N with
                 | Lt => lo | Gt => hi
                 | Eq => if Z.even lo then lo else hi end)
              else if ok lo then lo else hi in
  if ok lo || ok hi then
    Some (if pick =? 10 ^ Z.of_nat k then (10 ^ (Z.of_nat k - 1), nd + 1)
          else (pick, nd))
  else None.

Definition shortest (N : Z) : Z * Z :=
  default (N, Z.of_nat (digits_of N))
    (List.fold_right (fun k acc => match shortest_at N k with
                                | Some r => Some r
                                | None => acc end)
       None (List.seq 1 17)).

Fixpoint strip_zeros (fuel : nat) (s : Z) : Z :=
  match fuel with
  | O => s
  | S fuel' => if (s mod 10 =? 0) && negb (s =? 0) then strip_zeros fuel' (s / 10) else s
  end.

Definition big_to_string (k : Z) : string :=
  let '(s, n) := shortest (k / U) in
  let digits := pretty (strip_zeros 17 s) in
  let mantissa := match digits with
                  | String c EmptyString => digits
                  | String c rest => String c (String "." rest)
                  | EmptyString => digits
                  end in
  (mantissa ++ "e+" ++ pretty (n - 1))%string.

(** The characters of a toFixed(1) result. *)
Definition render (f : fixed) : string :=
  match f with
  | FxNaN => "NaN"
  | FxInf negative => if negative then "-Infinity" else "Infinity"
  | FxDec negative n =>
      ((if negative then "-" else "") ++ pretty (n / 10) ++ "." ++ pretty (n mod 10))%string
  | FxBig negative k => ((if negative then "-" else "") ++ big_to_string k)%string
  end.

(** parseFloat applied to a value that is either a toFixed text or a number
    (a number is first printed, and parses back to itself). *)
Definition parseFloat (v : fixed + number) : number :=
  match v with
  | inl f => fixed_to_number f
  | inr x => x
  end.

End Js.

Import Js.

(* ===================================================================== *)
(** ** Array.prototype.sort *)
(* ===================================================================== *)

(** The sort is stable and reads a NaN comparator result as +0.  It is
    modelled as a stable insertion sort: an element moves in front of an
    earlier one only when the comparator says it is strictly smaller.  For
    a consistent comparator every conforming engine returns this list. *)
Section Sort.
Context {A : Type} (compareFn : A -> A -> number).

Definition before (x y : A) : bool := ltb (compareFn x y) zero.

Fixpoint insert_sorted (x : A) (l : list A) : list A :=
  match l with
  | [] => [x]
  | y :: l' => if before y x then y :: insert_sorted x l' else x :: y :: l'
  end.

Fixpoint js_sort (l : list A) : list A :=
  match l with
  | [] => []
  | x :: l' => insert_sorted x (js_sort l')
  end.
End Sort.

(* ===================================================================== *)
(** ** backend/server.js *)
(* ===================================================================== *)

Module Server.

Record Category : Set := {
  category : string;
  cat_rating : value
}.

(** A review as the channel (or the mock table) has it. *)
Record RawReview : Set := {
  raw_id : Z;
  raw_type : string;
  raw_status : string;
  raw_rating : value;
  raw_publicReview : string;
  raw_reviewCategory : option (list Category);
  raw_submittedAt : string;
  raw_guestName : string;
  raw_listingName : string
}.

(** The normalised review sent to the dashboard. *)
Record Review : Set := {
  id : Z;
  type : string;
  status : string;
  rating : value;
  publicReview : string;
  reviewCategory : list Category;
  submittedAt : string;
  guestName : string;
  listingName : string;
  approved : bool;
  channel : string
}.

(** [let reviewApprovals = new Map()]: review id text to approval flag. *)
Abbreviation Approvals := (gmap string bool).

Definition mockReviews : list RawReview :=
  [ {| raw_id := 7453;
       raw_type := "guest-to-host";
       raw_status := "published";
       raw_rating := JNull;
       raw_publicReview := "Shane and family are wonderful! Would definitely host again. The property was immaculate and they followed all house rules perfectly. Communication was excellent throughout their stay.";
       raw_reviewCategory := Some
         [ {| category := "cleanliness"; cat_rating := JNum (of_Z 9) |};
           {| category := "location"; cat_rating := JNum (of_Z 10) |};
           {| category := "amenities"; cat_rating := JNum (of_Z 9) |};
           {| category := "hospitality"; cat_rating := JNum (of_Z 10) |} ];
       raw_submittedAt := "2024-11-28 16:20:12";
       raw_guestName := "Lisa Rodriguez";
       raw_listingName := "2B N1 A - 29 Shoreditch Heights" |} ].

(** [categories.reduce((sum, cat) => sum + (cat.rating || 0), 0)] *)
Definition category_total (categories : list Category) : number :=
  fold_left (fun sum cat => add sum (to_number (or_else (cat_rating cat) (JNum zero))))
    categories zero.

Definition calculateOverallRating (categories : option (list Category)) : number :=
  match categories with
  | None => of_decimal 75 1
  | Some [] => of_decimal 75 1
  | Some cats =>
      let total := category_total cats in
      fixed_to_number (toFixed1 (div total (of_nat (length cats))))
  end.

(** [review.rating || calculateOverallRating(review.reviewCategory)] *)
Definition overall_rating (review : RawReview) : value :=
  or_else (raw_rating review) (JNum (calculateOverallRating (raw_reviewCategory review))).

(** *** Handlers as computations over the approval store *)

Definition Handler (A : Type) : Type := Approvals -> A * Approvals.

Definition ret {A} (a : A) : Handler A := fun s => (a, s).

Definition bind {A B} (m : Handler A) (k : A -> Handler B) : Handler B :=
  fun s => let '(a, s') := m s in k a s'.

Notation "'do' x <- m ; k" := (bind m (fun x => k))
  (at level 10, x name, m at level 100, k at level 200).

(** [reviewApprovals.get(key) || false] *)
Definition getApproval (key : string) : Handler bool :=
  fun s => (default false (s !! key), s).

(** [reviewApprovals.set(key, approved)] *)
Definition store_set (key : string) (flag : bool) : Handler unit :=
  fun s => (tt, <[key := flag]> s).

Fixpoint mapM {A B} (f : A -> Handler B) (l : list A) : Handler (list B) :=
  match l with
  | [] => ret []
  | x :: l' => do y <- f x; do ys <- mapM f l'; ret (y :: ys)
  end.

(** A computation that leaves the store as it found it. *)
Definition read_only {A} (m : Handler A) : Prop := forall s, snd (m s) = s.

(** [review.id.toString()] *)
Definition id_key (n : Z) : string := pretty n.

(** The body of [reviews.map(review => ...)] in the fetch route. *)
Definition normalize (review : RawReview) : Handler Review :=
  let reviewId := id_key (raw_id review) in
  do flag <- getApproval reviewId;
  ret {| id := raw_id review;
         type := raw_type review;
         status := raw_status review;
         rating := overall_rating review;
         publicReview := raw_publicReview review;
         reviewCategory := default [] (raw_reviewCategory review);
         submittedAt := raw_submittedAt review;
         guestName := raw_guestName review;
         listingName := raw_listingName review;
         approved := flag;
         channel := "hostaway" |}.

(** What the outbound call to the channel came to: it threw (time-out,
    transport or status error); or it answered, [response.data.result]
    being absent (or falsy, or without a positive length, which the route
    treats alike) or a list of reviews; or it answered with a result of
    positive length on which the normalisation throws: a text, which has no
    [map], or a list holding null or a review without id, on which
    [review.id.toString()] throws.  [message] is then the text of the
    TypeError that the engine raises. *)
Inductive ChannelReply : Set :=
| ChannelThrew
| ChannelAnswered (result : option (list RawReview))
| ChannelMalformed (message : string).

Inductive FetchResponse : Set :=
| FetchOk (data : list Review) (total : nat) (source : string) (message : string)
| FetchError (error : string) (message : string).

Definition fetch_success (r : FetchResponse) : bool :=
  match r with FetchOk _ _ _ _ => true | FetchError _ _ => false end.

Definition fetch_data (r : FetchResponse) : list Review :=
  match r with FetchOk d _ _ _ => d | FetchError _ _ => [] end.

Definition fetch_source (r : FetchResponse) : option string :=
  match r with FetchOk _ _ src _ => Some src | FetchError _ _ => None end.

(** [let apiReviews = []; try { ... } catch { }] *)
Definition apiReviews_of (reply : ChannelReply) : list RawReview :=
  match reply with
  | ChannelAnswered (Some result) => if (0 <? length result)%nat then result else []
  | _ => []
  end.

(** The body of the outer [try] of the fetch route once the channel has
    been asked. *)
Definition respond_reviews (apiReviews : list RawReview) : Handler FetchResponse :=
  let external := (0 <? length apiReviews)%nat in
  let reviews := if external then apiReviews else mockReviews in
  do normalizedReviews <- mapM normalize reviews;
  ret (FetchOk normalizedReviews (length normalizedReviews)
         (if external then "hostaway_api" else "mock_data")
         (if external then "Data from Hostaway API"
          else "Using mock data (sandbox environment)")).

(** GET /api/reviews/hostaway.  The callback of [reviews.map] only reads the
    store, so when it throws the outer [catch] answers from the store as it
    was. *)
Definition get_reviews_hostaway (reply : ChannelReply) : Handler FetchResponse :=
  match reply with
  | ChannelMalformed message => ret (FetchError "Failed to fetch reviews" message)
  | _ => respond_reviews (apiReviews_of reply)
  end.

(** A JSON value of a request body; the handler only asks for its
    [typeof], so arrays and objects carry no contents here. *)
Inductive json : Set :=
| JsonNull
| JsonBool (b : bool)
| JsonNumber (x : number)
| JsonString (s : string)
| JsonArray
| JsonObject.

(** [typeof v === 'boolean'] *)
Definition is_boolean (v : option json) : bool :=
  match v with Some (JsonBool _) => true | _ => false end.

Inductive PatchResponse : Set :=
| PatchOk (message : string) (reviewId : string) (flag : bool)
| PatchInvalid (error : string).

Definition patch_success (r : PatchResponse) : bool :=
  match r with PatchOk _ _ _ => true | PatchInvalid _ => false end.

(** PATCH /api/reviews/:id/approval; [approved] is [req.body.approved],
    [None] when the body has no such field. *)
Definition patch_review_approval (reviewId : string) (approved : option json)
  : Handler PatchResponse :=
  match approved with
  | Some (JsonBool flag) =>
      do _ <- store_set reviewId flag;
      ret (PatchOk (if flag then "Review approved successfully"
                    else "Review hidden successfully") reviewId flag)
  | _ => ret (PatchInvalid "Invalid approval status. Must be boolean.")
  end.

(** *** GET /api/reviews/statistics *)

(** [{...review, rating: ..., approved: ...}] *)
Record ScoredReview : Set := {
  base : RawReview;
  sr_rating : value;
  sr_approved : bool
}.

Definition score (review : RawReview) : Handler ScoredReview :=
  do flag <- getApproval (id_key (raw_id review));
  ret {| base := review; sr_rating := overall_rating review; sr_approved := flag |}.

Record PropertyStat : Set := {
  ps_total : nat;
  ps_approved : nat;
  ps_averageRating : scalar;
  ps_totalRating : number
}.

Record Overall : Set := {
  totalReviews : nat;
  averageRating : scalar;
  approvedCount : nat;
  pendingCount : nat;
  approvalRate : scalar
}.

Record Activity : Set := {
  act_id : Z;
  act_guestName : string;
  act_listingName : string;
  act_rating : value;
  act_submittedAt : string;
  act_approved : bool
}.

Inductive StatisticsResponse : Type :=
| StatsOk (overall : Overall) (byProperty : gmap string PropertyStat)
    (recentActivity : list Activity)
| StatsError (error : string) (message : string).

Definition stats_overall (r : StatisticsResponse) : option Overall :=
  match r with StatsOk o _ _ => Some o | StatsError _ _ => None end.

(** [reviews.reduce((sum, review) => sum + review.rating, 0)] *)
Definition rating_total (reviews : list ScoredReview) : number :=
  fold_left (fun sum review => add sum (to_number (sr_rating review))) reviews zero.

(** The increments of the [forEach] body on the entry it reads. *)
Definition property_increment (entry : PropertyStat) (review : ScoredReview) : PropertyStat :=
  {| ps_total := S (ps_total entry);
     ps_approved := if sr_approved review then S (ps_approved entry)
                    else ps_approved entry;
     ps_averageRating := ps_averageRating entry;
     ps_totalRating := add (ps_totalRating entry) (to_number (sr_rating review)) |}.

(** The body of [reviews.forEach(review => ...)] filling propertyStats, the
    map holding the own entries of the object [{}].  [propertyStats[key]]
    reads the own entry, else the member inherited under that name: for an
    inherited key the test [!propertyStats[key]] fails, no own entry is made
    and the increments are written to the inherited object, not to the
    table. *)
Definition property_step (propertyStats : gmap string PropertyStat) (review : ScoredReview)
  : gmap string PropertyStat :=
  let key := raw_listingName (base review) in
  match propertyStats !! key with
  | Some entry => <[key := property_increment entry review]> propertyStats
  | None =>
      if inherited_key key then propertyStats
      else <[key := property_increment
                      {| ps_total := 0; ps_approved := 0;
                         ps_averageRating := SNum zero; ps_totalRating := zero |}
                      review]> propertyStats
  end.

(** [Object.keys(propertyStats).forEach(property => ...)] *)
Definition property_average (entry : PropertyStat) : PropertyStat :=
  {| ps_total := ps_total entry;
     ps_approved := ps_approved entry;
     ps_averageRating :=
       SStr (render (toFixed1 (div (ps_totalRating entry) (of_nat (ps_total entry)))));
     ps_totalRating := ps_totalRating entry |}.

Definition project_activity (review : ScoredReview) : Activity :=
  {| act_id := raw_id (base review);
     act_guestName := raw_guestName (base review);
     act_listingName := raw_listingName (base review);
     act_rating := sr_rating review;
     act_submittedAt := raw_submittedAt (base review);
     act_approved := sr_approved review |}.

Section Statistics.
(** Date parsing is the engine's: [date_parse s] is the time value in
    milliseconds of [new Date(s)], [None] for an Invalid Date. *)
Variable date_parse : string -> option Z.

Definition time_value (s : string) : number :=
  match date_parse s with
  | Some t => of_Z t
  | None => NaN
  end.

Definition statistics_of (reviews : list ScoredReview) : StatisticsResponse :=
  let totalReviews := length reviews in
  let averageRating : fixed + number :=
    if (0 <? length reviews)%nat
    then inl (toFixed1 (div (rating_total reviews) (of_nat (length reviews))))
    else inr zero in
  let approvedCount := length (List.filter sr_approved reviews) in
  let pendingCount := (totalReviews - approvedCount)%nat in
  let propertyStats := property_average <$> fold_left property_step reviews ∅ in
  StatsOk
    {| totalReviews := totalReviews;
       averageRating := SNum (parseFloat averageRating);
       approvedCount := approvedCount;
       pendingCount := pendingCount;
       approvalRate :=
         if (0 <? totalReviews)%nat
         then SStr (render (toFixed1
                (mul (div (of_nat approvedCount) (of_nat totalReviews)) (of_Z 100))))
         else SNum zero |}
    propertyStats
    (map project_activity
       (take 5
          (js_sort (fun a b => sub (time_value (raw_submittedAt (base b)))
                                   (time_value (raw_submittedAt (base a))))
             reviews))).

(** The route body over a review table. *)
Definition statistics_over (table : list RawReview) : Handler StatisticsResponse :=
  do reviews <- mapM score table;
  ret (statistics_of reviews).

(** GET /api/reviews/statistics *)
Definition get_reviews_statistics : Handler StatisticsResponse :=
  statistics_over mockReviews.
End Statistics.

End Server.

(* ===================================================================== *)
(** ** frontend/src/App.js *)
(* ===================================================================== *)

Module Dashboard.
Import Server.

Record Filters : Set := {
  property : string;
  f_rating : string;
  f_status : string;
  date : string;
  sortBy : string;
  f_channel : string
}.

Record DateRange : Set := {
  start : string;
  end_ : string
}.

(** A string is truthy when it is not empty. *)
Definition nonempty (s : string) : bool := negb (String.eqb s "").

(** [s.includes(sub)] *)
Definition includes (s sub : string) : bool :=
  match index 0 sub s with Some _ => true | None => false end.

Record Stats : Set := {
  total : nat;
  avgRating : string;
  st_approved : nat;
  pending : nat
}.

(** [(review.rating || 0)] as a number *)
Definition rating_or_zero (review : Review) : number :=
  to_number (or_else (rating review) (JNum zero)).

Definition getStats (filteredReviews : list Review) : Stats :=
  let total := length filteredReviews in
  let avgRating :=
    if (0 <? total)%nat
    then render (toFixed1
           (div (fold_left (fun sum review => add sum (rating_or_zero review))
                   filteredReviews zero)
                (of_nat total)))
    else "0.0" in
  let approved := length (List.filter Server.approved filteredReviews) in
  {| total := total; avgRating := avgRating; st_approved := approved;
     pending := (total - approved)%nat |}.

Section Engine.
(** Engine built-ins: date parsing as in [Server.time_value], Unicode
    lower-casing, and parseInt. *)
Variable date_parse : string -> option Z.
Variable toLowerCase : string -> string.
Variable parseInt : string -> number.

Variable searchTerm : string.
Variable dateRange : DateRange.
Variable filters : Filters.

Definition date_of (s : string) : number := time_value date_parse s.

(** The callback of [reviews.filter(review => ...)]. *)
Definition keep (review : Review) : bool :=
  let include := true in
  let include :=
    if nonempty searchTerm then
      let searchLower := toLowerCase searchTerm in
      include && (includes (toLowerCase (guestName review)) searchLower
                  || includes (toLowerCase (publicReview review)) searchLower
                  || includes (toLowerCase (listingName review)) searchLower)
    else include in
  let include :=
    if nonempty (property filters)
       && negb (String.eqb (listingName review) (property filters))
    then false else include in
  let include :=
    if nonempty (f_rating filters)
       && ltb (rating_or_zero review) (parseInt (f_rating filters))
    then false else include in
  let include :=
    if String.eqb (f_status filters) "approved" && negb (approved review)
    then false else include in
  let include :=
    if String.eqb (f_status filters) "pending" && approved review
    then false else include in
  let include :=
    if nonempty (f_channel filters)
       && negb (String.eqb (channel review) (f_channel filters))
    then false else include in
  let include :=
    if nonempty (start dateRange)
       && ltb (date_of (submittedAt review)) (date_of (start dateRange))
    then false else include in
  let include :=
    if nonempty (end_ dateRange)
       && gtb (date_of (submittedAt review)) (date_of (end_ dateRange))
    then false else include in
  include.

(** The comparator of [filtered.sort((a, b) => ...)]. *)
Definition compare_reviews (a b : Review) : number :=
  if String.eqb (sortBy filters) "date-asc" then
    sub (date_of (submittedAt a)) (date_of (submittedAt b))
  else if String.eqb (sortBy filters) "date-desc" then
    sub (date_of (submittedAt b)) (date_of (submittedAt a))
  else if String.eqb (sortBy filters) "rating-asc" then
    sub (rating_or_zero a) (rating_or_zero b)
  else if String.eqb (sortBy filters) "rating-desc" then
    sub (rating_or_zero b) (rating_or_zero a)
  else
    sub (date_of (submittedAt b)) (date_of (submittedAt a)).

(** The filtering and sorting effect: the value given to
    [setFilteredReviews]. *)
Definition filteredReviews (reviews : list Review) : list Review :=
  js_sort compare_reviews (List.filter keep reviews).
End Engine.

End Dashboard.

(* ===================================================================== *)
(** ** Concrete built-ins for closed examples *)
(* ===================================================================== *)

(** The engine functions that the dashboard takes as parameters, in a
    form that computes: ASCII lower-casing, parseInt on an optional sign
    and decimal digits, and date texts of the two shapes the review data
    uses, ["YYYY-MM-DD"] and ["YYYY-MM-DD HH:MM:SS"], read in a UTC host.
    Every other text is an Invalid Date here. *)
Module Sample.
Local Open Scope Z_scope.

Definition lower_char (c : ascii) : ascii :=
  let n := nat_of_ascii c in
  if ((65 <=? n) && (n <=? 90))%nat then ascii_of_nat (n + 32) else c.

Fixpoint toLowerCase (s : string) : string :=
  match s with
  | EmptyString => EmptyString
  | String c s' => String (lower_char c) (toLowerCase s')
  end.

Definition digit (c : ascii) : option Z :=
  let n := Z.of_nat (nat_of_ascii c) in
  if (48 <=? n) && (n <=? 57) then Some (n - 48) else None.

(** Value of the leading decimal digits, [None] when there are none. *)
Fixpoint leading_digits (acc : option Z) (s : string) : option Z :=
  match s with
  | EmptyString => acc
  | String c s' =>
      match digit c with
      | Some d => leading_digits (Some (10 * default 0 acc + d)) s'
      | None => acc
      end
  end.

Definition parseInt (s : string) : number :=
  match s with
  | String "-" s' =>
      match leading_digits None s' with Some n => of_Z (- n) | None => NaN end
  | _ => match leading_digits None s with Some n => of_Z n | None => NaN end
  end.

(** All characters are digits. *)
Fixpoint all_digits (acc : Z) (s : string) : option Z :=
  match s with
  | EmptyString => Some acc
  | String c s' =>
      match digit c with
      | Some d => all_digits (10 * acc + d) s'
      | None => None
      end
  end.

Definition field (from len : nat) (s : string) : option Z :=
  let part := substring from len s in
  if (String.length part =? len)%nat then all_digits 0 part else None.

(** Days from 1970-01-01 to the civil date [y-m-d]. *)
Definition days_from_civil (y m d : Z) : Z :=
  let y' := if m <=? 2 then y - 1 else y in
  let era := y' / 400 in
  let yoe := y' - era * 400 in
  let doy := (153 * (if 2 <? m then m - 3 else m + 9) + 2) / 5 + d - 1 in
  let doe := yoe * 365 + yoe / 4 - yoe / 100 + doy in
  era * 146097 + doe - 719468.

Definition date_parse (s : string) : option Z :=
  let n := String.length s in
  match field 0 4 s, field 5 2 s, field 8 2 s with
  | Some y, Some m, Some d =>
      if negb (String.eqb (substring 4 1 s) "-" && String.eqb (substring 7 1 s) "-"
               && (1 <=? m) && (m <=? 12) && (1 <=? d) && (d <=? 31))
      then None
      else if (n =? 10)%nat then Some (days_from_civil y m d * 86400000)
      else if (n =? 19)%nat then
        match field 11 2 s, field 14 2 s, field 17 2 s with
        | Some h, Some mi, Some sec =>
            if String.eqb (substring 10 1 s) " " && String.eqb (substring 13 1 s) ":"
               && String.eqb (substring 16 1 s) ":"
               && (h <=? 23) && (mi <=? 59) && (sec <=? 59)
            then Some (((days_from_civil y m d * 24 + h) * 60 + mi) * 60000 + sec * 1000)
            else None
        | _, _, _ => None
        end
      else None
  | _, _, _ => None
  end.

End Sample.

(* ===================================================================== *)
(** ** Definitions used to state the properties *)
(* ===================================================================== *)

Module Spec.
Import Server Dashboard.
Local Open Scope Z_scope.

(** A score that is absent (falsy) or a number on the 0-10 scale. *)
Definition on_scale (v : value) : bool :=
  negb (to_boolean v)
  || match v with
     | JNum (Fin k) => (0 <=? k) && (k <=? 10 * U)
     | _ => false
     end.

Definition scores_on_scale (review : RawReview) : bool :=
  forallb (fun cat => on_scale (cat_rating cat)) (default [] (raw_reviewCategory review)).

(** A number between 0 and 10. *)
Definition zero_to_ten (v : value) : Prop :=
  match v with JNum x => in_range 0 (10 * U) x | _ => False end.

(** The approval store after a sequence of approval requests. *)
Definition run_patches (requests : list (string * option json)) (s : Approvals) : Approvals :=
  fold_left (fun s request => snd (patch_review_approval (fst request) (snd request) s))
    requests s.

(** Following the specification's words for an unparsable [submittedAt]:
    "treat unparsable dates as earliest possible".  The date key of such a
    review is below every time value. *)
Definition earliest_date_key (date_parse : string -> option Z) (s : string) : number :=
  match date_parse s with
  | Some t => of_Z t
  | None => NInf
  end.

Definition sort_dates_earliest (date_parse : string -> option Z) (ascending : bool)
  (l : list Review) : list Review :=
  js_sort (fun a b =>
             let ka := earliest_date_key date_parse (submittedAt a) in
             let kb := earliest_date_key date_parse (submittedAt b) in
             if ascending then sub ka kb else sub kb ka) l.

(** No date bounds. *)
Definition no_dates : DateRange := {| start := ""; end_ := "" |}.

(** A review with its rating replaced by the number 0 when it is falsy. *)
Definition zero_falsy (review : Review) : Review :=
  {| id := id review; type := type review; status := status review;
     rating := or_else (rating review) (JNum zero);
     publicReview := publicReview review; reviewCategory := reviewCategory review;
     submittedAt := submittedAt review; guestName := guestName review;
     listingName := listingName review; approved := approved review;
     channel := channel review |}.

(** The rating a review carries is above zero: a positive number, or the
    boolean true, which counts as 1.  This reads the rating itself, not
    the engine's [rating || 0]. *)
Definition rated_above_zero (review : Review) : bool :=
  match rating review with
  | JNum (Fin k) => 0 <? k
  | JNum PInf => true
  | JBool b => b
  | _ => false
  end.

End Spec.

(* ===================================================================== *)
(** ** Example records *)
(* ===================================================================== *)

Module Examples.
Import Server Dashboard.
Local Open Scope Z_scope.

Definition mock_review : RawReview :=
  List.hd {| raw_id := 0; raw_type := ""; raw_status := ""; raw_rating := JNull;
             raw_publicReview := ""; raw_reviewCategory := None; raw_submittedAt := "";
             raw_guestName := ""; raw_listingName := "" |} mockReviews.

Definition with_rating (v : value) (cats : option (list Category)) : RawReview :=
  {| raw_id := 1; raw_type := "guest-to-host"; raw_status := "published";
     raw_rating := v; raw_publicReview := "Lovely stay.";
     raw_reviewCategory := cats; raw_submittedAt := "2024-10-02 09:00:00";
     raw_guestName := "Ana Ortiz"; raw_listingName := "1B E2 - 4 Canal Street" |}.

(** A record whose own rating is the number 0, with one category score. *)
Definition zero_rated : RawReview :=
  with_rating (JNum zero) (Some [ {| category := "cleanliness"; cat_rating := JNum (of_Z 9) |} ]).

(** A record whose own rating is off the scale. *)
Definition off_scale : RawReview := with_rating (JNum (of_Z 15)) None.

Definition dated (n : Z) (when : string) (v : value) : Review :=
  {| id := n; type := "guest-to-host"; status := "published"; rating := v;
     publicReview := "Lovely stay."; reviewCategory := [];
     submittedAt := when; guestName := "Ana Ortiz";
     listingName := "1B E2 - 4 Canal Street"; approved := false; channel := "hostaway" |}.

Definition valid_dated : Review := dated 1 "2024-10-02 09:00:00" (JNum (of_Z 9)).
Definition undated : Review := dated 2 "sometime in autumn" (JNum (of_Z 8)).
Definition unrated : Review := dated 3 "2024-10-03" JNull.

Definition sorting (order : string) : Filters :=
  {| property := ""; f_rating := ""; f_status := ""; date := ""; sortBy := order;
     f_channel := "" |}.

Definition min_rating (threshold : string) (order : string) : Filters :=
  {| property := ""; f_rating := threshold; f_status := ""; date := ""; sortBy := order;
     f_channel := "" |}.

End Examples.

(* ===================================================================== *)
(** ** Further code of the two files *)
(* ===================================================================== *)

(** Math.min, Math.max, Math.floor, the remainder [%], [>=] and [===] on
    numbers. *)
Module MathOps.
Local Open Scope Z_scope.

(** [x <= y]; false as soon as one side is NaN. *)
Definition leb (x y : number) : bool :=
  match x, y with
  | NaN, _ | _, NaN => false
  | NInf, _ => true
  | _, PInf => true
  | _, NInf => false
  | PInf, _ => false
  | Fin a, Fin b => a <=? b
  end.

Definition geb (x y : number) : bool := leb y x.

(** [x === y] on numbers: NaN equals nothing. *)
Definition strict_equal (x y : number) : bool :=
  match x, y with
  | Fin a, Fin b => a =? b
  | PInf, PInf | NInf, NInf => true
  | _, _ => false
  end.

Definition math_min (x y : number) : number :=
  if is_nan x || is_nan y then NaN else if ltb y x then y else x.

Definition math_max (x y : number) : number :=
  if is_nan x || is_nan y then NaN else if ltb x y then y else x.

Definition floor (x : number) : number :=
  match x with
  | Fin k => Fin (k / U * U)
  | _ => x
  end.

(** [x % y]: the sign of the dividend, exact. *)
Definition rem (x y : number) : number :=
  match x, y with
  | NaN, _ | _, NaN => NaN
  | (PInf | NInf), _ => NaN
  | Fin a, (PInf | NInf) => Fin a
  | Fin a, Fin b => if b =? 0 then NaN else Fin (Z.rem a b)
  end.

(** A finite value that is a double: 53 significant bits, below the
    overflow threshold. *)
Definition is_double (x : number) : bool :=
  match x with
  | Fin k => (round_mag (Z.abs k) 1 =? Z.abs k) && (Z.abs k <? OVF)
  | _ => true
  end.

End MathOps.

(** The property route of backend/server.js. *)
Module Routes.
Import Server Dashboard.

Inductive PropertyResponse : Set :=
| PropertyOk (data : list ScoredReview) (total : nat) (listingId : string)
| PropertyError (error : string) (message : string).

Definition property_data (r : PropertyResponse) : list ScoredReview :=
  match r with PropertyOk d _ _ => d | PropertyError _ _ => [] end.

Definition property_total (r : PropertyResponse) : option nat :=
  match r with PropertyOk _ n _ => Some n | PropertyError _ _ => None end.

(** [review.listingName.includes(listingId) || review.id.toString() === listingId] *)
Definition matches_listing (listingId : string) (review : RawReview) : bool :=
  includes (raw_listingName review) listingId
  || String.eqb (id_key (raw_id review)) listingId.

(** [approved_only === 'true'], the query parameter being absent or a text. *)
Definition wants_approved (approved_only : option string) : bool :=
  match approved_only with
  | Some text => String.eqb text "true"
  | None => false
  end.

(** The route body over a review table. *)
Definition property_over (table : list RawReview) (listingId : string)
  (approved_only : option string) : Handler PropertyResponse :=
  do reviews <- mapM score (List.filter (matches_listing listingId) table);
  let reviews := if wants_approved approved_only
                 then List.filter sr_approved reviews else reviews in
  ret (PropertyOk reviews (length reviews) listingId).

(** GET /api/reviews/property/:listingId *)
Definition get_reviews_property (listingId : string) (approved_only : option string)
  : Handler PropertyResponse :=
  property_over mockReviews listingId approved_only.

End Routes.

(** Further parts of frontend/src/App.js. *)
Module Views.
Import Server Dashboard MathOps.
Local Open Scope Z_scope.

(** [{ ...review, approved }] *)
Definition with_approved (review : Review) (flag : bool) : Review :=
  {| id := id review; type := type review; status := status review;
     rating := rating review; publicReview := publicReview review;
     reviewCategory := reviewCategory review; submittedAt := submittedAt review;
     guestName := guestName review; listingName := listingName review;
     approved := flag; channel := channel review |}.

(** The updater given to [setReviews] in toggleApproval. *)
Definition update_approval (reviewId : Z) (flag : bool) (prev : list Review) : list Review :=
  map (fun review => if id review =? reviewId then with_approved review flag else review)
    prev.

(** toggleApproval against the server: the PATCH request is sent for the
    text of the id, and the local reviews are updated when the response is
    ok. *)
Definition toggleApproval (reviewId : Z) (flag : bool) (reviews : list Review)
  : Handler (list Review) :=
  do response <- patch_review_approval (id_key reviewId) (Some (JsonBool flag));
  ret (if patch_success response then update_approval reviewId flag reviews else reviews).

Record Stars : Set := {
  fullStars : number;
  halfStar : bool;
  emptyStars : number
}.

(** generateStars, up to the markup: the three star counts. *)
Definition generateStars (rating : value) : Stars :=
  let safeRating :=
    math_max zero (math_min (of_Z 10) (to_number (or_else rating (JNum zero)))) in
  let fullStars := floor (div safeRating (of_Z 2)) in
  let halfStar := geb (rem safeRating (of_Z 2)) (of_Z 1) in
  let emptyStars :=
    math_max zero (sub (sub (of_Z 5) fullStars) (if halfStar then of_Z 1 else zero)) in
  {| fullStars := fullStars; halfStar := halfStar; emptyStars := emptyStars |}.

Record PropertyAnalytics : Set := {
  pa_count : nat;
  pa_totalRating : number;
  pa_approved : nat
}.

Record ChannelAnalytics : Set := {
  ca_count : nat;
  ca_totalRating : number
}.

Record Analytics : Type := {
  byProperty : gmap string PropertyAnalytics;
  byChannel : gmap string ChannelAnalytics;
  lowRatedReviews : nat
}.

(** The increments of the [forEach] body of getAnalytics on the entries it
    reads. *)
Definition by_property_increment (entry : PropertyAnalytics) (review : Review)
  : PropertyAnalytics :=
  {| pa_count := S (pa_count entry);
     pa_totalRating := add (pa_totalRating entry) (to_number (rating review));
     pa_approved := if approved review then S (pa_approved entry)
                    else pa_approved entry |}.

Definition by_channel_increment (entry : ChannelAnalytics) (review : Review) : ChannelAnalytics :=
  {| ca_count := S (ca_count entry);
     ca_totalRating := add (ca_totalRating entry) (to_number (rating review)) |}.

(** The two halves of the body of [reviews.forEach] in getAnalytics, the
    maps holding the own entries of the objects [{}].  [byProperty[name]]
    reads the own entry, else the member inherited under that name: for an
    inherited key the test [!byProperty[name]] fails, no own entry is made
    and the increments are written to the inherited object, not to the
    table. *)
Definition by_property_step (byProperty : gmap string PropertyAnalytics) (review : Review)
  : gmap string PropertyAnalytics :=
  let name := listingName review in
  match byProperty !! name with
  | Some entry => <[name := by_property_increment entry review]> byProperty
  | None =>
      if inherited_key name then byProperty
      else <[name := by_property_increment
                       {| pa_count := 0; pa_totalRating := zero; pa_approved := 0 |}
                       review]> byProperty
  end.

Definition by_channel_step (byChannel : gmap string ChannelAnalytics) (review : Review)
  : gmap string ChannelAnalytics :=
  let name := channel review in
  match byChannel !! name with
  | Some entry => <[name := by_channel_increment entry review]> byChannel
  | None =>
      if inherited_key name then byChannel
      else <[name := by_channel_increment {| ca_count := 0; ca_totalRating := zero |} review]>
             byChannel
  end.

Definition getAnalytics (reviews : list Review) : Analytics :=
  {| byProperty := fold_left by_property_step reviews ∅;
     byChannel := fold_left by_channel_step reviews ∅;
     lowRatedReviews :=
       length (List.filter (fun r => ltb (to_number (rating r)) (of_Z 8)) reviews) |}.

(** [[...new Set(names)]]: the names in order of first occurrence. *)
Definition set_add (seen : list string) (name : string) : list string :=
  if existsb (String.eqb name) seen then seen else seen ++ [name].

Definition set_values (names : list string) : list string :=
  fold_left set_add names [].

Definition properties (reviews : list Review) : list string :=
  set_values (map listingName reviews).

Definition channels (reviews : list Review) : list string :=
  set_values (map channel reviews).

Definition approvedReviews (reviews : list Review) : list Review :=
  List.filter approved reviews.

(** The double quote character. *)
Definition quote : ascii := ascii_of_nat 34.

(** The replace call of exportReviews on the review text: every double
    quote character is doubled. *)
Fixpoint escape_quotes (s : string) : string :=
  match s with
  | EmptyString => EmptyString
  | String c s' =>
      if Ascii.eqb c quote then String quote (String quote (escape_quotes s'))
      else String c (escape_quotes s')
  end.

(** The score of one category in the property page's summary: the mean
    over the approved reviews that have the category, "0.0" when none has. *)
Definition has_category (name : string) (review : Review) : bool :=
  existsb (fun c => String.eqb (category c) name) (reviewCategory review).

Definition category_rating (name : string) (review : Review) : number :=
  match List.find (fun c => String.eqb (category c) name) (reviewCategory review) with
  | Some catData => to_number (or_else (cat_rating catData) (JNum zero))
  | None => zero
  end.

Definition avgScore (name : string) (approvedReviews : list Review) : string :=
  let categoryReviews := List.filter (has_category name) approvedReviews in
  if (0 <? length categoryReviews)%nat
  then render (toFixed1
         (div (fold_left (fun sum r => add sum (category_rating name r)) categoryReviews zero)
              (of_nat (length categoryReviews))))
  else "0.0".

End Views.

(** Definitions used to state the further properties. *)
Module SpecMore.
Import Server Dashboard MathOps Views.
Local Open Scope Z_scope.

(** The mean of integer scores rounded half up to one decimal, in tenths. *)
Definition tenths_half_up (scores : list Z) : Z :=
  let total := fold_right Z.add 0 scores in
  let n := Z.of_nat (length scores) in
  (20 * total + n) / (2 * n).

(** A category whose score is the integer [z] (a falsy score being 0). *)
Definition scored (cat : Category) (z : Z) : Prop :=
  0 <= z <= 10 /\
  (cat_rating cat = JNum (of_Z z) \/ (z = 0 /\ to_boolean (cat_rating cat) = false)).

(** How a CSV reader decodes a quoted field: a doubled quote is one quote. *)
Fixpoint unescape_quotes (s : string) : string :=
  match s with
  | EmptyString => EmptyString
  | String c s' =>
      if Ascii.eqb c quote then
        match s' with
        | String c' s'' =>
            if Ascii.eqb c' quote then String quote (unescape_quotes s'')
            else String c (unescape_quotes s')
        | EmptyString => String c EmptyString
        end
      else String c (unescape_quotes s')
  end.

(** The reviews of one listing, and of one channel. *)
Definition of_listing (name : string) (reviews : list Review) : list Review :=
  List.filter (fun r => String.eqb (listingName r) name) reviews.

Definition of_channel (name : string) (reviews : list Review) : list Review :=
  List.filter (fun r => String.eqb (channel r) name) reviews.

Definition scored_of_listing (name : string) (reviews : list ScoredReview)
  : list ScoredReview :=
  List.filter (fun r => String.eqb (raw_listingName (base r)) name) reviews.

(** The store reading of a raw review's approval flag. *)
Definition approved_in (s : Approvals) (review : RawReview) : bool :=
  default false (s !! id_key (raw_id review)).

(** All submittedAt texts of the reviews parse. *)
Definition all_dated (date_parse : string -> option Z) (dates : list string) : bool :=
  forallb (fun text => match date_parse text with Some _ => true | None => false end) dates.

Definition with_status (filters : Filters) (text : string) : Filters :=
  {| property := property filters; f_rating := f_rating filters; f_status := text;
     date := date filters; sortBy := sortBy filters; f_channel := f_channel filters |}.


Definition stats_byProperty (r : StatisticsResponse) : gmap string PropertyStat :=
  match r with StatsOk _ m _ => m | StatsError _ _ => ∅ end.

Definition stats_recent (r : StatisticsResponse) : list Activity :=
  match r with StatsOk _ _ l => l | StatsError _ _ => [] end.

(** The reviews that the fetch route normalises: the channel result when
    it is a non-empty list, the mock table otherwise. *)
Definition chosen_source (reply : ChannelReply) : list RawReview :=
  match apiReviews_of reply with [] => mockReviews | result => result end.

(** A raw review with its rating and the approval flag of the store. *)
Definition scored_in (s : Approvals) (review : RawReview) : ScoredReview :=
  {| base := review; sr_rating := overall_rating review; sr_approved := approved_in s review |}.

(** What one review adds to the entry of its listing, in the statistics
    route and in getAnalytics, and to the entry of its channel. *)
Definition stat_entry_step (entry : PropertyStat) (review : ScoredReview) : PropertyStat :=
  {| ps_total := S (ps_total entry);
     ps_approved := if sr_approved review then S (ps_approved entry) else ps_approved entry;
     ps_averageRating := ps_averageRating entry;
     ps_totalRating := add (ps_totalRating entry) (to_number (sr_rating review)) |}.

Definition stat_entry_init : PropertyStat :=
  {| ps_total := 0; ps_approved := 0; ps_averageRating := SNum zero; ps_totalRating := zero |}.

Definition pa_entry_step (entry : PropertyAnalytics) (review : Review) : PropertyAnalytics :=
  {| pa_count := S (pa_count entry);
     pa_totalRating := add (pa_totalRating entry) (to_number (rating review));
     pa_approved := if approved review then S (pa_approved entry) else pa_approved entry |}.

Definition pa_entry_init : PropertyAnalytics :=
  {| pa_count := 0; pa_totalRating := zero; pa_approved := 0 |}.

Definition ca_entry_step (entry : ChannelAnalytics) (review : Review) : ChannelAnalytics :=
  {| ca_count := S (ca_count entry);
     ca_totalRating := add (ca_totalRating entry) (to_number (rating review)) |}.

Definition ca_entry_init : ChannelAnalytics := {| ca_count := 0; ca_totalRating := zero |}.

(** The sum of the ratings as they are, null counting 0. *)
Definition plain_total (reviews : list Review) : number :=
  fold_left (fun sum r => add sum (to_number (rating r))) reviews zero.

(** The tenths chosen by toFixed(1) for total / len, computed at the scale
    2^60 instead of 2^1074, and their comparison with the mean rounded half
    up. *)
Definition scaled_tenths (len total : Z) : Z :=
  (20 * round_mag (total * 2 ^ 60) len + 2 ^ 60) / (2 * 2 ^ 60).

Definition mean_agrees (len total : Z) : bool :=
  scaled_tenths len total =? (20 * total + len) / (2 * len).

(** The rating is a value the engine can hold: a number in it is a double. *)
Definition holds_double (v : value) : bool :=
  match v with JNum x => is_double x | _ => true end.

End SpecMore.

(** Records for the closed examples of the further properties. *)
Module ExamplesMore.
Import Server Dashboard Views.
Local Open Scope Z_scope.

Definition two_dated : list Review := [Examples.valid_dated; Examples.unrated].

Definition two_raw : list RawReview := [Examples.mock_review; Examples.zero_rated].

Definition mock_categories : list Category :=
  default [] (raw_reviewCategory Examples.mock_review).

(** The text H"i" with its two quote characters. *)
Definition quoted_text : string :=
  String "H" (String quote (String "i" (String quote EmptyString))).

End ExamplesMore.

(* ===================================================================== *)
(** ** Facts about rounding *)
(* ===================================================================== *)

Module NumFacts.
Local Open Scope Z_scope.

(** [rne a b] is within one half of [a / b], and even on a tie. *)
Lemma rne_near (a b : Z) :
  0 <= a -> 0 < b ->
  2 * a - b <= 2 * b * rne a b <= 2 * a + b.
Proof.
  intros Ha Hb. unfold rne.
  pose proof (Z.div_mod a b ltac:(lia)) as Hdm.
  pose proof (Z.mod_pos_bound a b Hb) as Hm.
  destruct (Z.compare_spec (2 * (a mod b)) b);
    [destruct (Z.even (a / b))| |]; nia.
Qed.

Lemma rne_tie_low (a b : Z) :
  0 <= a -> 0 < b -> 2 * b * rne a b = 2 * a - b -> Z.even (rne a b) = true.
Proof.
  intros Ha Hb. unfold rne.
  pose proof (Z.div_mod a b ltac:(lia)) as Hdm.
  pose proof (Z.mod_pos_bound a b Hb) as Hm.
  destruct (Z.compare_spec (2 * (a mod b)) b) as [He|Hl|Hg].
  - destruct (Z.even (a / b)) eqn:E; intros; [exact E| nia].
  - intros; nia.
  - intros; nia.
Qed.

Lemma rne_tie_high (a b : Z) :
  0 <= a -> 0 < b -> 2 * b * rne a b = 2 * a + b -> Z.even (rne a b) = true.
Proof.
  intros Ha Hb. unfold rne.
  pose proof (Z.div_mod a b ltac:(lia)) as Hdm.
  pose proof (Z.mod_pos_bound a b Hb) as Hm.
  destruct (Z.compare_spec (2 * (a mod b)) b) as [He|Hl|Hg].
  - destruct (Z.even (a / b)) eqn:E; intros.
    + nia.
    + rewrite Z.even_add, E. reflexivity.
  - intros; nia.
  - intros; nia.
Qed.

(** Rounding to nearest is monotone in the rational it rounds. *)
Lemma rne_mono (a1 b1 a2 b2 : Z) :
  0 <= a1 -> 0 < b1 -> 0 <= a2 -> 0 < b2 ->
  a1 * b2 <= a2 * b1 -> rne a1 b1 <= rne a2 b2.
Proof.
  intros Ha1 Hb1 Ha2 Hb2 Hle.
  pose proof (rne_near a1 b1 Ha1 Hb1) as N1.
  pose proof (rne_near a2 b2 Ha2 Hb2) as N2.
  pose proof (rne_tie_high a1 b1 Ha1 Hb1) as T1.
  pose proof (rne_tie_low a2 b2 Ha2 Hb2) as T2.
  set (n1 := rne a1 b1) in *. set (n2 := rne a2 b2) in *.
  destruct (Z_le_gt_dec n1 n2) as [|Hgt]; [assumption|exfalso].
  assert (H1 : 2 * b1 * n1 * b2 <= (2 * a1 + b1) * b2) by nia.
  assert (H2 : (2 * a2 - b2) * b1 <= 2 * b2 * n2 * b1) by nia.
  assert (Hb : (b1 * b2) * n1 <= (b1 * b2) * n2 + (b1 * b2)) by nia.
  assert (Hn : n1 = n2 + 1) by nia.
  subst n1. rewrite Hn in *.
  assert (E1 : 2 * b1 * (n2 + 1) = 2 * a1 + b1) by nia.
  assert (E2 : 2 * b2 * n2 = 2 * a2 - b2) by nia.
  specialize (T1 E1). specialize (T2 E2).
  rewrite Z.even_add, T2 in T1. discriminate.
Qed.

Lemma rne_exact (n b : Z) : 0 < b -> rne (n * b) b = n.
Proof.
  intros Hb. unfold rne.
  rewrite Z.mod_mul, Z.div_mul by lia.
  destruct (Z.compare_spec (2 * 0) b); lia.
Qed.

Lemma rne_le_int (a b n : Z) :
  0 <= a -> 0 < b -> 0 <= n -> a <= n * b -> rne a b <= n.
Proof.
  intros Ha Hb Hn Hle. rewrite <- (rne_exact n b Hb).
  apply rne_mono; nia.
Qed.

Lemma rne_ge_int (a b n : Z) :
  0 <= a -> 0 < b -> 0 <= n -> n * b <= a -> n <= rne a b.
Proof.
  intros Ha Hb Hn Hle. rewrite <- (rne_exact n b Hb) at 1.
  apply rne_mono; nia.
Qed.

Lemma div_cross_le (p1 q1 p2 q2 : Z) :
  0 <= p1 -> 0 < q1 -> 0 <= p2 -> 0 < q2 ->
  p1 * q2 <= p2 * q1 -> p1 / q1 <= p2 / q2.
Proof.
  intros Hp1 Hq1 Hp2 Hq2 Hle.
  apply Z.div_le_lower_bound; [assumption|].
  pose proof (Z.mul_div_le p1 q1 Hq1). nia.
Qed.

(** The binade of a quotient [f >= 2^53]: with [s = log2 f - 52], the grid
    step [2^s] and the bounds [2^52 * 2^s <= f < 2^53 * 2^s]. *)
Lemma binade (f : Z) :
  2 ^ 53 <= f ->
  let s := Z.log2 f - 52 in
  1 <= s /\ 0 < 2 ^ s /\ 2 ^ 52 * 2 ^ s <= f < 2 ^ 53 * 2 ^ s.
Proof.
  intros Hf s.
  assert (Hpos : 0 < f) by lia.
  pose proof (Z.log2_spec f Hpos) as [Hlo Hhi].
  assert (Hl : 53 <= Z.log2 f).
  { apply Z.log2_le_pow2; lia. }
  assert (Hs : 1 <= s) by (unfold s; lia).
  replace (Z.log2 f) with (52 + s) in Hlo by (unfold s; lia).
  replace (Z.succ (Z.log2 f)) with (53 + s) in Hhi by (unfold s; lia).
  rewrite Z.pow_add_r in Hlo, Hhi by lia.
  split; [assumption|]. split; [apply Z.pow_pos_nonneg; lia|]. lia.
Qed.

(** In the top case the rounded significand stays within [2^52, 2^53]. *)
Lemma significand_bounds (p q : Z) :
  0 <= p -> 0 < q -> 2 ^ 53 <= p / q ->
  let s := Z.log2 (p / q) - 52 in
  2 ^ 52 <= rne p (q * 2 ^ s) <= 2 ^ 53.
Proof.
  intros Hp Hq Hf s.
  destruct (binade (p / q) Hf) as (Hs & HP & Hlo & Hhi). fold s in HP, Hlo, Hhi.
  pose proof (Z.mul_div_le p q Hq) as Hd.
  pose proof (Z.mul_succ_div_gt p q Hq) as Hu.
  set (P := 2 ^ s) in *. set (f := p / q) in *.
  split.
  - apply rne_ge_int; nia.
  - apply rne_le_int; nia.
Qed.

Lemma round_mag_low (p q : Z) :
  0 <= p -> 0 < q -> p / q < 2 ^ 53 -> round_mag p q <= 2 ^ 53.
Proof.
  intros Hp Hq Hf. unfold round_mag.
  destruct (Z.ltb_spec (p / q) (2 ^ 53)); [|lia].
  pose proof (Z.mul_succ_div_gt p q Hq).
  apply rne_le_int; nia.
Qed.

(** Rounding to the nearest double is monotone. *)
Lemma round_mag_mono (p1 q1 p2 q2 : Z) :
  0 <= p1 -> 0 < q1 -> 0 <= p2 -> 0 < q2 ->
  p1 * q2 <= p2 * q1 -> round_mag p1 q1 <= round_mag p2 q2.
Proof.
  intros Hp1 Hq1 Hp2 Hq2 Hle.
  pose proof (div_cross_le p1 q1 p2 q2 Hp1 Hq1 Hp2 Hq2 Hle) as Hf.
  destruct (Z_lt_le_dec (p1 / q1) (2 ^ 53)) as [H1|H1];
  destruct (Z_lt_le_dec (p2 / q2) (2 ^ 53)) as [H2|H2].
  - unfold round_mag.
    destruct (Z.ltb_spec (p1 / q1) (2 ^ 53)); [|lia].
    destruct (Z.ltb_spec (p2 / q2) (2 ^ 53)); [|lia].
    apply rne_mono; assumption.
  - pose proof (round_mag_low p1 q1 Hp1 Hq1 H1) as Hlow.
    unfold round_mag at 2.
    destruct (Z.ltb_spec (p2 / q2) (2 ^ 53)); [lia|].
    destruct (binade (p2 / q2) H2) as (Hs & HP & _).
    pose proof (significand_bounds p2 q2 Hp2 Hq2 H2) as [Hsig _].
    cbv zeta in *. set (P := 2 ^ (Z.log2 (p2 / q2) - 52)) in *.
    assert (2 <= P).
    { unfold P. change 2 with (2 ^ 1) at 1. apply Z.pow_le_mono_r; lia. }
    nia.
  - lia.
  - unfold round_mag.
    destruct (Z.ltb_spec (p1 / q1) (2 ^ 53)); [lia|].
    destruct (Z.ltb_spec (p2 / q2) (2 ^ 53)); [lia|].
    pose proof (significand_bounds p1 q1 Hp1 Hq1 H1) as [_ Hhi1].
    pose proof (significand_bounds p2 q2 Hp2 Hq2 H2) as [Hlo2 _].
    destruct (binade (p1 / q1) H1) as (Hs1 & HP1 & _).
    destruct (binade (p2 / q2) H2) as (Hs2 & HP2 & _).
    cbv zeta in *.
    assert (Hl : Z.log2 (p1 / q1) <= Z.log2 (p2 / q2)) by (apply Z.log2_le_mono; lia).
    destruct (Z.eq_dec (Z.log2 (p1 / q1)) (Z.log2 (p2 / q2))) as [E|N].
    + rewrite E in *. set (P := 2 ^ (Z.log2 (p2 / q2) - 52)) in *.
      apply Z.mul_le_mono_nonneg_r; [lia|].
      apply rne_mono; nia.
    + set (s1 := Z.log2 (p1 / q1) - 52) in *.
      set (s2 := Z.log2 (p2 / q2) - 52) in *.
      assert (Hpow : 2 * 2 ^ s1 <= 2 ^ s2).
      { replace (2 * 2 ^ s1) with (2 ^ (s1 + 1)) by (rewrite Z.pow_add_r; lia).
        apply Z.pow_le_mono_r; unfold s1, s2; lia. }
      set (P1 := 2 ^ s1) in *. set (P2 := 2 ^ s2) in *.
      nia.
Qed.

(** Integers with at most 53 significant bits, scaled by a power of two,
    are doubles: rounding leaves them as they are. *)
Lemma round_mag_exact (n e : Z) :
  0 <= n < 2 ^ 53 -> 0 <= e -> round_mag (n * 2 ^ e) 1 = n * 2 ^ e.
Proof.
  intros Hn He. unfold round_mag. rewrite Z.div_1_r.
  destruct (Z.ltb_spec (n * 2 ^ e) (2 ^ 53)) as [Hs|Hb].
  - rewrite <- (Z.mul_1_r (n * 2 ^ e)) at 1. apply rne_exact. lia.
  - assert (Hn0 : 0 < n).
    { destruct (Z.eq_dec n 0) as [->|]; [|lia]. rewrite Z.mul_0_l in Hb. lia. }
    rewrite Z.mul_1_l.
    rewrite Z.log2_mul_pow2 by lia.
    assert (Hl : Z.log2 n < 53) by (apply Z.log2_lt_pow2; lia).
    pose proof (Z.log2_nonneg n) as Hl0.
    set (s := e + Z.log2 n - 52).
    assert (Hs : 0 <= s).
    { destruct (Z_lt_le_dec s 0) as [Hneg|]; [exfalso|assumption].
      assert (n * 2 ^ e < 2 ^ (Z.log2 n + 1) * 2 ^ e).
      { apply Z.mul_lt_mono_pos_r; [apply Z.pow_pos_nonneg; lia|].
        pose proof (Z.log2_spec n Hn0). replace (Z.log2 n + 1) with (Z.succ (Z.log2 n)) by lia.
        lia. }
      rewrite <- Z.pow_add_r in H by lia.
      assert (2 ^ (Z.log2 n + 1 + e) <= 2 ^ 53) by (apply Z.pow_le_mono_r; unfold s in Hneg; lia).
      lia. }
    replace e with ((e - s) + s) at 1 by lia.
    rewrite Z.pow_add_r by (unfold s; lia).
    rewrite Z.mul_assoc. rewrite rne_exact by (apply Z.pow_pos_nonneg; lia).
    rewrite <- Z.mul_assoc, <- Z.pow_add_r by (unfold s; lia).
    f_equal. f_equal. lia.
Qed.

Lemma round_mag_nonneg (p q : Z) : 0 <= p -> 0 < q -> 0 <= round_mag p q.
Proof.
  intros Hp Hq.
  replace 0 with (round_mag 0 1) at 1 by reflexivity.
  apply round_mag_mono; lia.
Qed.

Lemma round_mag_pos (p q : Z) : 0 < q -> q <= p -> 1 <= round_mag p q.
Proof.
  intros Hq Hp.
  replace 1 with (round_mag 1 1) at 1 by reflexivity.
  apply round_mag_mono; lia.
Qed.

(** An upper bound that is itself a double survives rounding. *)
Lemma round_mag_le (p q n e : Z) :
  0 <= p -> 0 < q -> 0 <= n < 2 ^ 53 -> 0 <= e ->
  p <= n * 2 ^ e * q -> round_mag p q <= n * 2 ^ e.
Proof.
  intros Hp Hq Hn He Hle.
  rewrite <- (round_mag_exact n e Hn He).
  assert (0 < 2 ^ e) by (apply Z.pow_pos_nonneg; lia).
  apply round_mag_mono; nia.
Qed.

Lemma U_pos : 0 < U.
Proof. reflexivity. Qed.

(** A non-negative rational bounded by a double [n] (an integer below
    2^53) rounds to a finite number between 0 and [n]. *)
Lemma rnd_range (p q n : Z) :
  0 <= p -> 0 < q -> 0 <= n < 2 ^ 53 -> p <= n * U * q ->
  exists k, rnd p q = Fin k /\ 0 <= k <= n * U.
Proof.
  intros Hp Hq Hn Hle. unfold rnd.
  destruct (Z.leb_spec 0 p); [|lia].
  pose proof (round_mag_nonneg p q Hp Hq) as H0.
  pose proof (round_mag_le p q n 1074 Hp Hq Hn ltac:(lia) Hle) as Hk.
  fold U in Hk.
  assert (Hovf : n * U < OVF).
  { apply Z.lt_le_trans with (2 ^ 53 * U).
    - apply Z.mul_lt_mono_pos_r; [apply U_pos | lia].
    - apply Z.leb_le. vm_compute. reflexivity. }
  destruct (Z.ltb_spec (round_mag p q) OVF); [|lia].
  eexists; split; [reflexivity | lia].
Qed.

Lemma of_Z_exact (n : Z) : 0 <= n < 2 ^ 53 -> of_Z n = Fin (n * U).
Proof.
  intros Hn. unfold of_Z.
  destruct (rnd_range (n * U) 1 n) as (k & Hk & Hr); [pose proof U_pos; nia | lia | lia | lia |].
  unfold rnd in *.
  destruct (Z.leb_spec 0 (n * U)); [|pose proof U_pos; nia].
  unfold U at 1 2. rewrite round_mag_exact by lia. fold U.
  unfold U in Hk at 1. rewrite round_mag_exact in Hk by lia. fold U in Hk.
  destruct (Z.ltb_spec (n * U) OVF); [reflexivity | discriminate].
Qed.

(** Subtraction has the sign of the comparison: rounding never turns a
    non-zero difference of two doubles into zero. *)
Lemma sub_negative (x y : number) :
  is_nan x = false -> is_nan y = false ->
  ltb (sub x y) zero = ltb x y.
Proof.
  intros Hx Hy.
  destruct x as [| | |a]; destruct y as [| | |b]; try discriminate; try reflexivity.
  cbn [sub neg add ltb]. unfold rnd, zero.
  destruct (Z.leb_spec 0 (a + - b)) as [Hge|Hlt].
  - pose proof (round_mag_nonneg (a + - b) 1 Hge ltac:(lia)) as H0.
    destruct (Z.ltb_spec (round_mag (a + - b) 1) OVF); cbn [ltb].
    + destruct (Z.ltb_spec (round_mag (a + - b) 1) 0); [lia|].
      symmetry. apply Z.ltb_ge. lia.
    + symmetry. apply Z.ltb_ge. lia.
  - pose proof (round_mag_pos (- (a + - b)) 1 ltac:(lia) ltac:(lia)) as H1.
    destruct (Z.ltb_spec (round_mag (- (a + - b)) 1) OVF); cbn [ltb].
    + destruct (Z.ltb_spec (- round_mag (- (a + - b)) 1) 0); [|lia].
      symmetry. apply Z.ltb_lt. lia.
    + symmetry. apply Z.ltb_lt. lia.
Qed.

Lemma sub_nan_l (y : number) : sub NaN y = NaN.
Proof. reflexivity. Qed.

Lemma sub_nan_r (x : number) : sub x NaN = NaN.
Proof. destruct x; reflexivity. Qed.

Lemma ltb_irrefl (x : number) : ltb x x = false.
Proof. destruct x; try reflexivity. apply Z.ltb_irrefl. Qed.

Lemma ltb_asym (x y : number) : ltb x y = true -> ltb y x = false.
Proof.
  destruct x, y; cbn; try discriminate; try reflexivity.
  intros H. apply Z.ltb_lt in H. apply Z.ltb_ge. lia.
Qed.

(** "Not smaller than" is transitive on numbers that are not NaN. *)
Lemma ltb_false_trans (x y z : number) :
  is_nan y = false -> ltb y x = false -> ltb z y = false -> ltb z x = false.
Proof.
  destruct x, y, z; cbn; try discriminate; try reflexivity.
  intros _ H1 H2. apply Z.ltb_ge in H1, H2. apply Z.ltb_ge. lia.
Qed.

End NumFacts.

(* ===================================================================== *)
(** ** Facts about values and the handlers *)
(* ===================================================================== *)

Import Server Dashboard Spec NumFacts.
Local Open Scope Z_scope.

Lemma or_else_truthy (v d : value) : to_boolean v = true -> or_else v d = v.
Proof. unfold or_else. intros ->. reflexivity. Qed.

Lemma or_else_falsy (v d : value) : to_boolean v = false -> or_else v d = d.
Proof. unfold or_else. intros ->. reflexivity. Qed.

Lemma truthy_not_null (v : value) : to_boolean v = true -> v <> JNull /\ v <> JUndefined.
Proof. destruct v; cbn; intros H; split; congruence. Qed.

Lemma read_only_ret {A} (a : A) : read_only (ret a).
Proof. intros s. reflexivity. Qed.

Lemma read_only_getApproval (key : string) : read_only (getApproval key).
Proof. intros s. reflexivity. Qed.

Lemma read_only_bind {A B} (m : Handler A) (k : A -> Handler B) :
  read_only m -> (forall a, read_only (k a)) -> read_only (bind m k).
Proof.
  intros Hm Hk s. unfold bind. specialize (Hm s).
  destruct (m s) as [a s']. cbn in Hm. subst s'. apply Hk.
Qed.

Lemma read_only_mapM {A B} (f : A -> Handler B) (l : list A) :
  (forall a, read_only (f a)) -> read_only (mapM f l).
Proof.
  intros Hf. induction l as [|x l IH]; cbn [mapM].
  - apply read_only_ret.
  - apply read_only_bind; [apply Hf|]. intros y.
    apply read_only_bind; [exact IH|]. intros ys. apply read_only_ret.
Qed.

Lemma read_only_normalize (review : RawReview) : read_only (normalize review).
Proof.
  unfold normalize. apply read_only_bind; [apply read_only_getApproval|].
  intros flag. apply read_only_ret.
Qed.

Lemma read_only_score (review : RawReview) : read_only (score review).
Proof.
  unfold score. apply read_only_bind; [apply read_only_getApproval|].
  intros flag. apply read_only_ret.
Qed.

Lemma read_only_respond (apiReviews : list RawReview) :
  read_only (respond_reviews apiReviews).
Proof.
  unfold respond_reviews. apply read_only_bind.
  - apply read_only_mapM. apply read_only_normalize.
  - intros l. apply read_only_ret.
Qed.

Lemma read_only_fetch (reply : ChannelReply) : read_only (get_reviews_hostaway reply).
Proof.
  destruct reply; cbn [get_reviews_hostaway];
    first [apply read_only_respond | apply read_only_ret].
Qed.

Lemma read_only_statistics (date_parse : string -> option Z) :
  read_only (get_reviews_statistics date_parse).
Proof.
  unfold get_reviews_statistics, statistics_over. apply read_only_bind.
  - apply read_only_mapM. apply read_only_score.
  - intros l. apply read_only_ret.
Qed.

Lemma normalize_rating (review : RawReview) (s : Approvals) :
  rating (fst (normalize review s)) = overall_rating review.
Proof. reflexivity. Qed.

Lemma normalize_approved (review : RawReview) (s : Approvals) :
  approved (fst (normalize review s)) = default false (s !! id_key (raw_id review)).
Proof. reflexivity. Qed.

(** A request that does not address [key] leaves its entry alone. *)
Lemma patch_other_key (key key' : string) (v : option json) (s : Approvals) :
  key' <> key -> snd (patch_review_approval key' v s) !! key = s !! key.
Proof.
  intros Hne. destruct v as [[]|]; cbn; try reflexivity.
  apply lookup_insert_ne. assumption.
Qed.

Lemma run_patches_untouched (key : string) (requests : list (string * option json))
  (s : Approvals) :
  ~ In key (map fst requests) -> run_patches requests s !! key = s !! key.
Proof.
  revert s. induction requests as [|[key' v] requests IH]; intros s Hnot; [reflexivity|].
  cbn in Hnot. unfold run_patches in *. cbn [fold_left fst snd].
  rewrite IH by tauto. apply patch_other_key. tauto.
Qed.

(* ===================================================================== *)
(** ** Worked examples *)
(* ===================================================================== *)

(** 0.1 + 0.2 is 0.30000000000000004, not 0.3. *)
Example add_tenths :
  add (of_decimal 1 1) (of_decimal 2 1) = of_decimal 30000000000000004 17 /\
  add (of_decimal 1 1) (of_decimal 2 1) <> of_decimal 3 1.
Proof. split; [vm_compute; reflexivity | vm_compute; discriminate]. Qed.

(** 8.35 is stored just below the tie and prints as "8.3"; 8.25 is exact
    and goes up. *)
Example toFixed_examples :
  render (toFixed1 (div (of_Z 167) (of_Z 20))) = "8.3" /\
  render (toFixed1 (div (of_Z 33) (of_Z 4))) = "8.3" /\
  render (toFixed1 (of_decimal (-1) 2)) = "-0.0" /\
  render (toFixed1 (of_Z (2 ^ 80))) = "1.2089258196146292e+24".
Proof.
  split; [vm_compute; reflexivity|]. split; [vm_compute; reflexivity|].
  split; vm_compute; reflexivity.
Qed.

(** The mock review has no rating of its own; its categories 9, 10, 9, 10
    average to 9.5. *)
Example mock_review_rating :
  overall_rating Examples.mock_review = JNum (of_decimal 95 1).
Proof. vm_compute. reflexivity. Qed.

(** Category scores 9 and 7 give the rating 8. *)
Example two_scores :
  calculateOverallRating
    (Some [ {| category := "cleanliness"; cat_rating := JNum (of_Z 9) |};
            {| category := "location"; cat_rating := JNum (of_Z 7) |} ])
  = of_Z 8.
Proof. vm_compute. reflexivity. Qed.

(** The statistics of the mock table with review 7453 approved. *)
Example mock_statistics :
  stats_overall (fst (get_reviews_statistics Sample.date_parse {[ "7453" := true ]}))
  = Some {| totalReviews := 1; averageRating := SNum (of_decimal 95 1);
            approvedCount := 1; pendingCount := 0; approvalRate := SStr "100.0" |}.
Proof. vm_compute. reflexivity. Qed.

(** Pending reviews rated at least 8: of (9, pending), (6, pending) and
    (9, approved) only the first is kept. *)
Example pending_min_rating :
  let review n v a :=
    {| id := n; type := ""; status := ""; rating := JNum (of_Z v); publicReview := "";
       reviewCategory := []; submittedAt := "2024-10-02"; guestName := "";
       listingName := ""; approved := a; channel := "hostaway" |} in
  filteredReviews Sample.date_parse Sample.toLowerCase Sample.parseInt "" no_dates
    {| property := ""; f_rating := "8"; f_status := "pending"; date := "";
       sortBy := "date-desc"; f_channel := "" |}
    [review 1 9 false; review 2 6 false; review 3 9 true]
  = [review 1 9 false].
Proof. vm_compute. reflexivity. Qed.

(** Ascending by rating, the unrated review comes first; descending, last. *)
Example unrated_sorts_lowest :
  filteredReviews Sample.date_parse Sample.toLowerCase Sample.parseInt "" no_dates
    (Examples.sorting "rating-asc") [Examples.valid_dated; Examples.unrated; Examples.undated]
  = [Examples.unrated; Examples.undated; Examples.valid_dated] /\
  filteredReviews Sample.date_parse Sample.toLowerCase Sample.parseInt "" no_dates
    (Examples.sorting "rating-desc") [Examples.unrated; Examples.undated; Examples.valid_dated]
  = [Examples.valid_dated; Examples.undated; Examples.unrated].
Proof. split; vm_compute; reflexivity. Qed.

(* ===================================================================== *)
(** ** Normalised rating (C1, C3) *)
(* ===================================================================== *)

(** C1, as stated, fails: a record whose own rating is the number 0 (so not
    null) does not keep it; the rating becomes the category mean. *)
Lemma C1_zero_rating_not_kept :
  ~ (raw_rating Examples.zero_rated <> JNull ->
     rating (fst (normalize Examples.zero_rated ∅)) = raw_rating Examples.zero_rated).
Proof.
  intros H. assert (Hn : raw_rating Examples.zero_rated <> JNull) by discriminate.
  specialize (H Hn). vm_compute in H. discriminate H.
Qed.

(** Rounding to one decimal: for a mean [k] (in units) that is not
    negative and below 10^21, the result is the decimal n/10 whose distance
    to the mean is at most one twentieth, the upper one on a tie. *)
Lemma round_nearest_tenth (k : Z) :
  0 <= k < 10 ^ 21 * U ->
  exists n,
    fixed_to_number (toFixed1 (Fin k)) = of_decimal n 1
    /\ 2 * U * n - U <= 20 * k < 2 * U * n + U.
Proof.
  intros Hk. pose proof U_pos as HU. unfold toFixed1.
  destruct (Z.ltb_spec k 0); [lia|].
  rewrite Z.abs_eq by lia.
  destruct (Z.leb_spec (10 ^ 21 * U) k); [lia|].
  exists ((20 * k + U) / (2 * U)). split; [reflexivity|].
  pose proof (Z.mul_div_le (20 * k + U) (2 * U) ltac:(lia)).
  pose proof (Z.mul_succ_div_gt (20 * k + U) (2 * U) ltac:(lia)).
  lia.
Qed.

(** C1 (amended): normalisation keeps the record's own rating whenever
    that rating is truthy; when it is falsy (null, undefined, false, 0 or
    NaN) the rating is 7.5 if there are no category scores, and otherwise
    the sum of the category scores (a falsy score counting as 0) divided by
    their count, rounded to one decimal place: the decimal n/10 nearest to
    that mean. *)
Theorem C1_normalized_rating (review : RawReview) (s : Approvals) :
  let r := rating (fst (normalize review s)) in
  (to_boolean (raw_rating review) = true -> r = raw_rating review) /\
  (to_boolean (raw_rating review) = false ->
   match raw_reviewCategory review with
   | None | Some [] => r = JNum (of_decimal 75 1)
   | Some cats =>
       let mean := div (category_total cats) (of_nat (length cats)) in
       r = JNum (fixed_to_number (toFixed1 mean)) /\
       (forall k, mean = Fin k -> 0 <= k < 10 ^ 21 * U ->
        exists n, r = JNum (of_decimal n 1)
                  /\ 2 * U * n - U <= 20 * k < 2 * U * n + U)
   end).
Proof.
  cbv zeta. rewrite normalize_rating. unfold overall_rating. split; intros H.
  - apply or_else_truthy. exact H.
  - rewrite or_else_falsy by exact H.
    destruct (raw_reviewCategory review) as [[|c cats]|]; try reflexivity.
    split; [reflexivity|].
    intros k Hm Hk. destruct (round_nearest_tenth k Hk) as (n & En & Hn).
    exists n. split; [|exact Hn].
    change (calculateOverallRating (Some (c :: cats)))
      with (fixed_to_number
              (toFixed1 (div (category_total (c :: cats)) (of_nat (length (c :: cats)))))).
    rewrite Hm, En. reflexivity.
Qed.

Lemma C1_normalized_rating_witness :
  to_boolean (raw_rating Examples.mock_review) = false /\
  rating (fst (normalize Examples.mock_review ∅)) = JNum (of_decimal 95 1).
Proof.
  split; [reflexivity|].
  pose proof (proj2 (C1_normalized_rating Examples.mock_review ∅) eq_refl) as H.
  apply proj1 in H. vm_compute in H. vm_compute. exact H.
Defined.

Lemma score_range (v : value) :
  on_scale v = true ->
  exists c, to_number (or_else v (JNum zero)) = Fin c /\ 0 <= c <= 10 * U.
Proof.
  intros H. pose proof U_pos. unfold on_scale in H. unfold or_else.
  destruct (to_boolean v) eqn:T; cbn in H.
  - destruct v as [| | |[| | |k]]; try discriminate.
    exists k. split; [reflexivity|]. lia.
  - exists 0. split; [reflexivity|]. lia.
Qed.

Lemma category_total_range (cats : list Category) :
  forall (a j : Z),
  0 <= j -> j + Z.of_nat (length cats) < 2 ^ 32 ->
  0 <= a <= 10 * j * U ->
  forallb (fun cat => on_scale (cat_rating cat)) cats = true ->
  exists t,
    fold_left (fun sum cat => add sum (to_number (or_else (cat_rating cat) (JNum zero))))
      cats (Fin a) = Fin t
    /\ 0 <= t <= 10 * (j + Z.of_nat (length cats)) * U.
Proof.
  pose proof U_pos as HU.
  induction cats as [|cat cats IH]; intros a j Hj Hlen Ha Hall.
  - exists a. split; [reflexivity|]. cbn [length Z.of_nat]. rewrite Z.add_0_r. exact Ha.
  - cbn [forallb] in Hall. apply andb_prop in Hall as [Hc Hall].
    destruct (score_range _ Hc) as (c & Ec & Hcr).
    cbn [fold_left]. rewrite Ec. cbn [add].
    rewrite length_cons, Nat2Z.inj_succ in *.
    destruct (rnd_range (a + c) 1 (10 * (j + 1))) as (k & Ek & Hk); try lia.
    rewrite Ek.
    destruct (IH k (j + 1)) as (t & Et & Ht); try lia; try assumption.
    exists t. split; [exact Et|]. replace (j + Z.succ (Z.of_nat (length cats)))
      with (j + 1 + Z.of_nat (length cats)) by lia. exact Ht.
Qed.

Lemma round_tenths_range (k : Z) :
  0 <= k <= 10 * U ->
  exists r, fixed_to_number (toFixed1 (Fin k)) = Fin r /\ 0 <= r <= 10 * U.
Proof.
  intros Hk. pose proof U_pos as HU. unfold toFixed1.
  destruct (Z.ltb_spec k 0); [lia|].
  rewrite Z.abs_eq by lia.
  destruct (Z.leb_spec (10 ^ 21 * U) k); [lia|].
  cbn [fixed_to_number]. unfold of_decimal.
  assert (Hn : 0 <= (20 * k + U) / (2 * U) <= 100).
  { split.
    - apply Z.div_pos; lia.
    - apply Z.lt_succ_r. apply Z.div_lt_upper_bound; lia. }
  set (n := (20 * k + U) / (2 * U)) in *.
  apply rnd_range; [nia | lia | lia | nia].
Qed.

Lemma mean_range (cats : list Category) :
  cats <> [] -> Z.of_nat (length cats) < 2 ^ 32 ->
  forallb (fun cat => on_scale (cat_rating cat)) cats = true ->
  exists r, calculateOverallRating (Some cats) = Fin r /\ 0 <= r <= 10 * U.
Proof.
  intros Hne Hlen Hall. pose proof U_pos as HU.
  destruct (category_total_range cats 0 0 ltac:(lia) ltac:(lia) ltac:(lia) Hall)
    as (t & Et & Ht).
  assert (Hpos : 0 < Z.of_nat (length cats)).
  { destruct cats; [congruence|]. rewrite length_cons. lia. }
  assert (Hcalc : calculateOverallRating (Some cats)
                  = fixed_to_number (toFixed1 (div (category_total cats) (of_nat (length cats))))).
  { destruct cats; [congruence|reflexivity]. }
  rewrite Hcalc. unfold category_total, zero in *. rewrite Et.
  unfold of_nat. rewrite of_Z_exact by lia. cbn [div].
  destruct (Z.eqb_spec (Z.of_nat (length cats) * U) 0); [nia|].
  destruct (Z.ltb_spec 0 (Z.of_nat (length cats) * U)); [|nia].
  destruct (rnd_range (t * U) (Z.of_nat (length cats) * U) 10) as (k & Ek & Hk);
    try nia; try lia.
  rewrite Ek. apply round_tenths_range. lia.
Qed.

(** C3, as stated, fails: a raw rating of 15 is passed on unchanged. *)
Lemma C3_off_scale_rating_kept :
  ~ zero_to_ten (rating (fst (normalize Examples.off_scale ∅))).
Proof.
  vm_compute. intros [_ H]. exact (H eq_refl).
Qed.

(** C3 (amended): the normalised rating is never null or undefined; it is a
    finite number in [0,10] whenever the record's own rating is falsy or a
    number in [0,10] and every category score is falsy or a number in
    [0,10] (the category array being shorter than 2^32, as every array
    is). *)
Theorem C3_rating_range (review : RawReview) (s : Approvals) :
  let r := rating (fst (normalize review s)) in
  r <> JNull /\ r <> JUndefined /\
  (on_scale (raw_rating review) = true ->
   scores_on_scale review = true ->
   Z.of_nat (length (default [] (raw_reviewCategory review))) < 2 ^ 32 ->
   zero_to_ten r).
Proof.
  cbv zeta. rewrite normalize_rating. unfold overall_rating, or_else.
  pose proof U_pos as HU.
  destruct (to_boolean (raw_rating review)) eqn:T.
  - destruct (truthy_not_null _ T) as [Hn Hu].
    split; [exact Hn|]. split; [exact Hu|].
    intros Hon _ _. unfold on_scale in Hon. rewrite T in Hon. cbn in Hon.
    destruct (raw_rating review) as [| | |[| | |k]]; try discriminate.
    unfold zero_to_ten, in_range. lia.
  - split; [discriminate|]. split; [discriminate|].
    intros _ Hall Hlen. unfold scores_on_scale in Hall.
    destruct (raw_reviewCategory review) as [cats|] eqn:Hc; cbn [default] in *.
    + destruct cats as [|c cats].
      * vm_compute. split; discriminate.
      * destruct (mean_range (c :: cats)) as (r & Er & Hr); try assumption; [discriminate|].
        rewrite Er. exact Hr.
    + vm_compute. split; discriminate.
Qed.

Lemma C3_rating_range_witness :
  zero_to_ten (rating (fst (normalize Examples.mock_review ∅))).
Proof.
  assert (H1 : on_scale (raw_rating Examples.mock_review) = true)
    by (vm_compute; reflexivity).
  assert (H2 : scores_on_scale Examples.mock_review = true)
    by (vm_compute; reflexivity).
  assert (H3 : Z.of_nat (length (default [] (raw_reviewCategory Examples.mock_review)))
               < 2 ^ 32) by (vm_compute; reflexivity).
  exact (proj2 (proj2 (C3_rating_range Examples.mock_review ∅)) H1 H2 H3).
Defined.

(* ===================================================================== *)
(** ** Approval store (C2, C4, C8) *)
(* ===================================================================== *)

(** C2: setting an approval and then reading it for the same id gives the
    value just set, false included, and the next fetch shows it on the
    review of that id; an id that no request has set reads as false. *)
Theorem C2_set_then_get (key : string) (flag : bool) (s : Approvals)
  (requests : list (string * option json)) :
  fst (getApproval key (snd (patch_review_approval key (Some (JsonBool flag)) s))) = flag /\
  (forall review,
     id_key (raw_id review) = key ->
     approved (fst (normalize review
                      (snd (patch_review_approval key (Some (JsonBool flag)) s)))) = flag) /\
  (~ In key (map fst requests) ->
   fst (getApproval key (run_patches requests ∅)) = false).
Proof.
  split; [|split].
  - cbn. rewrite lookup_insert_eq. reflexivity.
  - intros review Hk. rewrite normalize_approved, Hk. cbn.
    rewrite lookup_insert_eq. reflexivity.
  - intros Hnot. cbn. rewrite run_patches_untouched by assumption.
    rewrite lookup_empty. reflexivity.
Qed.

Lemma C2_set_then_get_witness :
  fst (getApproval "7453"
         (snd (patch_review_approval "7453" (Some (JsonBool false)) {[ "7453" := true ]})))
  = false /\
  approved (fst (normalize Examples.mock_review
                   (snd (patch_review_approval "7453" (Some (JsonBool false))
                           {[ "7453" := true ]})))) = false /\
  fst (getApproval "7453" (run_patches [("7454", Some (JsonBool true))] ∅)) = false.
Proof.
  assert (Hk : id_key (raw_id Examples.mock_review) = "7453") by (vm_compute; reflexivity).
  assert (Hn : ~ In "7453" (map fst [("7454", Some (JsonBool true))])).
  { cbn. intros [H|[]]. discriminate H. }
  pose proof (C2_set_then_get "7453" false {[ "7453" := true ]}
                [("7454", Some (JsonBool true))]) as (H1 & H2 & H3).
  split; [exact H1|]. split; [exact (H2 _ Hk) | exact (H3 Hn)].
Defined.

(** C4: the approval request fails with the validation error exactly when
    the supplied value is not a boolean, and then the store is unchanged;
    for a boolean the entry is written and success returned, whatever the
    id is. *)
Theorem C4_approval_validation (reviewId : string) (v : option json) (s : Approvals) :
  let r := fst (patch_review_approval reviewId v s) in
  let s' := snd (patch_review_approval reviewId v s) in
  (patch_success r = false <-> is_boolean v = false) /\
  (is_boolean v = false ->
   r = PatchInvalid "Invalid approval status. Must be boolean." /\ s' = s) /\
  (forall flag, v = Some (JsonBool flag) ->
   patch_success r = true /\ s' = <[reviewId := flag]> s /\
   exists message, r = PatchOk message reviewId flag).
Proof.
  cbv zeta. split; [|split].
  - destruct v as [[]|]; cbn; split; congruence.
  - destruct v as [[]|]; cbn; intros H; try discriminate H; split; reflexivity.
  - intros flag ->. cbn. split; [reflexivity|]. split; [reflexivity|].
    eexists. reflexivity.
Qed.

Lemma C4_approval_validation_witness :
  fst (patch_review_approval "7453" (Some (JsonString "yes")) {[ "7453" := true ]})
  = PatchInvalid "Invalid approval status. Must be boolean." /\
  snd (patch_review_approval "7453" (Some (JsonString "yes")) {[ "7453" := true ]})
  = {[ "7453" := true ]} /\
  snd (patch_review_approval "no-such-review" (Some (JsonBool true)) ∅)
  = <[ "no-such-review" := true ]> ∅.
Proof.
  pose proof (C4_approval_validation "7453" (Some (JsonString "yes")) {[ "7453" := true ]})
    as (_ & H & _).
  pose proof (C4_approval_validation "no-such-review" (Some (JsonBool true)) ∅)
    as (_ & _ & H').
  destruct (H eq_refl) as [Hr Hs]. destruct (H' true eq_refl) as (_ & Hw & _).
  split; [exact Hr|]. split; [exact Hs | exact Hw].
Defined.

(** C8: a fetch, whether it serves channel data or the mock table, leaves
    the approval store exactly as it was, and so does the statistics
    route; the approval request is the one operation that writes. *)
Theorem C8_fetch_leaves_store (date_parse : string -> option Z) (reply : ChannelReply)
  (s : Approvals) :
  snd (get_reviews_hostaway reply s) = s /\
  snd (get_reviews_statistics date_parse s) = s /\
  (forall key flag,
     snd (patch_review_approval key (Some (JsonBool flag)) s) = <[key := flag]> s).
Proof.
  split; [|split].
  - apply read_only_fetch.
  - apply read_only_statistics.
  - intros key flag. reflexivity.
Qed.

(* ===================================================================== *)
(** ** Fetch envelope (C5) *)
(* ===================================================================== *)

(** C5, as stated, fails on the source tag: when the channel call throws,
    the envelope's source is not the text "fallback". *)
Lemma C5_source_is_not_fallback :
  fetch_source (fst (get_reviews_hostaway ChannelThrew ∅)) <> Some "fallback".
Proof. cbn. discriminate. Qed.

(** C5 (amended): when the channel call times out or fails in any way, the
    fetch still answers with a success envelope whose data is the
    normalised mock table, which is not empty, and whose source is
    "mock_data"; the source is "hostaway_api" when the channel answers
    with a non-empty result. *)
Theorem C5_fallback_envelope (s : Approvals) :
  let r := fst (get_reviews_hostaway ChannelThrew s) in
  fetch_success r = true /\
  fetch_data r = fst (mapM normalize mockReviews s) /\
  map id (fetch_data r) = map raw_id mockReviews /\
  fetch_data r <> [] /\
  fetch_source r = Some "mock_data" /\
  (forall result, result <> [] ->
   fetch_source (fst (get_reviews_hostaway (ChannelAnswered (Some result)) s))
   = Some "hostaway_api").
Proof.
  cbv zeta. split; [reflexivity|]. split; [reflexivity|]. split; [reflexivity|].
  split; [discriminate|]. split; [reflexivity|].
  intros result Hne. unfold get_reviews_hostaway, respond_reviews, apiReviews_of.
  destruct result as [|x result]; [congruence|].
  cbn [length Nat.ltb Nat.leb].
  unfold bind. destruct (mapM normalize (x :: result) s). reflexivity.
Qed.

Lemma C5_fallback_envelope_witness :
  fetch_source (fst (get_reviews_hostaway
                       (ChannelAnswered (Some [Examples.zero_rated])) ∅))
  = Some "hostaway_api".
Proof.
  apply (proj2 (proj2 (proj2 (proj2 (proj2 (C5_fallback_envelope ∅)))))).
  discriminate.
Defined.

(* ===================================================================== *)
(** ** Statistics (C6, C9) *)
(* ===================================================================== *)

(** C6: when the review set that getStats aggregates is empty (total = 0,
    which happens for the empty set only) its average is the text "0.0".
    The statistics route aggregates the mock table, so for every approval
    store its total is 1 and an empty set never reaches it: it answers
    without error and its overall averageRating is the number 9.5, not
    NaN. *)
Theorem C6_empty_average (date_parse : string -> option Z) (s : Approvals)
  (filtered : list Review) :
  (total (getStats filtered) = 0%nat ->
   filtered = [] /\ avgRating (getStats filtered) = "0.0") /\
  (exists o,
     stats_overall (fst (get_reviews_statistics date_parse s)) = Some o /\
     totalReviews o = 1%nat /\
     averageRating o = SNum (of_decimal 95 1) /\
     is_nan (of_decimal 95 1) = false).
Proof.
  split.
  - intros H. destruct filtered as [|r l]; [|discriminate H]. split; reflexivity.
  - unfold get_reviews_statistics, statistics_over, bind, mockReviews.
    cbn [mapM]. unfold bind, score, ret, getApproval. cbn [fst snd].
    unfold bind, ret. cbn [fst snd].
    eexists. split; [reflexivity|]. split; [reflexivity|].
    split; [|reflexivity].
    cbn [averageRating]. apply (f_equal SNum). vm_compute. reflexivity.
Qed.

Lemma C6_empty_average_witness :
  avgRating (getStats []) = "0.0".
Proof.
  assert (H : total (getStats []) = 0%nat) by reflexivity.
  exact (proj2 (proj1 (C6_empty_average Sample.date_parse ∅ []) H)).
Defined.

(** C9: the statistics answer is a function of the mock table and the
    approval store alone: whatever the channel answered to a preceding
    fetch, the statistics computed afterwards are the same, namely those of
    the mock table scored against the store. *)
Theorem C9_statistics_ignore_channel (date_parse : string -> option Z)
  (reply1 reply2 : ChannelReply) (s : Approvals) :
  fst (get_reviews_statistics date_parse (snd (get_reviews_hostaway reply1 s)))
  = fst (get_reviews_statistics date_parse (snd (get_reviews_hostaway reply2 s))) /\
  fst (get_reviews_statistics date_parse (snd (get_reviews_hostaway reply1 s)))
  = statistics_of date_parse (fst (mapM score mockReviews s)).
Proof.
  rewrite !read_only_fetch. split; [reflexivity|].
  unfold get_reviews_statistics, statistics_over, bind.
  destruct (mapM score mockReviews s). reflexivity.
Qed.

(* ===================================================================== *)
(** ** Facts about the sort *)
(* ===================================================================== *)

Section SortFacts.
Context {A : Type} (compareFn : A -> A -> number).

Lemma insert_sorted_In (x y : A) (l : list A) :
  In y (insert_sorted compareFn x l) <-> y = x \/ In y l.
Proof.
  induction l as [|z l IH]; cbn.
  - intuition congruence.
  - destruct (before compareFn z x); cbn; rewrite ?IH; intuition congruence.
Qed.

Lemma js_sort_In (y : A) (l : list A) : In y (js_sort compareFn l) <-> In y l.
Proof.
  induction l as [|x l IH]; cbn; [tauto|].
  rewrite insert_sorted_In, IH. intuition congruence.
Qed.

Lemma Forall_insert_sorted (P : A -> Prop) (x : A) (l : list A) :
  P x -> Forall P l -> Forall P (insert_sorted compareFn x l).
Proof.
  intros Hx Hl. apply List.Forall_forall. intros y Hy.
  apply insert_sorted_In in Hy as [->|Hy]; [exact Hx|].
  rewrite List.Forall_forall in Hl. apply Hl. exact Hy.
Qed.

(** When the comparator is asymmetric and "not before" is transitive, the
    result is ordered: no element is strictly before one placed ahead of
    it. *)
Hypothesis before_asym :
  forall x y, before compareFn x y = true -> before compareFn y x = false.
Hypothesis not_before_trans :
  forall x y z, before compareFn y x = false -> before compareFn z y = false ->
                before compareFn z x = false.

Lemma insert_sorted_sorted (x : A) (l : list A) :
  StronglySorted (fun a b => before compareFn b a = false) l ->
  StronglySorted (fun a b => before compareFn b a = false) (insert_sorted compareFn x l).
Proof.
  induction 1 as [|y l Hs IH Hall]; cbn.
  - constructor; constructor.
  - destruct (before compareFn y x) eqn:E.
    + constructor; [exact IH|].
      apply Forall_insert_sorted; [apply before_asym; exact E | exact Hall].
    + constructor; [constructor; assumption|].
      constructor; [exact E|].
      rewrite List.Forall_forall in *. intros z Hz.
      apply (not_before_trans x y z); [exact E | apply Hall; exact Hz].
Qed.

Lemma js_sort_sorted (l : list A) :
  StronglySorted (fun a b => before compareFn b a = false) (js_sort compareFn l).
Proof.
  induction l as [|x l IH]; cbn; [constructor|].
  apply insert_sorted_sorted. exact IH.
Qed.
End SortFacts.

Lemma sorted_around {A : Type} (R : A -> A -> Prop) (pre post : list A) (x : A) :
  StronglySorted R (pre ++ x :: post) ->
  (forall b, In b pre -> R b x) /\ (forall b, In b post -> R x b).
Proof.
  induction pre as [|y pre IH]; cbn; intros H.
  - apply StronglySorted_inv in H as [_ Hall]. rewrite List.Forall_forall in Hall.
    split; [intros b []|exact Hall].
  - apply StronglySorted_inv in H as [Hs Hall]. rewrite List.Forall_forall in Hall.
    destruct (IH Hs) as [Hpre Hpost]. split; [|exact Hpost].
    intros b [->|Hb]; [|apply Hpre; exact Hb].
    apply Hall. apply in_or_app. right. left. reflexivity.
Qed.

Lemma js_sort_map {A B : Type} (f : A -> B) (cmpA : A -> A -> number)
  (cmpB : B -> B -> number) (l : list A) :
  (forall a b, cmpB (f a) (f b) = cmpA a b) ->
  js_sort cmpB (map f l) = map f (js_sort cmpA l).
Proof.
  intros Hc. induction l as [|x l IH]; cbn; [reflexivity|].
  rewrite IH. generalize (js_sort cmpA l). intros sorted.
  induction sorted as [|y sorted IHs]; cbn; [reflexivity|].
  unfold before. rewrite Hc. destruct (ltb (cmpA y x) zero); cbn; [|reflexivity].
  f_equal. exact IHs.
Qed.

Lemma filter_map_commute {A B : Type} (f : A -> B) (p : B -> bool) (q : A -> bool)
  (l : list A) :
  (forall a, p (f a) = q a) -> List.filter p (map f l) = map f (List.filter q l).
Proof.
  intros Hp. induction l as [|x l IH]; cbn; [reflexivity|].
  rewrite Hp. destruct (q x); cbn; rewrite IH; reflexivity.
Qed.

(* ===================================================================== *)
(** ** Filter and sort engine (C7, C10) *)
(* ===================================================================== *)

Lemma ltb_nan_r (x : number) : ltb x NaN = false.
Proof. destruct x; reflexivity. Qed.

Lemma date_of_unparsable (date_parse : string -> option Z) (s : string) :
  date_parse s = None -> date_of date_parse s = NaN.
Proof. unfold date_of, time_value. intros ->. reflexivity. Qed.

Lemma rating_or_zero_falsy (r : Review) :
  to_boolean (rating r) = false -> rating_or_zero r = zero.
Proof. unfold rating_or_zero, or_else. intros ->. reflexivity. Qed.

Lemma rating_or_zero_not_nan (r : Review) : is_nan (rating_or_zero r) = false.
Proof.
  unfold rating_or_zero, or_else.
  destruct (to_boolean (rating r)) eqn:T; [|reflexivity].
  destruct (rating r) as [| | |[| | |k]]; try discriminate; try reflexivity.
  destruct b; [vm_compute; reflexivity | discriminate].
Qed.

Lemma rating_or_zero_zero_falsy (r : Review) :
  rating_or_zero (zero_falsy r) = rating_or_zero r.
Proof.
  unfold rating_or_zero, zero_falsy, or_else. cbn [rating].
  destruct (to_boolean (rating r)) eqn:T; [rewrite T|]; reflexivity.
Qed.

(** Under a rating order the comparator is the comparison of the
    [rating || 0] keys. *)
Lemma before_rating_asc (date_parse : string -> option Z) (filters : Filters) (a b : Review) :
  sortBy filters = "rating-asc" ->
  before (compare_reviews date_parse filters) a b
  = ltb (rating_or_zero a) (rating_or_zero b).
Proof.
  intros Hs. unfold before, compare_reviews. rewrite Hs. cbn [String.eqb Ascii.eqb].
  cbn. apply sub_negative; apply rating_or_zero_not_nan.
Qed.

Lemma before_rating_desc (date_parse : string -> option Z) (filters : Filters) (a b : Review) :
  sortBy filters = "rating-desc" ->
  before (compare_reviews date_parse filters) a b
  = ltb (rating_or_zero b) (rating_or_zero a).
Proof.
  intros Hs. unfold before, compare_reviews. rewrite Hs.
  cbn. apply sub_negative; apply rating_or_zero_not_nan.
Qed.

Lemma keep_zero_falsy (date_parse : string -> option Z) (toLowerCase : string -> string)
  (parseInt : string -> number) (searchTerm : string) (dateRange : DateRange)
  (filters : Filters) (r : Review) :
  keep date_parse toLowerCase parseInt searchTerm dateRange filters (zero_falsy r)
  = keep date_parse toLowerCase parseInt searchTerm dateRange filters r.
Proof.
  unfold keep. rewrite rating_or_zero_zero_falsy. reflexivity.
Qed.

Lemma compare_zero_falsy (date_parse : string -> option Z) (filters : Filters)
  (a b : Review) :
  compare_reviews date_parse filters (zero_falsy a) (zero_falsy b)
  = compare_reviews date_parse filters a b.
Proof.
  unfold compare_reviews. rewrite !rating_or_zero_zero_falsy. reflexivity.
Qed.

(** C7, as stated, fails on the placement: under the oldest-first order a
    review with an unparsable date that comes after a dated one stays after
    it, where the earliest-date reading puts it first; put first in the
    input, it stays first. *)
Lemma C7_unparsable_date_not_earliest :
  filteredReviews Sample.date_parse Sample.toLowerCase Sample.parseInt "" no_dates
    (Examples.sorting "date-asc") [Examples.valid_dated; Examples.undated]
  = [Examples.valid_dated; Examples.undated] /\
  sort_dates_earliest Sample.date_parse true [Examples.valid_dated; Examples.undated]
  = [Examples.undated; Examples.valid_dated] /\
  filteredReviews Sample.date_parse Sample.toLowerCase Sample.parseInt "" no_dates
    (Examples.sorting "date-asc") [Examples.valid_dated; Examples.undated]
  <> sort_dates_earliest Sample.date_parse true [Examples.valid_dated; Examples.undated].
Proof.
  assert (H1 : filteredReviews Sample.date_parse Sample.toLowerCase Sample.parseInt ""
                 no_dates (Examples.sorting "date-asc")
                 [Examples.valid_dated; Examples.undated]
               = [Examples.valid_dated; Examples.undated]) by (vm_compute; reflexivity).
  assert (H2 : sort_dates_earliest Sample.date_parse true
                 [Examples.valid_dated; Examples.undated]
               = [Examples.undated; Examples.valid_dated]) by (vm_compute; reflexivity).
  split; [exact H1|]. split; [exact H2|].
  rewrite H1, H2. vm_compute. intros H. discriminate H.
Qed.

(** C7 (amended): for a review whose submittedAt does not parse, the
    engine still returns a result; the review is never excluded by the date
    bounds, the text, property, rating, status and channel filters deciding
    alone; it is part of the result whenever those filters keep it; and
    under the date orders every comparison with it is NaN, which the sort
    reads as a tie, so that no date ordering is imposed on it. *)
Theorem C7_unparsable_date (date_parse : string -> option Z)
  (toLowerCase : string -> string) (parseInt : string -> number)
  (searchTerm : string) (dateRange : DateRange) (filters : Filters) (r : Review) :
  date_parse (submittedAt r) = None ->
  keep date_parse toLowerCase parseInt searchTerm dateRange filters r
  = keep date_parse toLowerCase parseInt searchTerm no_dates filters r /\
  (forall reviews,
     In r reviews ->
     keep date_parse toLowerCase parseInt searchTerm no_dates filters r = true ->
     In r (filteredReviews date_parse toLowerCase parseInt searchTerm dateRange filters
             reviews)) /\
  (sortBy filters <> "rating-asc" -> sortBy filters <> "rating-desc" ->
   forall b,
     compare_reviews date_parse filters r b = NaN /\
     compare_reviews date_parse filters b r = NaN /\
     before (compare_reviews date_parse filters) r b = false /\
     before (compare_reviews date_parse filters) b r = false).
Proof.
  intros Hd. pose proof (date_of_unparsable date_parse _ Hd) as Hnan.
  assert (Hkeep : keep date_parse toLowerCase parseInt searchTerm dateRange filters r
                  = keep date_parse toLowerCase parseInt searchTerm no_dates filters r).
  { unfold keep. rewrite Hnan. unfold gtb. rewrite ltb_nan_r. cbn [ltb no_dates start end_].
    cbn [nonempty String.eqb negb andb]. rewrite !andb_false_r. reflexivity. }
  split; [exact Hkeep|]. split.
  - intros reviews Hin Hk. unfold filteredReviews.
    apply js_sort_In. apply filter_In. split; [exact Hin|].
    rewrite Hkeep. exact Hk.
  - intros Hasc Hdesc b.
    assert (Hc : compare_reviews date_parse filters r b = NaN
                 /\ compare_reviews date_parse filters b r = NaN).
    { unfold compare_reviews.
      destruct (String.eqb_spec (sortBy filters) "rating-asc"); [contradiction|].
      destruct (String.eqb_spec (sortBy filters) "rating-desc"); [contradiction|].
      rewrite Hnan.
      destruct (String.eqb (sortBy filters) "date-asc");
        [|destruct (String.eqb (sortBy filters) "date-desc")];
        split; first [apply sub_nan_l | apply sub_nan_r]. }
    destruct Hc as [C1 C2]. unfold before. rewrite C1, C2.
    repeat split; reflexivity.
Qed.

Lemma C7_unparsable_date_witness :
  keep Sample.date_parse Sample.toLowerCase Sample.parseInt ""
    {| start := "2024-01-01"; end_ := "2024-12-31" |} (Examples.sorting "date-asc")
    Examples.undated
  = keep Sample.date_parse Sample.toLowerCase Sample.parseInt "" no_dates
      (Examples.sorting "date-asc") Examples.undated.
Proof.
  assert (Hd : Sample.date_parse (submittedAt Examples.undated) = None)
    by (vm_compute; reflexivity).
  exact (proj1 (C7_unparsable_date Sample.date_parse Sample.toLowerCase Sample.parseInt ""
                  {| start := "2024-01-01"; end_ := "2024-12-31" |}
                  (Examples.sorting "date-asc") Examples.undated Hd)).
Defined.

(** The engine's key is above zero exactly for the ratings above zero. *)
Lemma key_above_zero (b : Review) :
  ltb zero (rating_or_zero b) = rated_above_zero b.
Proof.
  unfold rating_or_zero, or_else, rated_above_zero.
  destruct (rating b) as [| |f|[| | |k]]; try reflexivity.
  - destruct f; [vm_compute; reflexivity | reflexivity].
  - cbn [to_boolean]. destruct (Z.eqb_spec k 0) as [->|Hk]; reflexivity.
Qed.

Lemma in_middle {A : Type} (b x : A) (pre post : list A) :
  In b (pre ++ x :: post) -> In b pre \/ b = x \/ In b post.
Proof.
  intros H. apply in_app_or in H as [H|[H|H]]; [left|right; left|right; right]; auto.
Qed.

(** C10: a review whose rating is falsy (null, undefined, false, 0 or NaN)
    counts as rated 0 in the engine.  Every minimum-rating filter with a
    positive threshold excludes it, so that it is in no result; the
    engine's result is the same as if the rating were the number 0; without
    such a filter it is in the result whenever the other filters keep it;
    and it sorts as the lowest rating: in ascending order no review rated
    above zero is placed before it and every kept review rated above zero
    comes after it, in descending order the other way round. *)
Theorem C10_falsy_rating_as_zero (date_parse : string -> option Z)
  (toLowerCase : string -> string) (parseInt : string -> number)
  (searchTerm : string) (dateRange : DateRange) (filters : Filters) (r : Review) :
  to_boolean (rating r) = false ->
  let engine := filteredReviews date_parse toLowerCase parseInt searchTerm dateRange filters in
  let kept := keep date_parse toLowerCase parseInt searchTerm dateRange filters in
  rating_or_zero r = zero /\
  (nonempty (f_rating filters) = true ->
   ltb zero (parseInt (f_rating filters)) = true ->
   kept r = false /\ forall reviews, ~ In r (engine reviews)) /\
  (forall reviews, engine (map zero_falsy reviews) = map zero_falsy (engine reviews)) /\
  (forall reviews, In r reviews -> kept r = true -> In r (engine reviews)) /\
  (forall reviews pre post,
     engine reviews = pre ++ r :: post ->
     (sortBy filters = "rating-asc" ->
      (forall b, In b pre -> ltb zero (rating_or_zero b) = false) /\
      (forall b, In b pre -> rated_above_zero b = false) /\
      (forall b, In b reviews -> kept b = true -> rated_above_zero b = true ->
                 In b post)) /\
     (sortBy filters = "rating-desc" ->
      (forall b, In b post -> ltb zero (rating_or_zero b) = false) /\
      (forall b, In b post -> rated_above_zero b = false) /\
      (forall b, In b reviews -> kept b = true -> rated_above_zero b = true ->
                 In b pre))).
Proof.
  intros Hf engine kept. pose proof (rating_or_zero_falsy r Hf) as Hz.
  assert (Hr : rated_above_zero r = false).
  { rewrite <- key_above_zero, Hz. reflexivity. }
  assert (Hout : forall reviews b,
             In b reviews -> kept b = true -> In b (engine reviews)).
  { intros reviews b Hin Hk. unfold engine, filteredReviews.
    apply js_sort_In. apply filter_In. split; assumption. }
  assert (Hin : forall reviews b, In b (engine reviews) -> kept b = true).
  { intros reviews b Hb. unfold engine, filteredReviews in Hb.
    apply js_sort_In in Hb. apply filter_In in Hb. apply Hb. }
  split; [exact Hz|]. split; [|split; [|split]].
  - intros Hne Hlt.
    assert (Hk : kept r = false).
    { unfold kept, keep. rewrite Hne, Hz, Hlt. cbn [andb].
      repeat match goal with
             | |- context [if ?c then false else false] =>
                 replace (if c then false else false) with false by (destruct c; reflexivity)
             end.
      reflexivity. }
    split; [exact Hk|]. intros reviews Hb. apply Hin in Hb. congruence.
  - intros reviews. unfold engine, filteredReviews.
    rewrite (filter_map_commute zero_falsy _
               (keep date_parse toLowerCase parseInt searchTerm dateRange filters))
      by (intros a; apply keep_zero_falsy).
    apply js_sort_map. intros a b. apply compare_zero_falsy.
  - intros reviews. apply Hout.
  - intros reviews pre post Hdec. split; intros Hs.
    + assert (Hsorted : StronglySorted
                (fun a b => before (compare_reviews date_parse filters) b a = false)
                (pre ++ r :: post)).
      { rewrite <- Hdec. unfold engine, filteredReviews. apply js_sort_sorted.
        - intros x y. rewrite !before_rating_asc by exact Hs. apply ltb_asym.
        - intros x y z. rewrite !before_rating_asc by exact Hs.
          apply ltb_false_trans. apply rating_or_zero_not_nan. }
      destruct (sorted_around _ _ _ _ Hsorted) as [Hpre _].
      assert (Hkey : forall b, In b pre -> ltb zero (rating_or_zero b) = false).
      { intros b Hb. specialize (Hpre b Hb). cbv beta in Hpre.
        rewrite before_rating_asc, Hz in Hpre by exact Hs. exact Hpre. }
      split; [exact Hkey|]. split.
      * intros b Hb. rewrite <- key_above_zero. apply Hkey, Hb.
      * intros b Hb Hk Ha. pose proof (Hout reviews b Hb Hk) as Hbo.
        rewrite Hdec in Hbo. apply in_middle in Hbo as [Hbo|[->|Hbo]].
        -- apply Hkey in Hbo. rewrite key_above_zero in Hbo. congruence.
        -- congruence.
        -- exact Hbo.
    + assert (Hsorted : StronglySorted
                (fun a b => before (compare_reviews date_parse filters) b a = false)
                (pre ++ r :: post)).
      { rewrite <- Hdec. unfold engine, filteredReviews. apply js_sort_sorted.
        - intros x y. rewrite !before_rating_desc by exact Hs. apply ltb_asym.
        - intros x y z. rewrite !before_rating_desc by exact Hs.
          intros H1 H2. revert H2 H1.
          apply ltb_false_trans. apply rating_or_zero_not_nan. }
      destruct (sorted_around _ _ _ _ Hsorted) as [_ Hpost].
      assert (Hkey : forall b, In b post -> ltb zero (rating_or_zero b) = false).
      { intros b Hb. specialize (Hpost b Hb). cbv beta in Hpost.
        rewrite before_rating_desc, Hz in Hpost by exact Hs. exact Hpost. }
      split; [exact Hkey|]. split.
      * intros b Hb. rewrite <- key_above_zero. apply Hkey, Hb.
      * intros b Hb Hk Ha. pose proof (Hout reviews b Hb Hk) as Hbo.
        rewrite Hdec in Hbo. apply in_middle in Hbo as [Hbo|[->|Hbo]].
        -- exact Hbo.
        -- congruence.
        -- apply Hkey in Hbo. rewrite key_above_zero in Hbo. congruence.
Qed.

(** An unrated review is dropped by the threshold 8; with no threshold, of
    a review rated 9 followed by the unrated one, the ascending order puts
    the unrated one first and the rated one after it. *)
Lemma C10_falsy_rating_as_zero_witness :
  keep Sample.date_parse Sample.toLowerCase Sample.parseInt "" no_dates
    (Examples.min_rating "8" "rating-asc") Examples.unrated = false /\
  In Examples.unrated
    (filteredReviews Sample.date_parse Sample.toLowerCase Sample.parseInt "" no_dates
       (Examples.sorting "rating-asc") [Examples.valid_dated; Examples.unrated]) /\
  In Examples.valid_dated [Examples.valid_dated].
Proof.
  assert (Hf : to_boolean (rating Examples.unrated) = false) by reflexivity.
  assert (Hn : nonempty (f_rating (Examples.min_rating "8" "rating-asc")) = true)
    by reflexivity.
  assert (Hp : ltb zero (Sample.parseInt (f_rating (Examples.min_rating "8" "rating-asc")))
               = true) by (vm_compute; reflexivity).
  assert (Hi : In Examples.unrated [Examples.valid_dated; Examples.unrated])
    by (right; left; reflexivity).
  assert (Hv : In Examples.valid_dated [Examples.valid_dated; Examples.unrated])
    by (left; reflexivity).
  assert (Hk : keep Sample.date_parse Sample.toLowerCase Sample.parseInt "" no_dates
                 (Examples.sorting "rating-asc") Examples.unrated = true)
    by (vm_compute; reflexivity).
  assert (Hkv : keep Sample.date_parse Sample.toLowerCase Sample.parseInt "" no_dates
                  (Examples.sorting "rating-asc") Examples.valid_dated = true)
    by (vm_compute; reflexivity).
  assert (Ha : rated_above_zero Examples.valid_dated = true) by (vm_compute; reflexivity).
  assert (Hd : filteredReviews Sample.date_parse Sample.toLowerCase Sample.parseInt ""
                 no_dates (Examples.sorting "rating-asc")
                 [Examples.valid_dated; Examples.unrated]
               = [] ++ Examples.unrated :: [Examples.valid_dated])
    by (vm_compute; reflexivity).
  assert (Hs : sortBy (Examples.sorting "rating-asc") = "rating-asc") by reflexivity.
  split; [|split].
  - exact (proj1 (proj1 (proj2 (C10_falsy_rating_as_zero Sample.date_parse
                                  Sample.toLowerCase Sample.parseInt "" no_dates
                                  (Examples.min_rating "8" "rating-asc")
                                  Examples.unrated Hf))
                    Hn Hp)).
  - exact (proj1 (proj2 (proj2 (proj2 (C10_falsy_rating_as_zero Sample.date_parse
                                         Sample.toLowerCase Sample.parseInt "" no_dates
                                         (Examples.sorting "rating-asc")
                                         Examples.unrated Hf))))
             _ Hi Hk).
  - exact (proj2 (proj2 (proj1 (proj2 (proj2 (proj2 (proj2
             (C10_falsy_rating_as_zero Sample.date_parse
                Sample.toLowerCase Sample.parseInt "" no_dates
                (Examples.sorting "rating-asc") Examples.unrated Hf))))
             _ _ _ Hd) Hs))
             _ Hv Hkv Ha).
Defined.

(* ===================================================================== *)
(** ** Further properties of the two files *)
(* ===================================================================== *)

Import MathOps Routes Views SpecMore ExamplesMore.


Lemma mapM_pure {A B} (f : A -> Handler B) (g : A -> B) (l : list A) (s : Approvals) :
  (forall a, f a s = (g a, s)) -> mapM f l s = (map g l, s).
Proof.
  intros Hf. induction l as [|x l IH]; [reflexivity|].
  cbn [mapM map]. unfold bind. rewrite Hf, IH. reflexivity.
Qed.

Lemma mapM_score (table : list RawReview) (s : Approvals) :
  mapM score table s = (map (scored_in s) table, s).
Proof. apply mapM_pure. intros a. reflexivity. Qed.

Lemma mapM_normalize (l : list RawReview) (s : Approvals) :
  mapM normalize l s = (map (fun raw => fst (normalize raw s)) l, s).
Proof. apply mapM_pure. intros a. reflexivity. Qed.



(** X2: approval requests compose as writes to a map: a second request
    for the same id overrides the first, requests for different ids commute
    and both flags read back, and a request with a non-boolean value in
    between changes nothing. *)
Theorem patches_compose (key1 key2 : string) (b1 b2 : bool) (s : Approvals) :
  let after k b st := snd (patch_review_approval k (Some (JsonBool b)) st) in
  after key1 b2 (after key1 b1 s) = after key1 b2 s /\
  (key1 <> key2 ->
   after key2 b2 (after key1 b1 s) = after key1 b1 (after key2 b2 s) /\
   fst (getApproval key1 (after key2 b2 (after key1 b1 s))) = b1 /\
   fst (getApproval key2 (after key2 b2 (after key1 b1 s))) = b2) /\
  (forall v, is_boolean v = false ->
   snd (patch_review_approval key2 v (after key1 b1 s)) = after key1 b1 s).
Proof.
  cbv zeta. cbn [patch_review_approval bind store_set ret snd fst getApproval].
  split; [apply insert_insert_eq|]. split.
  - intros Hne. split; [apply insert_insert_ne; congruence|].
    split.
    + rewrite lookup_insert_ne by congruence. rewrite lookup_insert_eq. reflexivity.
    + rewrite lookup_insert_eq. reflexivity.
  - intros v Hv. destruct v as [[]|]; try discriminate Hv; reflexivity.
Qed.

Lemma patches_compose_witness :
  fst (getApproval "7453"
         (snd (patch_review_approval "7454" (Some (JsonBool false))
                 (snd (patch_review_approval "7453" (Some (JsonBool true)) ∅))))) = true.
Proof.
  assert (Hne : "7453" <> "7454") by discriminate.
  exact (proj1 (proj2 (proj1 (proj2 (patches_compose "7453" "7454" true false ∅)) Hne))).
Defined.

Lemma property_over_eq (table : list RawReview) (listingId : string)
  (approved_only : option string) (s : Approvals) :
  property_over table listingId approved_only s
  = (let all := map (scored_in s) (List.filter (matches_listing listingId) table) in
     let shown := if wants_approved approved_only then List.filter sr_approved all else all in
     PropertyOk shown (length shown) listingId, s).
Proof. unfold property_over, bind. rewrite mapM_score. reflexivity. Qed.

Lemma property_data_In (table : list RawReview) (listingId : string)
  (approved_only : option string) (s : Approvals) (x : ScoredReview) :
  In x (property_data (fst (property_over table listingId approved_only s))) <->
  exists raw, In raw table /\ x = scored_in s raw /\
              matches_listing listingId raw = true /\
              (wants_approved approved_only = true -> approved_in s raw = true).
Proof.
  rewrite property_over_eq. cbn [fst property_data].
  destruct (wants_approved approved_only).
  - rewrite filter_In, in_map_iff. split.
    + intros [(raw & <- & Hin) Ha]. apply filter_In in Hin as [Hin Hm].
      exists raw. repeat split; try assumption. intros _. exact Ha.
    + intros (raw & Hin & -> & Hm & Ha). split; [|apply Ha; reflexivity].
      exists raw. split; [reflexivity|]. apply filter_In. split; assumption.
  - rewrite in_map_iff. split.
    + intros (raw & <- & Hin). apply filter_In in Hin as [Hin Hm].
      exists raw. repeat split; try assumption. discriminate.
    + intros (raw & Hin & -> & Hm & _).
      exists raw. split; [reflexivity|]. apply filter_In. split; assumption.
Qed.

(** X3: the property route leaves the store alone, reports the number
    of reviews it returns, and returns exactly the scored reviews of the
    table whose listing name contains the requested text or whose id text
    equals it, restricted to the approved ones when approved_only is the
    text "true". *)
Theorem property_route_results (table : list RawReview) (listingId : string)
  (approved_only : option string) (s : Approvals) :
  let r := fst (property_over table listingId approved_only s) in
  snd (property_over table listingId approved_only s) = s /\
  property_total r = Some (length (property_data r)) /\
  (forall x, In x (property_data r) <->
     exists raw, In raw table /\ x = scored_in s raw /\
                 matches_listing listingId raw = true /\
                 (wants_approved approved_only = true -> approved_in s raw = true)).
Proof.
  cbv zeta. split; [|split].
  - rewrite property_over_eq. reflexivity.
  - rewrite property_over_eq. reflexivity.
  - intros x. apply property_data_In.
Qed.

Lemma property_route_results_witness :
  In (scored_in ∅ Examples.mock_review)
     (property_data (fst (property_over mockReviews "Shoreditch" None ∅))).
Proof.
  apply (proj2 (proj2 (proj2 (property_route_results mockReviews "Shoreditch" None ∅)) _)).
  exists Examples.mock_review. split; [left; reflexivity|]. split; [reflexivity|].
  split; [vm_compute; reflexivity|]. intros H. discriminate H.
Defined.

Lemma matches_own_id (raw : RawReview) : matches_listing (id_key (raw_id raw)) raw = true.
Proof. unfold matches_listing. rewrite String.eqb_refl. apply orb_true_r. Qed.

(** X4: with an empty approval store the approved-only view of the
    property route is empty; once a review of the table has been approved
    through the approval route, asking for its id text with approved_only
    returns it, flagged approved. *)
Theorem property_route_after_approval (table : list RawReview) (raw : RawReview)
  (s : Approvals) :
  property_data (fst (property_over table (id_key (raw_id raw)) (Some "true") ∅)) = [] /\
  (In raw table ->
   let s' := snd (patch_review_approval (id_key (raw_id raw)) (Some (JsonBool true)) s) in
   In (scored_in s' raw)
      (property_data (fst (property_over table (id_key (raw_id raw)) (Some "true") s'))) /\
   sr_approved (scored_in s' raw) = true).
Proof.
  split.
  - rewrite property_over_eq. cbn [fst property_data].
    change (wants_approved (Some "true")) with true. cbv iota.
    induction (List.filter _ table) as [|x l IH]; [reflexivity|].
    cbn. unfold approved_in. rewrite lookup_empty. exact IH.
  - intros Hin. cbv zeta.
    assert (Ha : approved_in
                   (snd (patch_review_approval (id_key (raw_id raw)) (Some (JsonBool true)) s))
                   raw = true).
    { unfold approved_in. cbn. rewrite lookup_insert_eq. reflexivity. }
    split; [|exact Ha].
    apply property_data_In. exists raw. split; [exact Hin|]. split; [reflexivity|].
    split; [apply matches_own_id|]. intros _. exact Ha.
Qed.

Lemma property_route_after_approval_witness :
  In (scored_in (snd (patch_review_approval (id_key (raw_id Examples.mock_review))
                        (Some (JsonBool true)) ∅)) Examples.mock_review)
     (property_data
        (fst (property_over mockReviews (id_key (raw_id Examples.mock_review)) (Some "true")
                (snd (patch_review_approval (id_key (raw_id Examples.mock_review))
                        (Some (JsonBool true)) ∅))))).
Proof.
  assert (Hin : In Examples.mock_review mockReviews) by (left; reflexivity).
  exact (proj1 (proj2 (property_route_after_approval mockReviews Examples.mock_review ∅) Hin)).
Defined.

(** *** More facts about the sort *)
Section SortOn.
Context {A : Type} (compareFn : A -> A -> number).

Lemma insert_sorted_perm (x : A) (l : list A) :
  Permutation (insert_sorted compareFn x l) (x :: l).
Proof.
  induction l as [|y l IH]; cbn; [reflexivity|].
  destruct (before compareFn y x); [|reflexivity].
  rewrite IH. apply perm_swap.
Qed.

Lemma js_sort_perm (l : list A) : Permutation (js_sort compareFn l) l.
Proof.
  induction l as [|x l IH]; cbn; [reflexivity|].
  rewrite insert_sorted_perm. constructor. exact IH.
Qed.

Lemma js_sort_length (l : list A) : length (js_sort compareFn l) = length l.
Proof. apply Permutation_length. apply js_sort_perm. Qed.

(** A list that is already in order is left as it is. *)
Lemma js_sort_fixed (l : list A) :
  StronglySorted (fun a b => before compareFn b a = false) l ->
  js_sort compareFn l = l.
Proof.
  induction 1 as [|x l Hs IH Hall]; cbn; [reflexivity|].
  rewrite IH. destruct l as [|y l]; [reflexivity|].
  cbn. apply Forall_inv in Hall. rewrite Hall. reflexivity.
Qed.

Lemma insert_sorted_filter_out (p : A -> bool) (x : A) (l : list A) :
  p x = false -> List.filter p (insert_sorted compareFn x l) = List.filter p l.
Proof.
  intros Hx. induction l as [|y l IH]; cbn; [rewrite Hx; reflexivity|].
  destruct (before compareFn y x); cbn; [rewrite IH|rewrite Hx]; reflexivity.
Qed.

(** Stability: elements that the comparator does not order among
    themselves keep their input order. *)
Lemma js_sort_stable (p : A -> bool) (l : list A) :
  (forall a b, In a l -> In b l -> p a = true -> p b = true ->
               before compareFn a b = false) ->
  List.filter p (js_sort compareFn l) = List.filter p l.
Proof.
  induction l as [|x l IH]; intros Htie; [reflexivity|].
  cbn [js_sort List.filter].
  assert (IH' : List.filter p (js_sort compareFn l) = List.filter p l).
  { apply IH. intros a b Ha Hb. apply Htie; right; assumption. }
  destruct (p x) eqn:Px.
  - rewrite <- IH'.
    assert (Hin : forall y, In y (js_sort compareFn l) -> In y l)
      by (intros y; apply js_sort_In).
    revert Hin. generalize (js_sort compareFn l). intros sorted Hin.
    induction sorted as [|y sorted IHs]; cbn; [rewrite Px; reflexivity|].
    destruct (before compareFn y x) eqn:E.
    + destruct (p y) eqn:Py.
      * rewrite (Htie y x) in E; [discriminate| | |assumption|assumption].
        -- right. apply Hin. left. reflexivity.
        -- left. reflexivity.
      * cbn. rewrite Py. apply IHs. intros z Hz. apply Hin. right. exact Hz.
    + cbn. rewrite Px. reflexivity.
  - rewrite insert_sorted_filter_out by exact Px. exact IH'.
Qed.

Variable D : A -> Prop.
Hypothesis before_asym_on :
  forall x y, D x -> D y -> before compareFn x y = true -> before compareFn y x = false.
Hypothesis not_before_trans_on :
  forall x y z, D x -> D y -> D z ->
    before compareFn y x = false -> before compareFn z y = false ->
    before compareFn z x = false.

Lemma insert_sorted_sorted_on (x : A) (l : list A) :
  D x -> Forall D l ->
  StronglySorted (fun a b => before compareFn b a = false) l ->
  StronglySorted (fun a b => before compareFn b a = false) (insert_sorted compareFn x l).
Proof.
  intros Dx Dl Hs. induction Hs as [|y l Hs IH Hall]; cbn.
  - constructor; constructor.
  - apply Forall_cons_iff in Dl as [Dy Dl].
    destruct (before compareFn y x) eqn:E.
    + constructor; [apply IH; exact Dl|].
      apply Forall_insert_sorted; [apply before_asym_on; assumption | exact Hall].
    + constructor; [constructor; assumption|].
      constructor; [exact E|].
      rewrite List.Forall_forall in *. intros z Hz.
      apply (not_before_trans_on x y z); auto.
Qed.

Lemma js_sort_sorted_on (l : list A) :
  Forall D l ->
  StronglySorted (fun a b => before compareFn b a = false) (js_sort compareFn l).
Proof.
  induction l as [|x l IH]; intros Dl; cbn; [constructor|].
  apply Forall_cons_iff in Dl as [Dx Dl].
  apply insert_sorted_sorted_on; [exact Dx | | apply IH; exact Dl].
  rewrite List.Forall_forall in *. intros y Hy. apply Dl. apply js_sort_In in Hy. exact Hy.
Qed.
End SortOn.

Lemma statistics_over_eq (date_parse : string -> option Z) (table : list RawReview)
  (s : Approvals) :
  statistics_over date_parse table s
  = (statistics_of date_parse (map (scored_in s) table), s).
Proof. unfold statistics_over, bind. rewrite mapM_score. reflexivity. Qed.

Lemma filter_length_le {A} (p : A -> bool) (l : list A) :
  (length (List.filter p l) <= length l)%nat.
Proof. induction l as [|x l IH]; cbn; [lia|]. destruct (p x); cbn; lia. Qed.

(** X5: in the statistics answer the total is the size of the table,
    the approved count is the number of reviews whose id text is approved in
    the store, and approved plus pending is the total. *)
Theorem statistics_counts (date_parse : string -> option Z) (table : list RawReview)
  (s : Approvals) :
  exists o,
    stats_overall (fst (statistics_over date_parse table s)) = Some o /\
    totalReviews o = length table /\
    approvedCount o = length (List.filter (approved_in s) table) /\
    (approvedCount o + pendingCount o = totalReviews o)%nat.
Proof.
  rewrite statistics_over_eq. cbn [fst statistics_of stats_overall].
  eexists. split; [reflexivity|]. cbn [totalReviews approvedCount pendingCount].
  rewrite (filter_map_commute (scored_in s) sr_approved (approved_in s))
    by (intros a; reflexivity).
  rewrite !length_map. split; [reflexivity|]. split; [reflexivity|].
  pose proof (filter_length_le (approved_in s) table). lia.
Qed.

(** Filling the own entries of an object [{}] key by key: what a fold of
    such steps holds under a name. *)
Section OwnEntries.
Context {R V : Type} (key : R -> string) (bump : V -> R -> V) (fresh : V).
Context (step : gmap string V -> R -> gmap string V).
Hypothesis step_eq :
  forall m r,
    step m r = match m !! key r with
               | Some entry => <[key r := bump entry r]> m
               | None => if inherited_key (key r) then m
                         else <[key r := bump fresh r]> m
               end.

Lemma step_other_key (m : gmap string V) (r : R) (name : string) :
  key r <> name -> step m r !! name = m !! name.
Proof.
  intros N. rewrite step_eq. destruct (m !! key r).
  - apply lookup_insert_ne. exact N.
  - destruct (inherited_key (key r)); [reflexivity|]. apply lookup_insert_ne. exact N.
Qed.

Lemma own_entries_lookup (rs : list R) (name : string) :
  forall m : gmap string V,
  fold_left step rs m !! name
  = match m !! name with
    | Some entry =>
        Some (fold_left bump (List.filter (fun r => String.eqb (key r) name) rs) entry)
    | None =>
        if inherited_key name then None
        else match List.filter (fun r => String.eqb (key r) name) rs with
             | [] => None
             | x :: l => Some (fold_left bump (x :: l) fresh)
             end
    end.
Proof.
  induction rs as [|r rs IH]; intros m.
  - cbn [fold_left List.filter]. destruct (m !! name); [reflexivity|].
    destruct (inherited_key name); reflexivity.
  - cbn [fold_left List.filter]. rewrite IH.
    destruct (String.eqb_spec (key r) name) as [E|N].
    + rewrite step_eq, E. destruct (m !! name) as [entry|] eqn:L.
      * rewrite lookup_insert_eq. reflexivity.
      * destruct (inherited_key name) eqn:I.
        -- rewrite L. reflexivity.
        -- rewrite lookup_insert_eq. reflexivity.
    + rewrite (step_other_key m r name N). reflexivity.
Qed.

Lemma own_entries_from_empty (rs : list R) (name : string) :
  fold_left step rs ∅ !! name
  = if inherited_key name then None
    else match List.filter (fun r => String.eqb (key r) name) rs with
         | [] => None
         | x :: l => Some (fold_left bump (x :: l) fresh)
         end.
Proof. rewrite own_entries_lookup, lookup_empty. reflexivity. Qed.
End OwnEntries.

Lemma property_fold_lookup (reviews : list ScoredReview) (name : string) :
  fold_left property_step reviews ∅ !! name
  = if inherited_key name then None
    else match scored_of_listing name reviews with
         | [] => None
         | x :: l => Some (fold_left stat_entry_step (x :: l) stat_entry_init)
         end.
Proof.
  apply (own_entries_from_empty (fun r => raw_listingName (base r)) stat_entry_step
           stat_entry_init property_step).
  intros m r. reflexivity.
Qed.

Lemma stat_entry_fold (group : list ScoredReview) :
  forall e,
  fold_left stat_entry_step group e
  = {| ps_total := ps_total e + length group;
       ps_approved := ps_approved e + length (List.filter sr_approved group);
       ps_averageRating := ps_averageRating e;
       ps_totalRating :=
         fold_left (fun sum review => add sum (to_number (sr_rating review))) group
           (ps_totalRating e) |}.
Proof.
  induction group as [|r group IH]; intros e.
  - destruct e. cbn. f_equal; lia.
  - cbn [fold_left]. rewrite IH. cbn [stat_entry_step ps_total ps_approved
      ps_averageRating ps_totalRating List.filter length].
    destruct (sr_approved r); cbn [length]; f_equal; lia.
Qed.

(** X6: the per-property statistics hold, for each listing name that is
    not a key inherited from Object.prototype, exactly the aggregate of the
    reviews of that listing taken in table order: their number, how many are
    approved, the sum of their ratings and the average printed with one
    decimal; a name without reviews has no entry, so no average divides by
    zero.  An inherited key, such as "constructor", gets no entry of its
    own. *)
Theorem statistics_by_property (date_parse : string -> option Z) (table : list RawReview)
  (s : Approvals) (name : string) :
  let group := scored_of_listing name (map (scored_in s) table) in
  stats_byProperty (fst (statistics_over date_parse table s)) !! name
  = if inherited_key name then None
    else match group with
         | [] => None
         | _ => Some {| ps_total := length group;
                        ps_approved := length (List.filter sr_approved group);
                        ps_averageRating :=
                          SStr (render (toFixed1 (div (rating_total group)
                                                    (of_nat (length group)))));
                        ps_totalRating := rating_total group |}
         end.
Proof.
  cbv zeta. rewrite statistics_over_eq. cbn [fst statistics_of stats_byProperty].
  rewrite lookup_fmap, property_fold_lookup.
  destruct (inherited_key name); [reflexivity|].
  destruct (scored_of_listing name (map (scored_in s) table)) as [|r group] eqn:E;
    [reflexivity|].
  rewrite stat_entry_fold. cbn [fmap option_fmap option_map property_average
    ps_total ps_approved ps_averageRating ps_totalRating stat_entry_init].
  reflexivity.
Qed.

Lemma rnd_not_nan (p q : Z) : is_nan (rnd p q) = false.
Proof.
  unfold rnd. destruct (0 <=? p).
  - destruct (round_mag p q <? OVF); reflexivity.
  - destruct (round_mag (- p) q <? OVF); reflexivity.
Qed.

Lemma time_value_parsed (date_parse : string -> option Z) (text : string) :
  (match date_parse text with Some _ => true | None => false end) = true ->
  is_nan (time_value date_parse text) = false.
Proof.
  unfold time_value. destruct (date_parse text); [|discriminate].
  intros _. apply rnd_not_nan.
Qed.

Lemma sorted_app_inv {A : Type} (R : A -> A -> Prop) (l1 l2 : list A) :
  StronglySorted R (l1 ++ l2) ->
  StronglySorted R l1 /\ (forall a b, In a l1 -> In b l2 -> R a b).
Proof.
  induction l1 as [|x l1 IH]; cbn; intros H.
  - split; [constructor|]. intros a b [].
  - apply StronglySorted_inv in H as [Hs Hall]. destruct (IH Hs) as [H1 H2].
    rewrite List.Forall_forall in Hall. split.
    + constructor; [exact H1|]. rewrite List.Forall_forall. intros y Hy.
      apply Hall. apply in_or_app. left. exact Hy.
    + intros a b [<-|Ha] Hb; [|apply H2; assumption].
      apply Hall. apply in_or_app. right. exact Hb.
Qed.

(** X7: the recent activity holds min(5, n) of the n reviews, each the
    projection of a table review, the others being left out; when every
    submittedAt parses it is ordered newest first and no review left out is
    newer than one listed. *)
Theorem statistics_recent_activity (date_parse : string -> option Z)
  (table : list RawReview) (s : Approvals) :
  let recent := stats_recent (fst (statistics_over date_parse table s)) in
  let time a := time_value date_parse (act_submittedAt a) in
  length recent = Nat.min 5 (length table) /\
  exists rest,
    Permutation (map (fun raw => project_activity (scored_in s raw)) table) (recent ++ rest) /\
    (all_dated date_parse (map raw_submittedAt table) = true ->
     StronglySorted (fun a b => ltb (time a) (time b) = false) recent /\
     forall a b, In a recent -> In b rest -> ltb (time a) (time b) = false).
Proof.
  cbv zeta. rewrite statistics_over_eq. cbn [fst statistics_of stats_recent].
  set (cmp := fun a b : ScoredReview =>
                sub (time_value date_parse (raw_submittedAt (base b)))
                    (time_value date_parse (raw_submittedAt (base a)))).
  set (all := map (scored_in s) table).
  split.
  - rewrite length_map, length_take, js_sort_length. unfold all. rewrite length_map.
    reflexivity.
  - exists (map project_activity (drop 5 (js_sort cmp all))). split.
    + rewrite <- map_app, take_drop. unfold all. rewrite <- (map_map (scored_in s)).
      apply Permutation_map. symmetry. apply js_sort_perm.
    + intros Hdated.
      assert (Hkey : forall x, In x all ->
                is_nan (time_value date_parse (raw_submittedAt (base x))) = false).
      { intros x Hx. unfold all in Hx. apply in_map_iff in Hx as (raw & <- & Hraw).
        apply time_value_parsed. unfold all_dated in Hdated.
        rewrite forallb_forall in Hdated. apply Hdated. apply in_map. exact Hraw. }
      assert (Hbefore : forall x y, In x all -> In y all ->
                before cmp x y
                = ltb (time_value date_parse (raw_submittedAt (base y)))
                      (time_value date_parse (raw_submittedAt (base x)))).
      { intros x y Hx Hy. unfold before, cmp. apply sub_negative; apply Hkey; assumption. }
      assert (Hsorted : StronglySorted (fun a b => before cmp b a = false)
                          (js_sort cmp all)).
      { apply (js_sort_sorted_on cmp (fun x => In x all)).
        - intros x y Hx Hy. rewrite !Hbefore by assumption. apply ltb_asym.
        - intros x y z Hx Hy Hz. rewrite !Hbefore by assumption.
          intros H1 H2. revert H2 H1. apply ltb_false_trans. apply Hkey. exact Hy.
        - rewrite List.Forall_forall. intros x Hx. exact Hx. }
      assert (Hsorted' : StronglySorted
                (fun a b => ltb (time_value date_parse (act_submittedAt a))
                                (time_value date_parse (act_submittedAt b)) = false)
                (map project_activity (js_sort cmp all))).
      { assert (Hin : forall x, In x (js_sort cmp all) -> In x all)
          by (intros x; apply js_sort_In).
        revert Hsorted Hin. generalize (js_sort cmp all). intros l Hl.
        induction Hl as [|x l Hs IH Hall]; intros Hin; cbn [map]; constructor.
        - apply IH. intros y Hy. apply Hin. right. exact Hy.
        - rewrite List.Forall_forall in *. intros y Hy.
          apply in_map_iff in Hy as (a & <- & Ha). cbn [project_activity act_submittedAt].
          rewrite <- Hbefore; [apply Hall; exact Ha | | ].
          + apply Hin. right. exact Ha.
          + apply Hin. left. reflexivity. }
      rewrite <- (take_drop 5 (js_sort cmp all)), map_app in Hsorted'.
      apply sorted_app_inv in Hsorted'. exact Hsorted'.
Qed.

Lemma statistics_recent_activity_witness :
  StronglySorted
    (fun a b => ltb (time_value Sample.date_parse (act_submittedAt a))
                    (time_value Sample.date_parse (act_submittedAt b)) = false)
    (stats_recent (fst (statistics_over Sample.date_parse two_raw ∅))).
Proof.
  assert (Hd : all_dated Sample.date_parse (map raw_submittedAt two_raw) = true)
    by (vm_compute; reflexivity).
  destruct (proj2 (statistics_recent_activity Sample.date_parse two_raw ∅))
    as (rest & _ & H).
  exact (proj1 (H Hd)).
Defined.

Lemma rne_cancel (a b c : Z) : 0 < b -> 0 < c -> rne (a * c) (b * c) = rne a b.
Proof.
  intros Hb Hc. unfold rne.
  rewrite Z.div_mul_cancel_r by lia. rewrite Z.mul_mod_distr_r by lia.
  rewrite Z.mul_assoc. rewrite <- (Zmult_compare_compat_r _ _ c) by lia. reflexivity.
Qed.

Lemma round_mag_cancel (p q c : Z) :
  0 < q -> 0 < c -> round_mag (p * c) (q * c) = round_mag p q.
Proof.
  intros Hq Hc. unfold round_mag. rewrite Z.div_mul_cancel_r by lia.
  destruct (Z.ltb_spec (p / q) (2 ^ 53)) as [Hs|Hb].
  - apply rne_cancel; assumption.
  - f_equal. destruct (binade (p / q) Hb) as (_ & HP & _).
    set (P := 2 ^ (Z.log2 (p / q) - 52)) in *.
    replace (q * c * P) with (q * P * c) by ring.
    apply rne_cancel; nia.
Qed.

(** Above the first binade rounding commutes with scaling by a power of
    two. *)
Lemma round_mag_scale (p q e : Z) :
  0 <= p -> 0 < q -> 0 <= e -> 2 ^ 53 <= p / q ->
  round_mag (p * 2 ^ e) q = round_mag p q * 2 ^ e.
Proof.
  intros Hp Hq He Hf.
  assert (HE : 0 < 2 ^ e) by (apply Z.pow_pos_nonneg; lia).
  pose proof (Z.mul_div_le p q Hq) as Hd.
  pose proof (Z.mul_succ_div_gt p q Hq) as Hu.
  pose proof (Z.mul_div_le (p * 2 ^ e) q Hq) as Hd'.
  pose proof (Z.mul_succ_div_gt (p * 2 ^ e) q Hq) as Hu'.
  assert (Hf0 : 0 < p / q) by lia.
  pose proof (Z.log2_spec (p / q) Hf0) as [Hlo Hhi].
  pose proof (Z.log2_nonneg (p / q)) as Hl0.
  set (f := p / q) in *. set (f' := p * 2 ^ e / q) in *.
  assert (Hlow : f * 2 ^ e <= f').
  { apply Z.div_le_lower_bound; [lia|]. nia. }
  assert (Hupp : f' < (f + 1) * 2 ^ e).
  { apply Z.div_lt_upper_bound; [lia|]. nia. }
  assert (Hlog : Z.log2 f' = Z.log2 f + e).
  { apply Z.log2_unique; [lia|]. split.
    - rewrite Z.pow_add_r by lia. nia.
    - replace (Z.succ (Z.log2 f + e)) with (Z.succ (Z.log2 f) + e) by lia.
      rewrite Z.pow_add_r by lia. nia. }
  unfold round_mag. fold f f'.
  destruct (Z.ltb_spec f (2 ^ 53)); [lia|].
  destruct (Z.ltb_spec f' (2 ^ 53)); [nia|].
  rewrite Hlog.
  replace (Z.log2 f + e - 52) with (Z.log2 f - 52 + e) by lia.
  assert (Hs : 0 <= Z.log2 f - 52).
  { assert (53 <= Z.log2 f) by (apply Z.log2_le_pow2; lia). lia. }
  rewrite Z.pow_add_r by lia.
  rewrite (Z.mul_assoc q). rewrite rne_cancel; [ring| |lia].
  assert (0 < 2 ^ (Z.log2 f - 52)) by (apply Z.pow_pos_nonneg; lia). nia.
Qed.

Lemma rnd_bounded (p q n : Z) :
  0 <= p -> 0 < q -> 0 <= n < 2 ^ 53 -> p <= n * U * q ->
  rnd p q = Fin (round_mag p q) /\ 0 <= round_mag p q <= n * U.
Proof.
  intros Hp Hq Hn Hle. destruct (rnd_range p q n Hp Hq Hn Hle) as (k & Ek & Hk).
  unfold rnd in *. destruct (Z.leb_spec 0 p); [|lia].
  destruct (round_mag p q <? OVF); [|discriminate].
  injection Ek as <-. split; [reflexivity | exact Hk].
Qed.

Lemma mean_agrees_19 :
  forallb (fun len =>
             forallb (fun total => mean_agrees (Z.of_nat len) (Z.of_nat total))
               (seq 0 (10 * len + 1)))
    (seq 1 19) = true.
Proof. vm_compute. reflexivity. Qed.

Lemma scaled_tenths_agree (len total : Z) :
  1 <= len <= 19 -> 0 <= total <= 10 * len ->
  scaled_tenths len total = (20 * total + len) / (2 * len).
Proof.
  intros Hlen Htot. apply Z.eqb_eq.
  assert (Hl : In (Z.to_nat len) (seq 1 19)) by (apply in_seq; lia).
  assert (Ht : In (Z.to_nat total) (seq 0 (10 * Z.to_nat len + 1))) by (apply in_seq; lia).
  pose proof (proj1 (forallb_forall _ _) mean_agrees_19 _ Hl) as H.
  pose proof (proj1 (forallb_forall _ _) H _ Ht) as H'.
  rewrite !Z2Nat.id in H' by lia. exact H'.
Qed.

Lemma mean_of_integers (len total : Z) :
  1 <= len <= 19 -> 0 <= total <= 10 * len ->
  fixed_to_number (toFixed1 (div (of_Z total) (of_Z len)))
  = of_decimal ((20 * total + len) / (2 * len)) 1.
Proof.
  intros Hlen Htot. pose proof U_pos as HU.
  rewrite <- (scaled_tenths_agree len total Hlen Htot).
  rewrite !of_Z_exact by lia. cbn [div].
  destruct (Z.eqb_spec (len * U) 0); [nia|].
  destruct (Z.ltb_spec 0 (len * U)); [|nia].
  destruct (rnd_bounded (total * U * U) (len * U) 10) as [Ek Hk]; try nia; try lia.
  rewrite Ek. rewrite round_mag_cancel in * by lia.
  set (k := round_mag (total * U) len) in *.
  unfold toFixed1.
  destruct (Z.ltb_spec k 0); [lia|].
  rewrite Z.abs_eq by lia.
  destruct (Z.leb_spec (10 ^ 21 * U) k); [lia|].
  cbn [fixed_to_number]. f_equal. unfold scaled_tenths.
  assert (Hk' : k = round_mag (total * 2 ^ 60) len * 2 ^ 1014).
  { unfold k. destruct (Z.eq_dec total 0) as [->|Hnz].
    - rewrite !Z.mul_0_l. unfold round_mag, rne. rewrite Z.div_0_l, Z.mod_0_l by lia.
      destruct (Z.ltb_spec 0 (2 ^ 53)); [|lia]. rewrite Z.mul_0_r.
      destruct (Z.compare_spec 0 len); try lia; reflexivity.
    - assert (Hbig : 2 ^ 53 <= total * 2 ^ 60 / len).
      { apply Z.div_le_lower_bound; [lia|].
        apply Z.le_trans with (19 * 2 ^ 53); [lia|].
        apply Z.le_trans with (1 * 2 ^ 60); [lia|].
        apply Z.mul_le_mono_nonneg_r; lia. }
      replace (total * U) with (total * 2 ^ 60 * 2 ^ 1014).
      + apply round_mag_scale; lia.
      + unfold U. rewrite <- Z.mul_assoc, <- Z.pow_add_r by lia. reflexivity. }
  rewrite Hk'. set (k' := round_mag (total * 2 ^ 60) len).
  replace U with (2 ^ 60 * 2 ^ 1014) by (unfold U; rewrite <- Z.pow_add_r by lia; reflexivity).
  replace (20 * (k' * 2 ^ 1014) + 2 ^ 60 * 2 ^ 1014) with ((20 * k' + 2 ^ 60) * 2 ^ 1014) by ring.
  replace (2 * (2 ^ 60 * 2 ^ 1014)) with (2 * 2 ^ 60 * 2 ^ 1014) by ring.
  apply Z.div_mul_cancel_r; lia.
Qed.
Lemma scored_number (cat : Category) (z : Z) :
  scored cat z -> to_number (or_else (cat_rating cat) (JNum zero)) = Fin (z * U).
Proof.
  intros [Hz [Hv|[-> Hf]]].
  - rewrite Hv. rewrite of_Z_exact by lia. unfold or_else. cbn [to_boolean].
    destruct (Z.eqb_spec (z * U) 0) as [E|N]; cbn [negb to_number].
    + rewrite E. reflexivity.
    + reflexivity.
  - rewrite or_else_falsy by exact Hf. reflexivity.
Qed.

Lemma category_total_integers (cats : list Category) (zs : list Z) :
  Forall2 scored cats zs ->
  forall a, 0 <= a -> a + 10 * Z.of_nat (length cats) < 2 ^ 53 ->
  fold_left (fun sum cat => add sum (to_number (or_else (cat_rating cat) (JNum zero))))
    cats (Fin (a * U))
  = Fin ((a + fold_right Z.add 0 zs) * U)
  /\ 0 <= fold_right Z.add 0 zs <= 10 * Z.of_nat (length cats).
Proof.
  induction 1 as [|cat z cats zs Hs Hrest IH]; intros a Ha Hb.
  - cbn. rewrite Z.add_0_r. split; [reflexivity|lia].
  - cbn [fold_left fold_right]. rewrite (scored_number cat z Hs). cbn [add].
    rewrite length_cons, Nat2Z.inj_succ in Hb |- *.
    destruct Hs as [Hz _].
    rewrite <- Z.mul_add_distr_r. change (rnd ((a + z) * U) 1) with (of_Z (a + z)).
    rewrite of_Z_exact by lia.
    destruct (IH (a + z)) as [E Hsum]; [lia|lia|].
    rewrite E. split; [f_equal; lia | lia].
Qed.

(** X8: for at most 19 categories whose scores are integers from 0 to
    10 (a falsy score counting as 0), calculateOverallRating is exactly the
    mean rounded half up to one decimal: the binary rounding of the sum and
    of the division never moves the result to another tenth. *)
Theorem rating_of_integer_scores (cats : list Category) (zs : list Z) :
  Forall2 scored cats zs -> cats <> [] -> (length cats <= 19)%nat ->
  calculateOverallRating (Some cats) = of_decimal (tenths_half_up zs) 1.
Proof.
  intros Hs Hne Hlen.
  assert (Hl : length zs = length cats) by (symmetry; eapply Forall2_length; exact Hs).
  destruct (category_total_integers cats zs Hs 0 ltac:(lia) ltac:(lia)) as [E Hsum].
  assert (Hcalc : calculateOverallRating (Some cats)
                  = fixed_to_number (toFixed1 (div (category_total cats) (of_nat (length cats))))).
  { destruct cats; [congruence|reflexivity]. }
  rewrite Hcalc.
  change (category_total cats)
    with (fold_left (fun sum cat =>
                       add sum (to_number (or_else (cat_rating cat) (JNum zero))))
            cats (Fin (0 * U))).
  rewrite E. rewrite Z.add_0_l.
  rewrite <- of_Z_exact by lia. unfold of_nat, tenths_half_up. cbv zeta. rewrite Hl.
  assert (0 < length cats)%nat by (destruct cats; [congruence|cbn; lia]).
  apply mean_of_integers; lia.
Qed.

Lemma rating_of_integer_scores_witness :
  calculateOverallRating (Some mock_categories)
  = of_decimal (tenths_half_up [9; 10; 9; 10]) 1.
Proof.
  assert (Hs : Forall2 scored mock_categories [9; 10; 9; 10]).
  { repeat constructor; try lia; left; reflexivity. }
  assert (Hne : mock_categories <> []) by discriminate.
  assert (Hlen : (length mock_categories <= 19)%nat) by (cbn; lia).
  exact (rating_of_integer_scores mock_categories [9; 10; 9; 10] Hs Hne Hlen).
Defined.

(** *** The filter and sort effect *)

Lemma keep_conj (date_parse : string -> option Z) (toLowerCase : string -> string)
  (parseInt : string -> number) (searchTerm : string) (dateRange : DateRange)
  (filters : Filters) (r : Review) :
  keep date_parse toLowerCase parseInt searchTerm dateRange filters r
  = (if nonempty searchTerm
     then includes (toLowerCase (guestName r)) (toLowerCase searchTerm)
          || includes (toLowerCase (publicReview r)) (toLowerCase searchTerm)
          || includes (toLowerCase (listingName r)) (toLowerCase searchTerm)
     else true)
    && negb (nonempty (property filters)
             && negb (String.eqb (listingName r) (property filters)))
    && negb (nonempty (f_rating filters)
             && ltb (rating_or_zero r) (parseInt (f_rating filters)))
    && negb (String.eqb (f_status filters) "approved" && negb (approved r))
    && negb (String.eqb (f_status filters) "pending" && approved r)
    && negb (nonempty (f_channel filters)
             && negb (String.eqb (channel r) (f_channel filters)))
    && negb (nonempty (start dateRange)
             && ltb (date_of date_parse (submittedAt r)) (date_of date_parse (start dateRange)))
    && negb (nonempty (end_ dateRange)
             && gtb (date_of date_parse (submittedAt r)) (date_of date_parse (end_ dateRange))).
Proof.
  unfold keep. cbv zeta.
  destruct (nonempty searchTerm);
  destruct (nonempty (property filters) && _);
  destruct (nonempty (f_rating filters) && _);
  destruct (String.eqb (f_status filters) "approved" && _);
  destruct (String.eqb (f_status filters) "pending" && _);
  destruct (nonempty (f_channel filters) && _);
  destruct (nonempty (start dateRange) && _);
  destruct (nonempty (end_ dateRange) && _);
  cbn [negb andb]; rewrite ?andb_true_r, ?andb_false_r; reflexivity.
Qed.

Lemma filter_all {A} (p : A -> bool) (l : list A) :
  (forall x, In x l -> p x = true) -> List.filter p l = l.
Proof.
  induction l as [|x l IH]; intros H; [reflexivity|]. cbn.
  rewrite (H x) by (left; reflexivity). f_equal. apply IH. intros y Hy. apply H. right. exact Hy.
Qed.

Lemma filter_perm_length {A} (p : A -> bool) (l l' : list A) :
  Permutation l l' -> length (List.filter p l) = length (List.filter p l').
Proof.
  induction 1 as [|x l l' _ IH|x y l|l l' l'' _ IH1 _ IH2]; cbn.
  - reflexivity.
  - destruct (p x); cbn; rewrite IH; reflexivity.
  - destruct (p x), (p y); reflexivity.
  - congruence.
Qed.

Lemma filter_split_length {A} (p q : A -> bool) (l : list A) :
  (length (List.filter (fun x => p x && q x) l)
   + length (List.filter (fun x => p x && negb (q x)) l)
   = length (List.filter p l))%nat.
Proof.
  induction l as [|x l IH]; [reflexivity|]. cbn.
  destruct (p x), (q x); cbn; lia.
Qed.

(** X9: the filter and sort effect returns a rearrangement of exactly
    the reviews that the filter callback keeps: nothing is dropped,
    duplicated or invented by the sort, and an empty input gives an empty
    result. *)
Theorem engine_returns_kept (date_parse : string -> option Z)
  (toLowerCase : string -> string) (parseInt : string -> number)
  (searchTerm : string) (dateRange : DateRange) (filters : Filters)
  (reviews : list Review) :
  let out := filteredReviews date_parse toLowerCase parseInt searchTerm dateRange filters
               reviews in
  Permutation out
    (List.filter (keep date_parse toLowerCase parseInt searchTerm dateRange filters) reviews) /\
  (forall r, In r out <->
     In r reviews /\
     keep date_parse toLowerCase parseInt searchTerm dateRange filters r = true) /\
  (length out <= length reviews)%nat /\
  (reviews = [] -> out = []).
Proof.
  cbv zeta. unfold filteredReviews. split; [apply js_sort_perm|]. split; [|split].
  - intros r. rewrite js_sort_In. apply filter_In.
  - rewrite js_sort_length. apply filter_length_le.
  - intros ->. reflexivity.
Qed.

Lemma engine_returns_kept_witness :
  In Examples.valid_dated
     (filteredReviews Sample.date_parse Sample.toLowerCase Sample.parseInt "ana" no_dates
        (Examples.min_rating "8" "rating-desc") two_dated).
Proof.
  assert (Hin : In Examples.valid_dated two_dated) by (left; reflexivity).
  assert (Hk : keep Sample.date_parse Sample.toLowerCase Sample.parseInt "ana" no_dates
                 (Examples.min_rating "8" "rating-desc") Examples.valid_dated = true)
    by (vm_compute; reflexivity).
  exact (proj2 (proj1 (proj2 (engine_returns_kept Sample.date_parse Sample.toLowerCase
                                Sample.parseInt "ana" no_dates
                                (Examples.min_rating "8" "rating-desc") two_dated))
                  Examples.valid_dated) (conj Hin Hk)).
Defined.

(** X10: with an empty search text, no date bounds and no filter set,
    the effect returns all the reviews, whatever the sort order. *)
Theorem engine_without_filters (date_parse : string -> option Z)
  (toLowerCase : string -> string) (parseInt : string -> number)
  (order : string) (reviews : list Review) :
  Permutation
    (filteredReviews date_parse toLowerCase parseInt "" no_dates (Examples.sorting order)
       reviews)
    reviews.
Proof.
  unfold filteredReviews. rewrite js_sort_perm.
  rewrite filter_all; [reflexivity|]. intros r _. reflexivity.
Qed.

Lemma keep_status (date_parse : string -> option Z) (toLowerCase : string -> string)
  (parseInt : string -> number) (searchTerm : string) (dateRange : DateRange)
  (filters : Filters) (r : Review) :
  keep date_parse toLowerCase parseInt searchTerm dateRange (with_status filters "approved") r
  = keep date_parse toLowerCase parseInt searchTerm dateRange (with_status filters "") r
    && approved r /\
  keep date_parse toLowerCase parseInt searchTerm dateRange (with_status filters "pending") r
  = keep date_parse toLowerCase parseInt searchTerm dateRange (with_status filters "") r
    && negb (approved r).
Proof.
  rewrite !keep_conj. cbn [with_status property f_rating f_status f_channel].
  change (String.eqb "approved" "approved") with true.
  change (String.eqb "approved" "pending") with false.
  change (String.eqb "pending" "approved") with false.
  change (String.eqb "pending" "pending") with true.
  change (String.eqb "" "approved") with false.
  change (String.eqb "" "pending") with false.
  cbn [andb negb].
  split; destruct (approved r); cbn [negb]; rewrite ?andb_true_r, ?andb_false_r;
    try reflexivity;
    repeat match goal with |- context [?a && false] => rewrite (andb_false_r a) end;
    try reflexivity.
Qed.

Lemma filter_twice {A} (p q : A -> bool) (l : list A) :
  List.filter p (List.filter q l) = List.filter (fun x => q x && p x) l.
Proof.
  induction l as [|x l IH]; [reflexivity|]. cbn.
  destruct (q x); cbn; [destruct (p x)|]; rewrite IH; reflexivity.
Qed.

(** X11: the approved view and the pending view split the view without
    status filter in two: a review is in the approved view exactly when it
    is in the unfiltered view and approved, in the pending view exactly when
    it is there and not approved; the two sizes add up, and they are the
    approved and pending figures that getStats shows for the unfiltered
    view. *)
Theorem engine_status_partition (date_parse : string -> option Z)
  (toLowerCase : string -> string) (parseInt : string -> number)
  (searchTerm : string) (dateRange : DateRange) (filters : Filters)
  (reviews : list Review) :
  let view text :=
    filteredReviews date_parse toLowerCase parseInt searchTerm dateRange
      (with_status filters text) reviews in
  (forall r, In r (view "approved") <-> In r (view "") /\ approved r = true) /\
  (forall r, In r (view "pending") <-> In r (view "") /\ approved r = false) /\
  (length (view "approved") + length (view "pending") = length (view ""))%nat /\
  st_approved (getStats (view "")) = length (view "approved") /\
  pending (getStats (view "")) = length (view "pending").
Proof.
  cbv zeta. unfold filteredReviews. rewrite !js_sort_length.
  set (k0 := keep date_parse toLowerCase parseInt searchTerm dateRange
               (with_status filters "")).
  assert (Ha : forall r, keep date_parse toLowerCase parseInt searchTerm dateRange
                           (with_status filters "approved") r = k0 r && approved r)
    by (intros r; apply keep_status).
  assert (Hp : forall r, keep date_parse toLowerCase parseInt searchTerm dateRange
                           (with_status filters "pending") r = k0 r && negb (approved r))
    by (intros r; apply keep_status).
  rewrite (filter_ext _ _ Ha), (filter_ext _ _ Hp).
  assert (Hsplit := filter_split_length k0 approved reviews).
  split; [|split; [|split; [|split]]].
  - intros r. rewrite !js_sort_In, !filter_In, andb_true_iff. tauto.
  - intros r. rewrite !js_sort_In, !filter_In, andb_true_iff, negb_true_iff. tauto.
  - exact Hsplit.
  - cbn [getStats st_approved].
    rewrite (filter_perm_length approved _ _ (js_sort_perm _ (List.filter k0 reviews))).
    rewrite filter_twice. reflexivity.
  - cbn [getStats pending]. rewrite js_sort_length.
    rewrite (filter_perm_length approved _ _ (js_sort_perm _ (List.filter k0 reviews))).
    rewrite filter_twice. lia.
Qed.

Lemma engine_status_partition_witness :
  In Examples.valid_dated
     (filteredReviews Sample.date_parse Sample.toLowerCase Sample.parseInt "" no_dates
        (with_status (Examples.sorting "rating-asc") "pending") two_dated).
Proof.
  assert (Hin : In Examples.valid_dated
                  (filteredReviews Sample.date_parse Sample.toLowerCase Sample.parseInt ""
                     no_dates (with_status (Examples.sorting "rating-asc") "") two_dated)).
  { vm_compute. right. left. reflexivity. }
  assert (Ha : approved Examples.valid_dated = false) by reflexivity.
  exact (proj2 (proj1 (proj2 (engine_status_partition Sample.date_parse Sample.toLowerCase
                                Sample.parseInt "" no_dates (Examples.sorting "rating-asc")
                                two_dated)) Examples.valid_dated) (conj Hin Ha)).
Defined.

(** When the order is by rating, or every kept review has a date that
    parses, the comparator is a consistent order on the kept reviews. *)
Lemma engine_sorted (date_parse : string -> option Z) (filters : Filters)
  (l : list Review) :
  sortBy filters = "rating-asc" \/ sortBy filters = "rating-desc"
  \/ all_dated date_parse (map submittedAt l) = true ->
  StronglySorted (fun a b => before (compare_reviews date_parse filters) b a = false)
    (js_sort (compare_reviews date_parse filters) l).
Proof.
  intros Horder.
  assert (Hdate : forall key : Review -> number,
            (forall x, In x l -> is_nan (key x) = false) ->
            forall lt : Review -> Review -> bool,
            (forall a b, In a l -> In b l ->
               before (compare_reviews date_parse filters) a b = lt a b) ->
            (forall a b, lt a b = ltb (key a) (key b)) \/
            (forall a b, lt a b = ltb (key b) (key a)) ->
            StronglySorted
              (fun a b => before (compare_reviews date_parse filters) b a = false)
              (js_sort (compare_reviews date_parse filters) l)).
  { intros key Hkey lt Hlt Hdir.
    apply (js_sort_sorted_on _ (fun x => In x l)).
    - intros x y Hx Hy. rewrite !Hlt by assumption.
      destruct Hdir as [Hd|Hd]; rewrite !Hd; apply ltb_asym.
    - intros x y z Hx Hy Hz. rewrite !Hlt by assumption.
      destruct Hdir as [Hd|Hd]; rewrite !Hd.
      + apply ltb_false_trans. apply Hkey. exact Hy.
      + intros H1 H2. revert H2 H1. apply ltb_false_trans. apply Hkey. exact Hy.
    - rewrite List.Forall_forall. intros x Hx. exact Hx. }
  destruct Horder as [Hs|[Hs|Hall]].
  - apply (Hdate rating_or_zero (fun x _ => rating_or_zero_not_nan x)
             (fun a b => ltb (rating_or_zero a) (rating_or_zero b))).
    + intros a b _ _. apply before_rating_asc. exact Hs.
    + left. reflexivity.
  - apply (Hdate rating_or_zero (fun x _ => rating_or_zero_not_nan x)
             (fun a b => ltb (rating_or_zero b) (rating_or_zero a))).
    + intros a b _ _. apply before_rating_desc. exact Hs.
    + right. reflexivity.
  - assert (Hkey : forall x, In x l -> is_nan (date_of date_parse (submittedAt x)) = false).
    { intros x Hx. apply time_value_parsed. unfold all_dated in Hall.
      rewrite forallb_forall in Hall. apply Hall. apply in_map. exact Hx. }
    destruct (String.eqb_spec (sortBy filters) "rating-asc") as [Hs|Hn1].
    { apply (Hdate rating_or_zero (fun x _ => rating_or_zero_not_nan x)
               (fun a b => ltb (rating_or_zero a) (rating_or_zero b))).
      - intros a b _ _. apply before_rating_asc. exact Hs.
      - left. reflexivity. }
    destruct (String.eqb_spec (sortBy filters) "rating-desc") as [Hs|Hn2].
    { apply (Hdate rating_or_zero (fun x _ => rating_or_zero_not_nan x)
               (fun a b => ltb (rating_or_zero b) (rating_or_zero a))).
      - intros a b _ _. apply before_rating_desc. exact Hs.
      - right. reflexivity. }
    destruct (String.eqb (sortBy filters) "date-asc") eqn:Easc.
    + apply (Hdate (fun x => date_of date_parse (submittedAt x)) Hkey
               (fun a b => ltb (date_of date_parse (submittedAt a))
                               (date_of date_parse (submittedAt b)))).
      * intros a b Ha Hb. unfold before, compare_reviews. rewrite Easc.
        apply sub_negative; apply Hkey; assumption.
      * left. reflexivity.
    + apply (Hdate (fun x => date_of date_parse (submittedAt x)) Hkey
               (fun a b => ltb (date_of date_parse (submittedAt b))
                               (date_of date_parse (submittedAt a)))).
      * intros a b Ha Hb. unfold before, compare_reviews. rewrite Easc.
        destruct (String.eqb_spec (sortBy filters) "rating-asc"); [contradiction|].
        destruct (String.eqb_spec (sortBy filters) "rating-desc"); [contradiction|].
        destruct (String.eqb (sortBy filters) "date-desc");
          apply sub_negative; apply Hkey; assumption.
      * right. reflexivity.
Qed.

Lemma strict_equal_eq (x y : number) : strict_equal x y = true -> x = y.
Proof.
  destruct x, y; cbn; try discriminate; try reflexivity.
  intros H. apply Z.eqb_eq in H. congruence.
Qed.

Lemma sorted_weaken {A : Type} (R R' : A -> A -> Prop) (l : list A) :
  (forall a b, R a b -> R' a b) -> StronglySorted R l -> StronglySorted R' l.
Proof.
  intros HR. induction 1 as [|x l Hs IH Hall]; constructor; [exact IH|].
  rewrite List.Forall_forall in *. intros y Hy. apply HR. apply Hall. exact Hy.
Qed.

(** X12: under the rating orders the result is ordered by the
    [rating || 0] key, ascending or descending, and the sort is stable:
    reviews with the same key keep the order they had in the input. *)
Theorem engine_rating_order (date_parse : string -> option Z)
  (toLowerCase : string -> string) (parseInt : string -> number)
  (searchTerm : string) (dateRange : DateRange) (filters : Filters)
  (reviews : list Review) :
  let out := filteredReviews date_parse toLowerCase parseInt searchTerm dateRange filters
               reviews in
  (sortBy filters = "rating-asc" ->
   StronglySorted (fun a b => ltb (rating_or_zero b) (rating_or_zero a) = false) out) /\
  (sortBy filters = "rating-desc" ->
   StronglySorted (fun a b => ltb (rating_or_zero a) (rating_or_zero b) = false) out) /\
  (sortBy filters = "rating-asc" \/ sortBy filters = "rating-desc" ->
   forall k,
     List.filter (fun r => strict_equal (rating_or_zero r) k) out
     = List.filter (fun r => strict_equal (rating_or_zero r) k)
         (List.filter (keep date_parse toLowerCase parseInt searchTerm dateRange filters)
            reviews)).
Proof.
  cbv zeta. unfold filteredReviews. split; [|split].
  - intros Hs. eapply sorted_weaken; [|apply engine_sorted; left; exact Hs].
    intros a b H. cbv beta in H. rewrite before_rating_asc in H by exact Hs. exact H.
  - intros Hs. eapply sorted_weaken; [|apply engine_sorted; right; left; exact Hs].
    intros a b H. cbv beta in H. rewrite before_rating_desc in H by exact Hs. exact H.
  - intros Hs k. apply js_sort_stable. intros a b _ _ Ha Hb.
    apply strict_equal_eq in Ha, Hb.
    destruct Hs as [Hs|Hs];
      [rewrite before_rating_asc by exact Hs | rewrite before_rating_desc by exact Hs];
      rewrite Ha, Hb; apply ltb_irrefl.
Qed.

Lemma engine_rating_order_witness :
  StronglySorted (fun a b => ltb (rating_or_zero b) (rating_or_zero a) = false)
    (filteredReviews Sample.date_parse Sample.toLowerCase Sample.parseInt "" no_dates
       (Examples.sorting "rating-asc") two_dated).
Proof.
  assert (Hs : sortBy (Examples.sorting "rating-asc") = "rating-asc") by reflexivity.
  exact (proj1 (engine_rating_order Sample.date_parse Sample.toLowerCase Sample.parseInt ""
                  no_dates (Examples.sorting "rating-asc") two_dated) Hs).
Defined.

Lemma all_dated_filter (date_parse : string -> option Z) (p : Review -> bool)
  (l : list Review) :
  all_dated date_parse (map submittedAt l) = true ->
  all_dated date_parse (map submittedAt (List.filter p l)) = true.
Proof.
  unfold all_dated. rewrite !forallb_forall. intros H text Hin.
  apply in_map_iff in Hin as (r & <- & Hr). apply filter_In in Hr as [Hr _].
  apply H. apply in_map. exact Hr.
Qed.

(** X13: when every submittedAt parses, the date orders (the default
    included) give the reviews oldest first for "date-asc" and newest first
    otherwise, reviews with the same submittedAt keeping their input
    order. *)
Theorem engine_date_order (date_parse : string -> option Z)
  (toLowerCase : string -> string) (parseInt : string -> number)
  (searchTerm : string) (dateRange : DateRange) (filters : Filters)
  (reviews : list Review) :
  all_dated date_parse (map submittedAt reviews) = true ->
  sortBy filters <> "rating-asc" -> sortBy filters <> "rating-desc" ->
  let out := filteredReviews date_parse toLowerCase parseInt searchTerm dateRange filters
               reviews in
  let time r := date_of date_parse (submittedAt r) in
  (if String.eqb (sortBy filters) "date-asc"
   then StronglySorted (fun a b => ltb (time b) (time a) = false) out
   else StronglySorted (fun a b => ltb (time a) (time b) = false) out) /\
  (forall text,
     List.filter (fun r => String.eqb (submittedAt r) text) out
     = List.filter (fun r => String.eqb (submittedAt r) text)
         (List.filter (keep date_parse toLowerCase parseInt searchTerm dateRange filters)
            reviews)).
Proof.
  intros Hall Hn1 Hn2. cbv zeta. unfold filteredReviews.
  set (kept := List.filter _ reviews).
  assert (Hkept : all_dated date_parse (map submittedAt kept) = true)
    by (apply all_dated_filter; exact Hall).
  assert (Hkey : forall x, In x kept -> is_nan (date_of date_parse (submittedAt x)) = false).
  { intros x Hx. apply time_value_parsed. unfold all_dated in Hkept.
    rewrite forallb_forall in Hkept. apply Hkept. apply in_map. exact Hx. }
  assert (Hbefore : forall a b, In a kept -> In b kept ->
            before (compare_reviews date_parse filters) a b
            = if String.eqb (sortBy filters) "date-asc"
              then ltb (date_of date_parse (submittedAt a)) (date_of date_parse (submittedAt b))
              else ltb (date_of date_parse (submittedAt b)) (date_of date_parse (submittedAt a))).
  { intros a b Ha Hb. unfold before, compare_reviews.
    destruct (String.eqb (sortBy filters) "date-asc").
    - apply sub_negative; apply Hkey; assumption.
    - destruct (String.eqb_spec (sortBy filters) "rating-asc"); [contradiction|].
      destruct (String.eqb_spec (sortBy filters) "rating-desc"); [contradiction|].
      destruct (String.eqb (sortBy filters) "date-desc");
        apply sub_negative; apply Hkey; assumption. }
  pose proof (engine_sorted date_parse filters kept (or_intror (or_intror Hkept))) as Hs.
  assert (Hin : forall x, In x (js_sort (compare_reviews date_parse filters) kept) -> In x kept)
    by (intros x; apply js_sort_In).
  split.
  - revert Hs Hin. generalize (js_sort (compare_reviews date_parse filters) kept).
    intros l Hs. induction Hs as [|x l Hs IH Hall']; intros Hin.
    + destruct (String.eqb (sortBy filters) "date-asc"); constructor.
    + assert (Hin' : forall y, In y l -> In y kept) by (intros y Hy; apply Hin; right; exact Hy).
      specialize (IH Hin').
      assert (Hx : In x kept) by (apply Hin; left; reflexivity).
      rewrite List.Forall_forall in Hall'.
      destruct (String.eqb (sortBy filters) "date-asc"); constructor; try exact IH;
        rewrite List.Forall_forall; intros y Hy;
        rewrite <- (Hall' y Hy); symmetry; apply Hbefore; auto.
  - intros text. apply js_sort_stable. intros a b Ha Hb Pa Pb.
    apply String.eqb_eq in Pa, Pb. rewrite Hbefore by assumption.
    rewrite Pa, Pb. destruct (String.eqb (sortBy filters) "date-asc"); apply ltb_irrefl.
Qed.

Lemma engine_date_order_witness :
  StronglySorted
    (fun a b => ltb (date_of Sample.date_parse (submittedAt a))
                    (date_of Sample.date_parse (submittedAt b)) = false)
    (filteredReviews Sample.date_parse Sample.toLowerCase Sample.parseInt "" no_dates
       (Examples.sorting "date-desc") two_dated).
Proof.
  assert (Hd : all_dated Sample.date_parse (map submittedAt two_dated) = true)
    by (vm_compute; reflexivity).
  assert (H1 : sortBy (Examples.sorting "date-desc") <> "rating-asc") by discriminate.
  assert (H2 : sortBy (Examples.sorting "date-desc") <> "rating-desc") by discriminate.
  exact (proj1 (engine_date_order Sample.date_parse Sample.toLowerCase Sample.parseInt ""
                  no_dates (Examples.sorting "date-desc") two_dated Hd H1 H2)).
Defined.

(** X14: under a rating order, or when every submittedAt parses, running
    the effect on its own result changes nothing. *)
Theorem engine_idempotent (date_parse : string -> option Z)
  (toLowerCase : string -> string) (parseInt : string -> number)
  (searchTerm : string) (dateRange : DateRange) (filters : Filters)
  (reviews : list Review) :
  sortBy filters = "rating-asc" \/ sortBy filters = "rating-desc"
  \/ all_dated date_parse (map submittedAt reviews) = true ->
  let engine := filteredReviews date_parse toLowerCase parseInt searchTerm dateRange filters in
  engine (engine reviews) = engine reviews.
Proof.
  intros Horder. cbv zeta. unfold filteredReviews.
  set (k := keep date_parse toLowerCase parseInt searchTerm dateRange filters).
  set (cmp := compare_reviews date_parse filters).
  rewrite (filter_all k (js_sort cmp (List.filter k reviews))).
  - apply js_sort_fixed. apply engine_sorted.
    destruct Horder as [H|[H|H]]; [left; exact H | right; left; exact H |].
    right. right. apply all_dated_filter. exact H.
  - intros x Hx. apply js_sort_In in Hx. apply filter_In in Hx. apply Hx.
Qed.

Lemma engine_idempotent_witness :
  filteredReviews Sample.date_parse Sample.toLowerCase Sample.parseInt "" no_dates
    (Examples.sorting "rating-desc")
    (filteredReviews Sample.date_parse Sample.toLowerCase Sample.parseInt "" no_dates
       (Examples.sorting "rating-desc") two_dated)
  = filteredReviews Sample.date_parse Sample.toLowerCase Sample.parseInt "" no_dates
      (Examples.sorting "rating-desc") two_dated.
Proof.
  assert (Hs : sortBy (Examples.sorting "rating-desc") = "rating-asc"
               \/ sortBy (Examples.sorting "rating-desc") = "rating-desc"
               \/ all_dated Sample.date_parse (map submittedAt two_dated) = true)
    by (right; left; reflexivity).
  exact (engine_idempotent Sample.date_parse Sample.toLowerCase Sample.parseInt "" no_dates
           (Examples.sorting "rating-desc") two_dated Hs).
Defined.

(** *** Averages shown *)

Lemma fold_add_range {A : Type} (key : A -> number) (l : list A) :
  forall (a j : Z),
  0 <= j -> j + Z.of_nat (length l) < 2 ^ 32 ->
  0 <= a <= 10 * j * U ->
  (forall x, In x l -> exists c, key x = Fin c /\ 0 <= c <= 10 * U) ->
  exists t,
    fold_left (fun sum x => add sum (key x)) l (Fin a) = Fin t
    /\ 0 <= t <= 10 * (j + Z.of_nat (length l)) * U.
Proof.
  pose proof U_pos as HU.
  induction l as [|x l IH]; intros a j Hj Hlen Ha Hall.
  - exists a. split; [reflexivity|]. cbn [length Z.of_nat]. rewrite Z.add_0_r. exact Ha.
  - destruct (Hall x (or_introl eq_refl)) as (c & Ec & Hc).
    cbn [fold_left]. rewrite Ec. cbn [add].
    rewrite length_cons, Nat2Z.inj_succ in *.
    destruct (rnd_range (a + c) 1 (10 * (j + 1))) as (k & Ek & Hk); try lia.
    rewrite Ek.
    destruct (IH k (j + 1)) as (t & Et & Ht); try lia.
    { intros y Hy. apply Hall. right. exact Hy. }
    exists t. split; [exact Et|].
    replace (j + Z.succ (Z.of_nat (length l))) with (j + 1 + Z.of_nat (length l)) by lia.
    exact Ht.
Qed.

(** The mean of values between 0 and 10 prints as a decimal between 0.0
    and 10.0. *)
Lemma mean_tenths {A : Type} (key : A -> number) (l : list A) :
  l <> [] -> Z.of_nat (length l) < 2 ^ 32 ->
  (forall x, In x l -> exists c, key x = Fin c /\ 0 <= c <= 10 * U) ->
  exists n,
    toFixed1 (div (fold_left (fun sum x => add sum (key x)) l zero) (of_nat (length l)))
    = FxDec false n /\ 0 <= n <= 100.
Proof.
  intros Hne Hlen Hall. pose proof U_pos as HU.
  destruct (fold_add_range key l 0 0 ltac:(lia) ltac:(lia) ltac:(lia) Hall) as (t & Et & Ht).
  assert (Hpos : 0 < Z.of_nat (length l)).
  { destruct l; [congruence|]. rewrite length_cons. lia. }
  unfold zero. rewrite Et. unfold of_nat. rewrite of_Z_exact by lia. cbn [div].
  destruct (Z.eqb_spec (Z.of_nat (length l) * U) 0); [nia|].
  destruct (Z.ltb_spec 0 (Z.of_nat (length l) * U)); [|nia].
  destruct (rnd_range (t * U) (Z.of_nat (length l) * U) 10) as (k & Ek & Hk);
    try nia; try lia.
  rewrite Ek. unfold toFixed1.
  destruct (Z.ltb_spec k 0); [lia|].
  rewrite Z.abs_eq by lia.
  destruct (Z.leb_spec (10 ^ 21 * U) k); [lia|].
  eexists. split; [reflexivity|]. split.
  - apply Z.div_pos; lia.
  - apply Z.lt_succ_r. apply Z.div_lt_upper_bound; lia.
Qed.

(** X15: getStats counts every review once, as approved or as pending;
    and when the ratings are falsy or numbers in [0,10] the average it shows
    is a decimal between 0.0 and 10.0 with one fraction digit. *)
Theorem getStats_summary (l : list Review) :
  total (getStats l) = length l /\
  st_approved (getStats l) = length (approvedReviews l) /\
  (st_approved (getStats l) + pending (getStats l) = total (getStats l))%nat /\
  (l <> [] -> Z.of_nat (length l) < 2 ^ 32 ->
   (forall r, In r l -> on_scale (rating r) = true) ->
   exists n, 0 <= n <= 100 /\ avgRating (getStats l) = render (FxDec false n)).
Proof.
  split; [reflexivity|]. split; [reflexivity|]. split.
  - cbn [getStats total st_approved pending].
    pose proof (filter_length_le approved l). lia.
  - intros Hne Hlen Hall. cbn [getStats avgRating].
    destruct l as [|r l]; [congruence|]. cbn [length Nat.ltb Nat.leb].
    destruct (mean_tenths rating_or_zero (r :: l) Hne Hlen) as (n & En & Hn).
    + intros x Hx. apply score_range. apply Hall. exact Hx.
    + exists n. split; [exact Hn|]. cbn [length] in En. rewrite En. reflexivity.
Qed.

Lemma getStats_summary_witness :
  exists n, 0 <= n <= 100 /\ avgRating (getStats two_dated) = render (FxDec false n).
Proof.
  assert (Hne : two_dated <> []) by discriminate.
  assert (Hlen : Z.of_nat (length two_dated) < 2 ^ 32) by (vm_compute; reflexivity).
  assert (Hall : forall r, In r two_dated -> on_scale (rating r) = true).
  { intros r [<-|[<-|[]]]; vm_compute; reflexivity. }
  exact (proj2 (proj2 (proj2 (getStats_summary two_dated))) Hne Hlen Hall).
Defined.

Lemma category_rating_range (name : string) (r : Review) :
  forallb (fun c => on_scale (cat_rating c)) (reviewCategory r) = true ->
  exists c, category_rating name r = Fin c /\ 0 <= c <= 10 * U.
Proof.
  intros Hall. unfold category_rating. pose proof U_pos.
  destruct (List.find _ (reviewCategory r)) as [cat|] eqn:F.
  - apply find_some in F as [Hin _]. apply score_range.
    rewrite forallb_forall in Hall. apply Hall. exact Hin.
  - exists 0. split; [reflexivity|lia].
Qed.

(** X16: the category score of the property page is "0.0" when no
    approved review has the category, and for scores that are falsy or in
    [0,10] it is a decimal between 0.0 and 10.0 with one fraction digit. *)
Theorem avgScore_summary (name : string) (l : list Review) :
  ((forall r, In r l -> has_category name r = false) -> avgScore name l = "0.0") /\
  (Z.of_nat (length l) < 2 ^ 32 ->
   (forall r, In r l ->
      forallb (fun c => on_scale (cat_rating c)) (reviewCategory r) = true) ->
   exists n, 0 <= n <= 100 /\ avgScore name l = render (FxDec false n)).
Proof.
  split.
  - intros Hnone. unfold avgScore.
    assert (E : List.filter (has_category name) l = []).
    { induction l as [|r l IH]; [reflexivity|]. cbn.
      rewrite (Hnone r) by (left; reflexivity). apply IH.
      intros x Hx. apply Hnone. right. exact Hx. }
    rewrite E. reflexivity.
  - intros Hlen Hall. unfold avgScore.
    destruct (List.filter (has_category name) l) as [|r rest] eqn:E.
    + exists 0. split; [lia|]. reflexivity.
    + cbn [length Nat.ltb Nat.leb].
      destruct (mean_tenths (category_rating name) (r :: rest)) as (n & En & Hn).
      * discriminate.
      * rewrite <- E. pose proof (filter_length_le (has_category name) l). lia.
      * intros x Hx. apply category_rating_range. apply Hall.
        rewrite <- E in Hx. apply filter_In in Hx. apply Hx.
      * exists n. split; [exact Hn|]. cbn [length] in En. rewrite En. reflexivity.
Qed.

Lemma avgScore_summary_witness : avgScore "cleanliness" two_dated = "0.0".
Proof.
  assert (Hnone : forall r, In r two_dated -> has_category "cleanliness" r = false).
  { intros r [<-|[<-|[]]]; reflexivity. }
  exact (proj1 (avgScore_summary "cleanliness" two_dated) Hnone).
Defined.

(** *** toggleApproval *)

Lemma id_key_inj (a b : Z) : id_key a = id_key b -> a = b.
Proof. unfold id_key. apply pretty_Z_inj. Qed.

Lemma update_normalized (reviewId : Z) (flag : bool) (s : Approvals) (raw : RawReview) :
  (if id (fst (normalize raw s)) =? reviewId
   then with_approved (fst (normalize raw s)) flag else fst (normalize raw s))
  = fst (normalize raw (<[id_key reviewId := flag]> s)).
Proof.
  cbn [normalize bind getApproval ret fst id].
  destruct (Z.eqb_spec (raw_id raw) reviewId) as [E|N].
  - rewrite E. unfold with_approved. cbn. rewrite lookup_insert_eq. reflexivity.
  - rewrite lookup_insert_ne; [reflexivity|].
    intros H. apply id_key_inj in H. congruence.
Qed.

Lemma fetch_data_eq (reply : ChannelReply) (s : Approvals) :
  fetch_data (fst (get_reviews_hostaway reply s))
  = match reply with
    | ChannelMalformed _ => []
    | _ => map (fun raw => fst (normalize raw s)) (chosen_source reply)
    end.
Proof.
  destruct reply as [|result|message]; cbn [get_reviews_hostaway]; [| |reflexivity];
    unfold respond_reviews, bind; rewrite mapM_normalize; cbn [fst ret fetch_data];
    unfold chosen_source;
    match goal with |- context [apiReviews_of ?r] => destruct (apiReviews_of r) end;
    reflexivity.
Qed.

(** X17: after toggleApproval the reviews held by the dashboard are
    exactly what a new fetch returns from the server: the local update and
    the stored flag agree, for every id and flag. *)
Theorem toggle_matches_refetch (reply : ChannelReply) (s : Approvals) (reviewId : Z)
  (flag : bool) :
  let shown := fetch_data (fst (get_reviews_hostaway reply s)) in
  let after := toggleApproval reviewId flag shown s in
  snd after = <[id_key reviewId := flag]> s /\
  fst after = fetch_data (fst (get_reviews_hostaway reply (snd after))).
Proof.
  cbv zeta. unfold toggleApproval, bind.
  cbn [patch_review_approval bind store_set ret patch_success fst snd].
  split; [reflexivity|].
  rewrite !fetch_data_eq. unfold update_approval.
  destruct reply as [|result|message]; [| |reflexivity];
    rewrite map_map; apply map_ext; intros raw; apply update_normalized.
Qed.

(** X18: the local update of toggleApproval keeps the ids and every
    field but the approval flag, sets the flag of the reviews with the given
    id and of no other; a second toggle of the same id overrides the first
    and toggles of different ids commute. *)
Theorem update_approval_local (reviewId : Z) (flag : bool) (prev : list Review) :
  map id (update_approval reviewId flag prev) = map id prev /\
  Forall2 (fun old new =>
             with_approved old true = with_approved new true /\
             approved new = if id old =? reviewId then flag else approved old)
    prev (update_approval reviewId flag prev) /\
  (forall flag', update_approval reviewId flag' (update_approval reviewId flag prev)
                 = update_approval reviewId flag' prev) /\
  (forall other flag', other <> reviewId ->
     update_approval other flag' (update_approval reviewId flag prev)
     = update_approval reviewId flag (update_approval other flag' prev)).
Proof.
  unfold update_approval. split; [|split; [|split]].
  - rewrite map_map. apply map_ext. intros r. destruct (id r =? reviewId); reflexivity.
  - induction prev as [|r prev IH]; cbn [map]; constructor; [|exact IH].
    destruct r. cbn. destruct (id0 =? reviewId); cbn; repeat split.
  - intros flag'. rewrite map_map. apply map_ext. intros r.
    destruct (Z.eqb_spec (id r) reviewId) as [E|N]; cbn [with_approved id].
    + rewrite (proj2 (Z.eqb_eq _ _) E). reflexivity.
    + rewrite (proj2 (Z.eqb_neq _ _) N). reflexivity.
  - intros other flag' Hne. rewrite !map_map. apply map_ext. intros r.
    destruct (Z.eqb_spec (id r) reviewId) as [E|N];
      destruct (Z.eqb_spec (id r) other) as [E'|N']; cbn [with_approved id];
      rewrite ?(proj2 (Z.eqb_eq _ _) E), ?(proj2 (Z.eqb_neq _ _) N),
              ?(proj2 (Z.eqb_eq _ _) E'), ?(proj2 (Z.eqb_neq _ _) N');
      try reflexivity; congruence.
Qed.

Lemma update_approval_local_witness :
  update_approval 3 true (update_approval 1 false two_dated)
  = update_approval 1 false (update_approval 3 true two_dated).
Proof.
  assert (Hne : 3 <> 1) by discriminate.
  exact (proj2 (proj2 (proj2 (update_approval_local 1 false two_dated))) 3 true Hne).
Defined.

(** *** CSV quoting *)

(** X19: the quoting of the review text in the CSV export is
    reversible: collapsing doubled quotes gives back the text, two texts
    with the same quoted form are equal, and quoting never shortens. *)
Theorem escape_quotes_round_trip (s t : string) :
  unescape_quotes (escape_quotes s) = s /\
  (escape_quotes s = escape_quotes t -> s = t) /\
  (String.length (escape_quotes s) >= String.length s)%nat.
Proof.
  assert (Hrt : forall u, unescape_quotes (escape_quotes u) = u).
  { induction u as [|c u IH]; [reflexivity|]. cbn [escape_quotes].
    destruct (Ascii.eqb c quote) eqn:E.
    - apply Ascii.eqb_eq in E. subst c. cbn [unescape_quotes].
      rewrite Ascii.eqb_refl. rewrite IH. reflexivity.
    - cbn [unescape_quotes]. rewrite E, IH. reflexivity. }
  split; [apply Hrt|]. split.
  - intros H. rewrite <- (Hrt s), <- (Hrt t), H. reflexivity.
  - induction s as [|c s IH]; cbn [escape_quotes String.length]; [lia|].
    destruct (Ascii.eqb c quote); cbn [String.length]; lia.
Qed.

Lemma escape_quotes_round_trip_witness :
  unescape_quotes (escape_quotes quoted_text) = quoted_text.
Proof. exact (proj1 (escape_quotes_round_trip quoted_text quoted_text)). Defined.

(** *** Property and channel lists *)

Lemma existsb_eqb_In (name : string) (seen : list string) :
  existsb (String.eqb name) seen = true <-> In name seen.
Proof.
  rewrite existsb_exists. split.
  - intros (x & Hx & E). apply String.eqb_eq in E. subst x. exact Hx.
  - intros H. exists name. split; [exact H | apply String.eqb_refl].
Qed.

Lemma set_values_spec (names : list string) :
  forall seen, NoDup seen ->
  NoDup (fold_left set_add names seen) /\
  (forall x, In x (fold_left set_add names seen) <-> In x seen \/ In x names).
Proof.
  induction names as [|n names IH]; intros seen Hnd; cbn [fold_left].
  - split; [exact Hnd|]. intros x. cbn. tauto.
  - unfold set_add at 2 4. destruct (existsb (String.eqb n) seen) eqn:E.
    + destruct (IH seen Hnd) as [H1 H2]. split; [exact H1|].
      intros x. rewrite H2. apply existsb_eqb_In in E. cbn. intuition congruence.
    + assert (Hn : ~ In n seen).
      { intros H. apply existsb_eqb_In in H. congruence. }
      assert (Hnd' : NoDup (seen ++ [n])).
      { apply NoDup_app. split; [exact Hnd|]. split.
        - intros x Hx Hx'. apply list_elem_of_In in Hx, Hx'.
          cbn in Hx'. destruct Hx' as [->|[]]. contradiction.
        - constructor; [intros H; apply list_elem_of_In in H; destruct H|constructor]. }
      destruct (IH (seen ++ [n]) Hnd') as [H1 H2]. split; [exact H1|].
      intros x. rewrite H2, in_app_iff. cbn. tauto.
Qed.

(** *** getAnalytics *)

Lemma by_property_lookup (reviews : list Review) (name : string) :
  fold_left by_property_step reviews ∅ !! name
  = if inherited_key name then None
    else match of_listing name reviews with
         | [] => None
         | x :: l => Some (fold_left pa_entry_step (x :: l) pa_entry_init)
         end.
Proof.
  apply (own_entries_from_empty listingName pa_entry_step pa_entry_init by_property_step).
  intros m r. reflexivity.
Qed.

Lemma by_channel_lookup (reviews : list Review) (name : string) :
  fold_left by_channel_step reviews ∅ !! name
  = if inherited_key name then None
    else match of_channel name reviews with
         | [] => None
         | x :: l => Some (fold_left ca_entry_step (x :: l) ca_entry_init)
         end.
Proof.
  apply (own_entries_from_empty channel ca_entry_step ca_entry_init by_channel_step).
  intros m r. reflexivity.
Qed.

Lemma pa_entry_fold (group : list Review) :
  forall e,
  fold_left pa_entry_step group e
  = {| pa_count := pa_count e + length group;
       pa_totalRating :=
         fold_left (fun sum r => add sum (to_number (rating r))) group (pa_totalRating e);
       pa_approved := pa_approved e + length (List.filter approved group) |}.
Proof.
  induction group as [|r group IH]; intros e.
  - destruct e. cbn. f_equal; lia.
  - cbn [fold_left]. rewrite IH. cbn [pa_entry_step pa_count pa_approved
      pa_totalRating List.filter length].
    destruct (approved r); cbn [length]; f_equal; lia.
Qed.

Lemma ca_entry_fold (group : list Review) :
  forall e,
  fold_left ca_entry_step group e
  = {| ca_count := ca_count e + length group;
       ca_totalRating :=
         fold_left (fun sum r => add sum (to_number (rating r))) group (ca_totalRating e) |}.
Proof.
  induction group as [|r group IH]; intros e.
  - destruct e. cbn. f_equal; lia.
  - cbn [fold_left]. rewrite IH. cbn [ca_entry_step ca_count ca_totalRating length].
    f_equal; lia.
Qed.

(** X20: the tables of getAnalytics hold no entry under a key inherited
    from Object.prototype (a listing or channel named "constructor", say,
    gets none); for every other listing name and channel they hold exactly
    the aggregate of the reviews of that listing or channel: their number,
    the sum of their ratings and, per listing, how many are approved; a name
    without reviews has no entry. *)
Theorem analytics_groups (reviews : list Review) (name : string) :
  byProperty (getAnalytics reviews) !! name
  = (if inherited_key name then None
     else match of_listing name reviews with
          | [] => None
          | group => Some {| pa_count := length group;
                             pa_totalRating := plain_total group;
                             pa_approved := length (List.filter approved group) |}
          end) /\
  byChannel (getAnalytics reviews) !! name
  = (if inherited_key name then None
     else match of_channel name reviews with
          | [] => None
          | group => Some {| ca_count := length group;
                             ca_totalRating := plain_total group |}
          end).
Proof.
  cbn [getAnalytics byProperty byChannel]. split.
  - rewrite by_property_lookup. destruct (inherited_key name); [reflexivity|].
    destruct (of_listing name reviews) as [|r group]; [reflexivity|].
    rewrite pa_entry_fold. reflexivity.
  - rewrite by_channel_lookup. destruct (inherited_key name); [reflexivity|].
    destruct (of_channel name reviews) as [|r group]; [reflexivity|].
    rewrite ca_entry_fold. reflexivity.
Qed.

Lemma filter_nil_iff {A} (p : A -> bool) (l : list A) :
  List.filter p l = [] <-> forall x, In x l -> p x = false.
Proof.
  induction l as [|x l IH]; cbn.
  - split; [intros _ y []|reflexivity].
  - destruct (p x) eqn:E.
    + split; [discriminate|]. intros H. specialize (H x (or_introl eq_refl)). congruence.
    + rewrite IH. split.
      * intros H y [<-|Hy]; [exact E|apply H; exact Hy].
      * intros H y Hy. apply H. right. exact Hy.
Qed.

(** X21: the property and channel lists of the filter menus have no
    duplicates and hold exactly the listing names and channels that occur in
    the reviews; the keys of the analytics tables are exactly the names of
    these lists that are not inherited from Object.prototype, so a listed
    name such as "constructor" has no analytics entry. *)
Theorem property_and_channel_lists (reviews : list Review) :
  NoDup (properties reviews) /\ NoDup (channels reviews) /\
  (forall name, In name (properties reviews) <->
                exists r, In r reviews /\ listingName r = name) /\
  (forall name, In name (channels reviews) <->
                exists r, In r reviews /\ channel r = name) /\
  (forall name, In name (properties reviews) /\ inherited_key name = false <->
                is_Some (byProperty (getAnalytics reviews) !! name)) /\
  (forall name, In name (channels reviews) /\ inherited_key name = false <->
                is_Some (byChannel (getAnalytics reviews) !! name)).
Proof.
  unfold properties, channels, set_values.
  destruct (set_values_spec (map listingName reviews) [] NoDup_nil_2) as [P1 P2].
  destruct (set_values_spec (map channel reviews) [] NoDup_nil_2) as [C1 C2].
  assert (HP : forall name, In name (fold_left set_add (map listingName reviews) []) <->
                 exists r, In r reviews /\ listingName r = name).
  { intros name. rewrite P2, in_map_iff. cbn. split.
    - intros [[]|(r & E & Hr)]. exists r. split; assumption.
    - intros (r & Hr & E). right. exists r. split; assumption. }
  assert (HC : forall name, In name (fold_left set_add (map channel reviews) []) <->
                 exists r, In r reviews /\ channel r = name).
  { intros name. rewrite C2, in_map_iff. cbn. split.
    - intros [[]|(r & E & Hr)]. exists r. split; assumption.
    - intros (r & Hr & E). right. exists r. split; assumption. }
  split; [exact P1|]. split; [exact C1|]. split; [exact HP|]. split; [exact HC|].
  split; intros name.
  - rewrite HP. cbn [getAnalytics byProperty]. rewrite by_property_lookup.
    destruct (inherited_key name).
    { split; [intros [_ H]; discriminate H | intros [x Hx]; discriminate Hx]. }
    destruct (of_listing name reviews) as [|r group] eqn:E.
    + split; [|intros [x Hx]; discriminate Hx].
      intros [(r & Hr & Er) _]. exfalso.
      unfold of_listing in E. rewrite filter_nil_iff in E. specialize (E r Hr).
      cbv beta in E. rewrite Er, String.eqb_refl in E. discriminate.
    + split; [intros _; eexists; reflexivity|]. intros _. split; [|reflexivity].
      assert (Hin : In r (of_listing name reviews)) by (rewrite E; left; reflexivity).
      unfold of_listing in Hin. apply filter_In in Hin as [Hr He].
      apply String.eqb_eq in He. exists r. split; assumption.
  - rewrite HC. cbn [getAnalytics byChannel]. rewrite by_channel_lookup.
    destruct (inherited_key name).
    { split; [intros [_ H]; discriminate H | intros [x Hx]; discriminate Hx]. }
    destruct (of_channel name reviews) as [|r group] eqn:E.
    + split; [|intros [x Hx]; discriminate Hx].
      intros [(r & Hr & Er) _]. exfalso.
      unfold of_channel in E. rewrite filter_nil_iff in E. specialize (E r Hr).
      cbv beta in E. rewrite Er, String.eqb_refl in E. discriminate.
    + split; [intros _; eexists; reflexivity|]. intros _. split; [|reflexivity].
      assert (Hin : In r (of_channel name reviews)) by (rewrite E; left; reflexivity).
      unfold of_channel in Hin. apply filter_In in Hin as [Hr He].
      apply String.eqb_eq in He. exists r. split; assumption.
Qed.

Lemma property_and_channel_lists_witness : In "hostaway" (channels two_dated).
Proof.
  apply (proj2 (proj1 (proj2 (proj2 (proj2 (property_and_channel_lists two_dated))))
                  "hostaway")).
  exists Examples.valid_dated. split; [left; reflexivity | reflexivity].
Defined.

Lemma fold_left_over_map {A B C : Type} (f : C -> B -> C) (g : A -> B) (l : list A) (c : C) :
  fold_left f (map g l) c = fold_left (fun acc x => f acc (g x)) l c.
Proof. revert c. induction l as [|x l IH]; intros c; [reflexivity|]. cbn. apply IH. Qed.

(** X22: the per-property analytics that the dashboard computes from
    fetched reviews agree with the per-property statistics that the server
    computes from the same table and store: the same counts, approved counts
    and rating sums for every listing. *)
Theorem analytics_agree_with_statistics (date_parse : string -> option Z)
  (table : list RawReview) (s : Approvals) (name : string) :
  let shown := map (fun raw => fst (normalize raw s)) table in
  (fun e => (pa_count e, pa_approved e, pa_totalRating e))
    <$> (byProperty (getAnalytics shown) !! name)
  = (fun e => (ps_total e, ps_approved e, ps_totalRating e))
    <$> (stats_byProperty (fst (statistics_over date_parse table s)) !! name).
Proof.
  cbv zeta. rewrite statistics_over_eq. cbn [fst statistics_of stats_byProperty
    getAnalytics byProperty].
  rewrite lookup_fmap, property_fold_lookup, by_property_lookup.
  destruct (inherited_key name); [reflexivity|].
  unfold of_listing, scored_of_listing.
  rewrite (filter_map_commute (fun raw => fst (normalize raw s))
             (fun r => String.eqb (listingName r) name)
             (fun raw => String.eqb (raw_listingName raw) name))
    by (intros raw; reflexivity).
  rewrite (filter_map_commute (scored_in s)
             (fun r => String.eqb (raw_listingName (base r)) name)
             (fun raw => String.eqb (raw_listingName raw) name))
    by (intros raw; reflexivity).
  destruct (List.filter (fun raw => String.eqb (raw_listingName raw) name) table)
    as [|raw group]; [reflexivity|].
  set (T := raw :: group).
  change (map (fun raw0 => fst (normalize raw0 s)) T)
    with (fst (normalize raw s) :: map (fun raw0 => fst (normalize raw0 s)) group) at 1.
  change (map (scored_in s) T) with (scored_in s raw :: map (scored_in s) group) at 1.
  cbv iota. fold T.
  change (fst (normalize raw s) :: map (fun raw0 => fst (normalize raw0 s)) group)
    with (map (fun raw0 => fst (normalize raw0 s)) T).
  change (scored_in s raw :: map (scored_in s) group) with (map (scored_in s) T).
  rewrite pa_entry_fold, stat_entry_fold.
  cbn [fmap option_fmap option_map default pa_entry_init stat_entry_init property_average
       pa_count pa_approved pa_totalRating ps_total ps_approved ps_totalRating].
  rewrite !length_map.
  rewrite (filter_map_commute (fun raw0 => fst (normalize raw0 s)) approved (approved_in s))
    by (intros a; reflexivity).
  rewrite (filter_map_commute (scored_in s) sr_approved (approved_in s))
    by (intros a; reflexivity).
  rewrite !length_map, !fold_left_over_map. reflexivity.
Qed.

(** *** generateStars *)

Lemma double_even (k : Z) : round_mag k 1 = k -> 2 ^ 53 <= k -> Z.even k = true.
Proof.
  intros Hr Hk. unfold round_mag in Hr. rewrite Z.div_1_r in Hr.
  destruct (Z.ltb_spec k (2 ^ 53)); [lia|].
  destruct (binade k Hk) as (Hs & HP & _).
  set (s := Z.log2 k - 52) in *.
  rewrite <- Hr. replace s with (1 + (s - 1)) by lia.
  rewrite Z.pow_add_r by lia. rewrite Z.mul_assoc, Z.even_mul, Z.even_mul.
  change (Z.even (2 ^ 1)) with true. rewrite orb_true_r. reflexivity.
Qed.

Lemma double_half (j : Z) : 0 <= j -> round_mag (2 * j) 1 = 2 * j -> round_mag j 1 = j.
Proof.
  intros Hj Hr. unfold round_mag in *. rewrite Z.div_1_r in *.
  destruct (Z.ltb_spec j (2 ^ 53)) as [Hs|Hb].
  - rewrite <- (Z.mul_1_r j) at 1. apply rne_exact. lia.
  - destruct (Z.ltb_spec (2 * j) (2 ^ 53)); [lia|].
    assert (Hl : Z.log2 (2 * j) = Z.succ (Z.log2 j)) by (apply Z.log2_double; lia).
    rewrite Hl in Hr.
    destruct (binade j Hb) as (Hs1 & HP & _).
    set (s := Z.log2 j - 52) in *.
    replace (Z.succ (Z.log2 j) - 52) with (s + 1) in Hr by (unfold s; lia).
    rewrite Z.pow_add_r in Hr by lia. change (2 ^ 1) with 2 in Hr.
    set (P := 2 ^ s) in *. rewrite !Z.mul_1_l in *.
    set (m := rne (2 * j) (P * 2)) in *.
    assert (Ej : j = m * P) by lia.
    rewrite Ej at 1. rewrite rne_exact by lia. lia.
Qed.

Lemma half_floor (k : Z) :
  0 <= k <= 10 * U -> round_mag k 1 = k ->
  floor (div (Fin k) (of_Z 2)) = Fin (k / (2 * U) * U).
Proof.
  intros Hk Hd. pose proof U_pos as HU.
  rewrite of_Z_exact by lia. cbn [div].
  destruct (Z.eqb_spec (2 * U) 0); [lia|].
  destruct (Z.ltb_spec 0 (2 * U)); [|lia].
  destruct (rnd_bounded (k * U) (2 * U) 5) as [Er Hr]; try nia; try lia.
  rewrite Er. cbn [floor]. f_equal. f_equal.
  rewrite round_mag_cancel in * by lia.
  assert (HU53 : 2 ^ 53 < U) by (apply Z.ltb_lt; vm_compute; reflexivity).
  destruct (Z.even k) eqn:Ev.
  - apply Z.even_spec in Ev as [j Ej]. subst k.
    replace (2 * j) with (j * 2) at 1 by lia.
    change 2 with (1 * 2) at 2. rewrite round_mag_cancel by lia.
    rewrite (double_half j) by (try lia; exact Hd).
    rewrite Z.div_mul_cancel_l by lia. reflexivity.
  - assert (Hsmall : k < 2 ^ 53).
    { destruct (Z_lt_le_dec k (2 ^ 53)) as [|Hbig]; [assumption|].
      rewrite (double_even k Hd Hbig) in Ev. discriminate. }
    pose proof (round_mag_low k 2 ltac:(lia) ltac:(lia)) as Hlow.
    assert (Hq : k / 2 < 2 ^ 53) by (apply Z.div_lt_upper_bound; lia).
    specialize (Hlow Hq).
    pose proof (round_mag_nonneg k 2 ltac:(lia) ltac:(lia)).
    rewrite !Z.div_small by lia. reflexivity.
Qed.

Lemma safe_rating (v : value) :
  holds_double v = true ->
  exists k,
    math_max zero (math_min (of_Z 10) (to_number (or_else v (JNum zero)))) = Fin k
    /\ 0 <= k <= 10 * U /\ round_mag k 1 = k.
Proof.
  intros Hd. pose proof U_pos as HU.
  assert (Hcases : exists x, to_number (or_else v (JNum zero)) = x /\ is_nan x = false
                             /\ is_double x = true).
  { unfold or_else. destruct (to_boolean v) eqn:T.
    - destruct v as [| | |x]; try discriminate T.
      + destruct b; [|discriminate T]. exists (of_Z 1). split; [reflexivity|].
        split; vm_compute; reflexivity.
      + exists x. split; [reflexivity|]. split; [|exact Hd].
        destruct x; try reflexivity. discriminate T.
    - exists zero. split; [reflexivity|]. split; vm_compute; reflexivity. }
  destruct Hcases as (x & -> & Hn & Hx).
  destruct x as [| | |k]; try discriminate Hn.
  all: assert (H10 : of_Z 10 = Fin (10 * U)) by (apply of_Z_exact; lia).
  all: assert (R10 : round_mag (10 * U) 1 = 10 * U)
    by (apply (round_mag_exact 10 1074); lia).
  all: assert (R0 : round_mag 0 1 = 0) by (vm_compute; reflexivity).
  all: rewrite H10.
  - exists (10 * U). unfold math_min, math_max. cbn [is_nan orb ltb zero].
    destruct (Z.ltb_spec 0 (10 * U)); [|lia]. split; [reflexivity|]. split; [lia|exact R10].
  - exists 0. unfold math_min, math_max. cbn. split; [reflexivity|]. split; [lia|exact R0].
  - cbn [is_double] in Hx. apply andb_prop in Hx as [Hx _]. apply Z.eqb_eq in Hx.
    unfold math_min. cbn [is_nan orb ltb].
    destruct (Z.ltb_spec k (10 * U)) as [Hlt|Hge].
    + unfold math_max, zero. cbn [is_nan orb ltb].
      destruct (Z.ltb_spec 0 k) as [Hpos|Hneg].
      * exists k. split; [reflexivity|]. split; [lia|].
        rewrite Z.abs_eq in Hx by lia. exact Hx.
      * exists 0. split; [reflexivity|]. split; [lia|exact R0].
    + unfold math_max, zero. cbn [is_nan orb ltb].
      destruct (Z.ltb_spec 0 (10 * U)); [|lia].
      exists (10 * U). split; [reflexivity|]. split; [lia|exact R10].
Qed.

Lemma sub_small_integers (a b : Z) :
  0 <= b <= a -> a < 2 ^ 53 -> sub (Fin (a * U)) (Fin (b * U)) = Fin ((a - b) * U).
Proof.
  intros Hb Ha. cbn [sub neg add].
  replace (a * U + - (b * U)) with ((a - b) * U) by ring.
  change (rnd ((a - b) * U) 1) with (of_Z (a - b)). apply of_Z_exact. lia.
Qed.

(** X23: generateStars always draws five stars: for every rating the
    engine can hold, the full stars are a whole number from 0 to 5, and full,
    half and empty stars add up to 5. *)
Theorem five_stars (v : value) :
  holds_double v = true ->
  exists full empty : Z,
    fullStars (generateStars v) = of_Z full /\
    emptyStars (generateStars v) = of_Z empty /\
    0 <= full <= 5 /\ 0 <= empty /\
    full + (if halfStar (generateStars v) then 1 else 0) + empty = 5.
Proof.
  intros Hd. pose proof U_pos as HU.
  destruct (safe_rating v Hd) as (k & Ek & Hk & Hr).
  unfold generateStars. cbv zeta. cbn [fullStars halfStar emptyStars]. rewrite Ek.
  rewrite (half_floor k Hk Hr).
  set (F := k / (2 * U)).
  assert (HF : 0 <= F <= 5).
  { unfold F. split; [apply Z.div_pos; lia|].
    apply Z.lt_succ_r. apply Z.div_lt_upper_bound; lia. }
  pose proof (Z.div_mod k (2 * U) ltac:(lia)) as Hdm. fold F in Hdm.
  pose proof (Z.mod_pos_bound k (2 * U) ltac:(lia)) as Hm.
  assert (Hrem : rem (Fin k) (of_Z 2) = Fin (k mod (2 * U))).
  { rewrite of_Z_exact by lia. cbn [rem].
    destruct (Z.eqb_spec (2 * U) 0); [lia|]. rewrite Z.rem_mod_nonneg by lia. reflexivity. }
  rewrite Hrem. rewrite (of_Z_exact 1), (of_Z_exact 5) by lia.
  unfold geb. cbn [leb]. rewrite Z.mul_1_l.
  exists F.
  destruct (Z.leb_spec U (k mod (2 * U))) as [Hh|Hh].
  - exists (5 - F - 1).
    assert (F <= 4) by nia.
    rewrite sub_small_integers by lia.
    change (Fin U) with (Fin (1 * U)) at 1. rewrite Z.mul_1_l.
    replace (Fin U) with (Fin (1 * U)) by (rewrite Z.mul_1_l; reflexivity).
    rewrite sub_small_integers by lia.
    rewrite !of_Z_exact by lia. unfold math_max, zero. cbn [is_nan orb ltb].
    split; [reflexivity|]. split.
    + destruct (Z.ltb_spec 0 ((5 - F - 1) * U)); [reflexivity|]. f_equal. nia.
    + lia.
  - exists (5 - F).
    rewrite sub_small_integers by lia.
    change zero with (Fin (0 * U)) at 2.
    rewrite sub_small_integers by lia.
    rewrite !of_Z_exact by lia. unfold math_max, zero. cbn [is_nan orb ltb].
    split; [reflexivity|]. split.
    + rewrite Z.sub_0_r. destruct (Z.ltb_spec 0 ((5 - F) * U)); [reflexivity|]. f_equal. nia.
    + lia.
Qed.

Lemma five_stars_witness :
  exists full empty : Z,
    fullStars (generateStars (JNum (of_decimal 95 1))) = of_Z full /\
    emptyStars (generateStars (JNum (of_decimal 95 1))) = of_Z empty /\
    0 <= full <= 5 /\ 0 <= empty /\
    full + (if halfStar (generateStars (JNum (of_decimal 95 1))) then 1 else 0) + empty = 5.
Proof.
  assert (Hd : holds_double (JNum (of_decimal 95 1)) = true) by (vm_compute; reflexivity).
  exact (five_stars (JNum (of_decimal 95 1)) Hd).
Defined.

